(** * Evidence gathering tool (jira/helper): a shallow embedding

    The Go sources of the helper (config.go, git.go, jira_client.go,
    jira_models.go, jira_utils.go, markdown_generator.go, modes.go, main.go)
    are embedded as Rocq functions.  Go strings are byte strings, so they are
    modelled by [string] (a list of 8-bit characters).  External
    collaborators are explicit values: the git binary is the [execCommand]
    field of [GitService] (as in the source), the tracker is the [IssueGet]
    field of [JiraClient], the wall clock and the iteration order of Go maps
    are arguments of the functions that consult them. *)

From Stdlib Require Import Ascii List ZArith Lia Bool DecimalString.
From Stdlib Require String.
From stdpp Require Import gmap strings list fin_maps.

#[local] Set Warnings "-register-all,-clear-no-such-hyp".

(** ** Go's [error] values *)

Inductive error : Type :=
| errorString (msg : string)
| GitError (Operation : string) (Err : error)
| ValidationError (Field Value : string) (Err : error).

(** The [Error()] methods of errors.go; [errorString] stands for the values
    built by [fmt.Errorf] and [errors.New]. *)
Fixpoint Error (e : error) : string :=
  match e with
  | errorString msg => msg
  | GitError op err =>
      "git operation '" +:+ op +:+ "' failed: " +:+ Error err
  | ValidationError field value err =>
      "validation failed for " +:+ field +:+ "='" +:+ value +:+ "': " +:+ Error err
  end.

(** ** Slices

    A Go slice is either [nil] or a (possibly empty) sequence; the two are
    told apart by [encoding/json] and by [reflect.DeepEqual]. *)

Definition slice (A : Type) : Type := option (list A).

Definition elems {A} (s : slice A) : list A :=
  match s with
  | None => []
  | Some l => l
  end.

Definition len {A} (s : slice A) : nat := length (elems s).

(** [append(s, x)] *)
Definition append {A} (s : slice A) (x : A) : slice A := Some (elems s ++ [x]).

(** ** Package strings *)

Module strings.

(** [strings.Split(s, "\n")]: the separator is the single byte 10. *)
Fixpoint SplitLines (s : string) : list string :=
  match s with
  | EmptyString => [EmptyString]
  | String c s' =>
      if Ascii.eqb c "010"%char then EmptyString :: SplitLines s'
      else match SplitLines s' with
           | [] => [String c EmptyString]
           | h :: t => String c h :: t
           end
  end.

(** [strings.Join(elems, sep)] *)
Fixpoint Join (l : list string) (sep : string) : string :=
  match l with
  | [] => ""
  | [x] => x
  | x :: rest => x +:+ sep +:+ Join rest sep
  end.

(** [strings.ReplaceAll(s, "\n", new)] for the one-byte pattern used by
    the report generator. *)
Fixpoint ReplaceNewlines (s new : string) : string :=
  match s with
  | EmptyString => EmptyString
  | String c s' =>
      if Ascii.eqb c "010"%char then new +:+ ReplaceNewlines s' new
      else String c (ReplaceNewlines s' new)
  end.

(** [strings.HasPrefix(s, p)] *)
Definition HasPrefix (s p : string) : bool := String.prefix p s.

End strings.

(** ** Package regexp

    A compiled pattern is used through two methods only:
    [FindAllString(s, -1)] and [MatchString(s)].  The program is
    parametric in the pattern, so a compiled pattern is the pair of these
    two methods. *)

Record Regexp : Type := mkRegexp {
  FindAllString : string -> list string;
  MatchString : string -> bool
}.

(** ** Iteration over a Go map

    [for k, v := range m] visits every entry exactly once, in an order the
    language leaves unspecified and that may differ from one loop to the
    next.  A [RangeOrder] is one choice of such an order. *)

Record RangeOrder : Type := mkRangeOrder {
  range : forall {V : Type}, gmap string V -> list (string * V);
  range_perm : forall (V : Type) (m : gmap string V), range m ≡ₚ map_to_list m
}.

(** ** git.go *)

Definition DefaultJIRAIDRegex : string := "[A-Z]+-[0-9]+".
Definition DefaultOutputFile : string := "transformed_jira_data.json".

(** The loop [for _, match := range matches { jiraIDs[match] = true }]. *)
Definition addMatches (jiraIDs : gmap string bool) (matches : list string)
  : gmap string bool :=
  foldl (fun m match_ => <[match_ := true]> m) jiraIDs matches.

(** The map built by [extractUniqueJIRAIDs] before it is converted to a
    slice. *)
Definition collectJIRAIDs (commitMessages currentJiraID : string)
    (regex : Regexp) : gmap string bool :=
  let jiraIDs : gmap string bool := ∅ in
  let jiraIDs :=
    if negb (String.eqb currentJiraID "") && MatchString regex currentJiraID
    then <[currentJiraID := true]> jiraIDs
    else jiraIDs in
  let lines := strings.SplitLines commitMessages in
  foldl (fun m line => addMatches m (FindAllString regex line)) jiraIDs lines.

(** [extractUniqueJIRAIDs]; the result slice is [nil] when nothing was
    appended, which callers only observe through [len]. *)
Definition extractUniqueJIRAIDs (ord : RangeOrder)
    (commitMessages currentJiraID : string) (regex : Regexp) : list string :=
  let jiraIDs := collectJIRAIDs commitMessages currentJiraID regex in
  filter (fun jiraID => jiraID <> "") (fst <$> range ord jiraIDs).

(** [s[n:]] *)
Fixpoint drop_bytes (n : nat) (s : string) : string :=
  match n, s with
  | S n', String _ s' => drop_bytes n' s'
  | _, _ => s
  end.

(** [s[:n]] *)
Fixpoint take_bytes (n : nat) (s : string) : string :=
  match n, s with
  | S n', String c s' => String c (take_bytes n' s')
  | _, _ => EmptyString
  end.

(** ** Package unicode/utf8

    [DecodeRuneInString] returns the first rune of a string and its width
    in bytes: [(RuneError, 0)] for the empty string, [(RuneError, 1)] for an
    invalid encoding.  The masks [b & 0x3F] and the shifts of the Go source
    are written with [mod] and multiplication. *)

Module utf8.

Definition RuneError : N := 65533.

Definition byte_in (lo hi : N) (c : ascii) : bool :=
  ((lo <=? N_of_ascii c) && (N_of_ascii c <=? hi))%N.

Definition cont (c : ascii) : bool := byte_in 128 191 c.

(** The range the second byte must lie in, given the first byte of a
    three- or four-byte sequence. *)
Definition second_ok (b0 b1 : ascii) : bool :=
  if byte_in 224 224 b0 then byte_in 160 191 b1
  else if byte_in 237 237 b0 then byte_in 128 159 b1
  else if byte_in 240 240 b0 then byte_in 144 191 b1
  else if byte_in 244 244 b0 then byte_in 128 143 b1
  else cont b1.

Definition DecodeRuneInString (s : string) : N * nat :=
  match s with
  | EmptyString => (RuneError, 0)
  | String b0 rest =>
      let x0 := N_of_ascii b0 in
      if (x0 <? 128)%N then (x0, 1)
      else if byte_in 194 223 b0 then
        match rest with
        | String b1 _ =>
            if cont b1
            then (((x0 mod 32) * 64 + N_of_ascii b1 mod 64)%N, 2)
            else (RuneError, 1)
        | _ => (RuneError, 1)
        end
      else if byte_in 224 239 b0 then
        match rest with
        | String b1 (String b2 _) =>
            if second_ok b0 b1 && cont b2
            then (((x0 mod 16) * 4096 + (N_of_ascii b1 mod 64) * 64
                   + N_of_ascii b2 mod 64)%N, 3)
            else (RuneError, 1)
        | _ => (RuneError, 1)
        end
      else if byte_in 240 244 b0 then
        match rest with
        | String b1 (String b2 (String b3 _)) =>
            if second_ok b0 b1 && cont b2 && cont b3
            then (((x0 mod 8) * 262144 + (N_of_ascii b1 mod 64) * 4096
                   + (N_of_ascii b2 mod 64) * 64 + N_of_ascii b3 mod 64)%N, 4)
            else (RuneError, 1)
        | _ => (RuneError, 1)
        end
      else (RuneError, 1)
  end.

Definition RuneWidth (s : string) : nat := snd (DecodeRuneInString s).

(** [EncodeRune]: surrogates and values above U+10FFFF are written as
    [RuneError]. *)
Definition bytes3 (r : N) : string :=
  String (ascii_of_N (224 + r / 4096))
    (String (ascii_of_N (128 + (r / 64) mod 64))
       (String (ascii_of_N (128 + r mod 64)) EmptyString)).

Definition EncodeRune (r : N) : string :=
  if (r <? 128)%N then String (ascii_of_N r) EmptyString
  else if (r <? 2048)%N then
    String (ascii_of_N (192 + r / 64))
      (String (ascii_of_N (128 + r mod 64)) EmptyString)
  else if ((55296 <=? r) && (r <=? 57343))%N then bytes3 RuneError
  else if (r <? 65536)%N then bytes3 r
  else if (r <=? 1114111)%N then
    String (ascii_of_N (240 + r / 262144))
      (String (ascii_of_N (128 + (r / 4096) mod 64))
         (String (ascii_of_N (128 + (r / 64) mod 64))
            (String (ascii_of_N (128 + r mod 64)) EmptyString)))
  else bytes3 RuneError.

(** [utf8.ValidString] *)
Fixpoint validFrom (fuel : nat) (s : string) {struct fuel} : bool :=
  match fuel with
  | 0 => true
  | S fuel' =>
      match s with
      | EmptyString => true
      | String _ _ =>
          let (r, size) := DecodeRuneInString s in
          if (r =? RuneError)%N && (size =? 1) then false
          else validFrom fuel' (drop_bytes size s)
      end
  end.

Definition ValidString (s : string) : bool := validFrom (String.length s) s.

End utf8.

(** ** Package regexp/syntax: the patterns the tool is run with

    Patterns built from classes of ASCII characters, concatenation,
    alternation and repetition, with Go's leftmost-first (backtracking
    priority) choice of the match. *)

Module syntax.

Inductive Regexp : Type :=
| NoMatch
| EmptyMatch
| CharClass (ranges : list (ascii * ascii))
| Concat (r1 r2 : Regexp)
| Alternate (r1 r2 : Regexp)
| Star (r : Regexp).

Definition Plus (r : Regexp) : Regexp := Concat r (Star r).
Definition Literal (c : ascii) : Regexp := CharClass [(c, c)].

Definition in_class (c : ascii) (ranges : list (ascii * ascii)) : bool :=
  (N_of_ascii c <? 128)%N &&
  existsb (fun r => utf8.byte_in (N_of_ascii (fst r)) (N_of_ascii (snd r)) c)
          ranges.

(** The language of a pattern. *)
Inductive matches : Regexp -> string -> Prop :=
| matches_empty : matches EmptyMatch ""
| matches_class c ranges :
    in_class c ranges = true -> matches (CharClass ranges) (String c "")
| matches_concat r1 r2 s1 s2 :
    matches r1 s1 -> matches r2 s2 -> matches (Concat r1 r2) (s1 +:+ s2)
| matches_alt_l r1 r2 s : matches r1 s -> matches (Alternate r1 r2) s
| matches_alt_r r1 r2 s : matches r2 s -> matches (Alternate r1 r2) s
| matches_star_nil r : matches (Star r) ""
| matches_star_app r s1 s2 :
    matches r s1 -> matches (Star r) s2 -> matches (Star r) (s1 +:+ s2).

(** The repetition loop of the matcher: [step] matches the repeated
    pattern once; another round is tried first (greedy) and only counts
    if it consumed input; [n] bounds the rounds by the length of the
    input.  This is the loop Go compiles for a repeated pattern that
    cannot match the empty text, as in the default pattern.  The
    repetition of a pattern that can match the empty text Go compiles as
    [(r+)?]: the texts matched are the same, and so is [MatchString], but
    among them Go may prefer another one. *)
Fixpoint starLoop (step : string -> (string -> option string) -> option string)
    (k : string -> option string) (n : nat) (s : string) {struct n}
  : option string :=
  match n with
  | 0 => k s
  | S n' =>
      match step s (fun s' =>
              if String.length s' <? String.length s
              then starLoop step k n' s' else None) with
      | Some x => Some x
      | None => k s
      end
  end.

(** Backtracking matcher: tries to match [r] at the head of [s] and hands
    the rest of the input to the continuation [k]; alternatives are tried
    left to right and repetition is greedy. *)
Fixpoint backtrack (r : Regexp) (s : string) (k : string -> option string)
  {struct r} : option string :=
  match r with
  | NoMatch => None
  | EmptyMatch => k s
  | CharClass ranges =>
      match s with
      | String c s' => if in_class c ranges then k s' else None
      | EmptyString => None
      end
  | Concat r1 r2 => backtrack r1 s (fun s' => backtrack r2 s' k)
  | Alternate r1 r2 =>
      match backtrack r1 s k with
      | Some x => Some x
      | None => backtrack r2 s k
      end
  | Star r1 => starLoop (backtrack r1) k (String.length s) s
  end.

(** The preferred match at the head of [s]: what is left of [s] after it. *)
Definition match_here (r : Regexp) (s : string) : option string :=
  backtrack r s Some.

(** Leftmost match in [s]: the number of bytes before it, and the rest of
    the input after it. *)
Fixpoint search (r : Regexp) (s : string) : option (nat * string) :=
  match match_here r s with
  | Some rest => Some (0, rest)
  | None =>
      match s with
      | EmptyString => None
      | String _ s' =>
          match search r s' with
          | Some (n, rest) => Some (S n, rest)
          | None => None
          end
      end
  end.

(** [allMatches]: successive non-overlapping matches; an empty match
    right after the previous match is ignored, and after an empty match
    the search resumes one rune further.  [adjacent] records that the
    previous match ended where the search now starts. *)
Fixpoint allMatches (fuel : nat) (r : Regexp) (s : string) (adjacent : bool)
  : list string :=
  match fuel with
  | 0 => []
  | S fuel' =>
      match search r s with
      | None => []
      | Some (start, rest) =>
          let from := drop_bytes start s in
          let m := take_bytes (String.length from - String.length rest) from in
          if (start =? 0) && String.eqb m "" then
            let out := if adjacent then [] else [m] in
            match s with
            | EmptyString => out
            | String _ _ =>
                out ++ allMatches fuel' r (drop_bytes (utf8.RuneWidth s) s) false
            end
          else m :: allMatches fuel' r rest true
      end
  end.

Definition MatchString (r : Regexp) (s : string) : bool :=
  match search r s with
  | Some _ => true
  | None => false
  end.

Definition FindAllString (r : Regexp) (s : string) : list string :=
  allMatches (S (String.length s)) r s false.

End syntax.

(** The compiled form of a pattern of [syntax.Regexp]. *)
Definition compiled (r : syntax.Regexp) : Regexp :=
  {| FindAllString := syntax.FindAllString r;
     MatchString := syntax.MatchString r |}.

(** [[A-Z]+-[0-9]+], the pattern named by [DefaultJIRAIDRegex]. *)
Definition defaultPattern : syntax.Regexp :=
  syntax.Concat (syntax.Plus (syntax.CharClass [("A"%char, "Z"%char)]))
    (syntax.Concat (syntax.Literal "-"%char)
                   (syntax.Plus (syntax.CharClass [("0"%char, "9"%char)]))).

(** ** Output streams and files

    The tool writes to standard output, to standard error and to files; a
    [World] is what it has written so far.  An [IO] action threads it. *)

Record World : Type := mkWorld {
  stdout : string;
  stderr : string;
  files : gmap string string
}.

Definition IO (A : Type) : Type := World -> A * World.

Definition ret {A} (a : A) : IO A := fun w => (a, w).

Definition bind {A B} (m : IO A) (k : A -> IO B) : IO B :=
  fun w => let (a, w') := m w in k a w'.

Notation "x <- m ;; k" := (bind m (fun x => k))
  (at level 100, m at next level, k at level 200, right associativity).
Notation "m ;;; k" := (bind m (fun _ => k))
  (at level 100, k at level 200, right associativity).

(** [fmt.Print*] to [os.Stdout] and [fmt.Fprintf(os.Stderr, ...)]. *)
Definition Print (text : string) : IO unit :=
  fun w => (tt, {| stdout := stdout w +:+ text; stderr := stderr w;
                   files := files w |}).

Definition Eprint (text : string) : IO unit :=
  fun w => (tt, {| stdout := stdout w; stderr := stderr w +:+ text;
                   files := files w |}).

Definition nl : string := String "010"%char EmptyString.

Definition Println (text : string) : IO unit := Print (text +:+ nl).

Definition initialWorld (fs : gmap string string) : World :=
  {| stdout := ""; stderr := ""; files := fs |}.

(** A value or an error, for Go's [(T, error)] results. *)
Inductive result (A : Type) : Type :=
| Ok (a : A)
| Err (e : error).
Arguments Ok {A} a.
Arguments Err {A} e.

(** ** git.go *)

(** [validHex.MatchString(hash)] for the anchored pattern [^[a-fA-F0-9]+$]:
    every byte is a hexadecimal digit and there is at least one. *)
Definition isHexByte (c : ascii) : bool :=
  utf8.byte_in 48 57 c || utf8.byte_in 97 102 c || utf8.byte_in 65 70 c.

Fixpoint allHex (s : string) : bool :=
  match s with
  | EmptyString => true
  | String c s' => isHexByte c && allHex s'
  end.

Definition validHex (s : string) : bool :=
  negb (String.eqb s "") && allHex s.

Definition validateCommitHash (hash : string) : option error :=
  if String.eqb hash "" then
    Some (ValidationError "commit" hash (errorString "cannot be empty"))
  else if negb (validHex hash) then
    Some (ValidationError "commit" hash (errorString "invalid format"))
  else None.

(** [GitService]: the one field is the command runner, [defaultGitCommand]
    in production and a stub in the tests. *)
Record GitService : Type := mkGitService {
  execCommand : list string -> result string
}.

Section Helper.

(** [regexp.Compile] of the standard library. *)
Variable regexp_Compile : string -> result Regexp.

(** [defaultGitCommand]: runs the git binary and trims its output; a
    failure is a [GitError] naming the joined arguments. *)
Variable defaultGitCommand : list string -> result string.

Definition NewGitService : GitService :=
  {| execCommand := defaultGitCommand |}.

Definition extractFirstJIRAID (text pattern : string) : string :=
  match regexp_Compile pattern with
  | Err _ => ""
  | Ok regex =>
      match FindAllString regex text with
      | m :: _ => m
      | [] => ""
      end
  end.

(** [GetBranchInfo]: branch name, latest commit hash and the identifier
    found in the latest commit subject with the default pattern. *)
Definition GetBranchInfo (g : GitService)
  : result (string * string * string) :=
  match execCommand g ["branch"; "--show-current"] with
  | Err e => Err e
  | Ok branchName =>
      match execCommand g ["log"; "-1"; "--format=%H%n%s"] with
      | Err e => Err e
      | Ok commitOutput =>
          match strings.SplitLines commitOutput with
          | commitHash :: subject :: _ =>
              let jiraID := extractFirstJIRAID subject DefaultJIRAIDRegex in
              Ok (branchName, commitHash, jiraID)
          | _ =>
              Err (GitError "log -1" (errorString "unexpected output format"))
          end
      end
  end.

Definition ValidateCommit (g : GitService) (commit : string) : option error :=
  match validateCommitHash commit with
  | Some e => Some e
  | None =>
      match execCommand g ["rev-parse"; "--verify"; commit] with
      | Err _ =>
          Some (GitError "rev-parse --verify"
                  (errorString ("commit '" +:+ commit +:+ "' not found")))
      | Ok _ => None
      end
  end.

Definition ValidateHEAD (g : GitService) : option error :=
  match execCommand g ["rev-parse"; "--verify"; "HEAD"] with
  | Err _ =>
      Some (GitError "rev-parse --verify HEAD"
              (errorString "repository may be empty or corrupted"))
  | Ok _ => None
  end.

Definition CheckRepository (g : GitService) : option error :=
  match execCommand g ["rev-parse"; "--git-dir"] with
  | Err _ =>
      Some (GitError "rev-parse --git-dir"
              (errorString "not in a git repository"))
  | Ok _ => None
  end.

(** [ExtractJiraIDs]. *)
Definition ExtractJiraIDs (ord : RangeOrder) (g : GitService)
    (startCommit jiraIDRegex currentJiraID : string) (singleCommit : bool)
  : IO (result (list string)) :=
  match ValidateCommit g startCommit with
  | Some e => ret (Err e)
  | None =>
      let logged :=
        if singleCommit
        then execCommand g ["log"; "-1"; "--pretty=format:%s"; startCommit]
        else execCommand g ["log"; "--pretty=format:%s"; startCommit +:+ "..HEAD"] in
      match logged with
      | Err e => ret (Err e)
      | Ok output =>
          match regexp_Compile jiraIDRegex with
          | Err e => ret (Err (ValidationError "jira_id_regex" jiraIDRegex e))
          | Ok regex =>
              let jiraIDToAdd := if singleCommit then "" else currentJiraID in
              let uniqueIDs := extractUniqueJIRAIDs ord output jiraIDToAdd regex in
              (if length uniqueIDs =? 0 then
                 if singleCommit
                 then Eprint ("⚠️  No JIRA IDs found in commit " +:+ startCommit +:+ nl)
                 else Eprint ("⚠️  No JIRA IDs found in commit range " +:+ startCommit +:+ "..HEAD" +:+ nl)
               else ret tt) ;;;
              ret (Ok uniqueIDs)
          end
      end
  end.

End Helper.

(** ** jira_models.go *)

Definition JiraTimeFormat : string := "2006-01-02T15:04:05.000-0700".
Definition ErrorStatus : string := "Error".
Definition ErrorType : string := "Error".

Record Transition : Type := mkTransition {
  FromStatus : string;
  ToStatus : string;
  Author : string;
  AuthorEmail : string;
  TransitionTime : string
}.

(** [Assignee] is a [*string]: [None] is the nil pointer. *)
Record JiraTransitionResult : Type := mkJiraTransitionResult {
  Key : string;
  Link : string;
  Status : string;
  Description : string;
  Type_ : string;
  Project : string;
  Created : string;
  Updated : string;
  Assignee : option string;
  Reporter : string;
  Priority : string;
  Transitions : slice Transition
}.

Record TransitionCheckResponse : Type := mkTransitionCheckResponse {
  Tasks : slice JiraTransitionResult
}.

(** ** The tracker library (go-jira), as far as the tool reads it *)

Module jira.

(** Values of type [interface{}] found in issue fields. [Time] and
    [TimePtr] carry the rendering of the time under [JiraTimeFormat];
    [Opaque] is a value of any other dynamic type, with the string its
    JSON form decodes to (if it is one) and its [%v] rendering. *)
Inductive any : Type :=
| Nil
| Str (s : string)
| Time (rendered : string)
| TimePtr (rendered : option string)
| Map (entries : list (string * any))
| List (items : list any)
| Opaque (json : option string) (printed : string).

Record User : Type := mkUser {
  DisplayName : string;
  EmailAddress : string
}.

Record ChangelogItems : Type := mkChangelogItems {
  Field : string;
  FromString : string;
  ToString : string
}.

Record ChangelogHistory : Type := mkChangelogHistory {
  HistoryCreated : string;
  HistoryAuthor : User;
  Items : list ChangelogItems
}.

Record Changelog : Type := mkChangelog {
  Histories : list ChangelogHistory
}.

(** Pointer fields are options; [StatusName], [TypeName], [ProjectKey]
    and [PriorityName] are the one field read from the nested struct. *)
Record IssueFields : Type := mkIssueFields {
  StatusName : option string;
  FieldsDescription : any;
  TypeName : string;
  ProjectKey : string;
  FieldsCreated : any;
  FieldsUpdated : any;
  FieldsAssignee : option User;
  FieldsReporter : option User;
  PriorityName : option string
}.

Record Issue : Type := mkIssue {
  IssueKey : string;
  Fields : option IssueFields;
  IssueChangelog : option Changelog
}.

(** [client.Issue.Get(ctx, id, {Expand: "changelog"})]: the issue and the
    error, either of which may be nil. *)
Record Client : Type := mkClient {
  IssueGet : string -> option Issue * option error
}.

End jira.

(** ** jira_utils.go *)

Definition getStatusName (status : option string) : string :=
  match status with
  | None => ""
  | Some name => name
  end.

Definition getIssueTypeName (name : string) : string := name.
Definition getProjectKey (key : string) : string := key.

Definition getReporterName (reporter : option jira.User) : string :=
  match reporter with
  | None => ""
  | Some u => jira.DisplayName u
  end.

Definition getPriorityName (priority : option string) : string :=
  match priority with
  | None => ""
  | Some name => name
  end.

Definition getAssignee (assignee : option jira.User) : option string :=
  match assignee with
  | None => None
  | Some u => Some (jira.DisplayName u)
  end.

(** [m[key]] on a decoded JSON object. *)
Fixpoint mapIndex (entries : list (string * jira.any)) (key : string)
  : option jira.any :=
  match entries with
  | [] => None
  | (k, v) :: rest => if String.eqb k key then Some v else mapIndex rest key
  end.

(** [extractTextFromADFNode]: the text of a ["text"] node, the texts of the
    children of a ["paragraph"] node in document order, nothing otherwise. *)
Fixpoint extractTextFromADFNode (node : jira.any) : string :=
  match node with
  | jira.Map entries =>
      match mapIndex entries "type" with
      | Some (jira.Str "paragraph") =>
          (fix content (es : list (string * jira.any)) : string :=
             match es with
             | [] => ""
             | (k, v) :: es' =>
                 if String.eqb k "content" then
                   match v with
                   | jira.List items =>
                       (fix texts (l : list jira.any) : string :=
                          match l with
                          | [] => ""
                          | item :: l' => extractTextFromADFNode item +:+ texts l'
                          end) items
                   | _ => ""
                   end
                 else content es'
             end) entries
      | Some (jira.Str "text") =>
          match mapIndex entries "text" with
          | Some (jira.Str text) => text
          | _ => ""
          end
      | _ => ""
      end
  | _ => ""
  end.

Section Utils.

(** [fmt.Sprintf("%v", x)] of the standard library. *)
Variable Sprint : jira.any -> string.

Definition getTimeAsString (timeField : jira.any) : string :=
  match timeField with
  | jira.Nil => ""
  | jira.Str v => v
  | jira.Time rendered => rendered
  | jira.TimePtr (Some rendered) => rendered
  | jira.TimePtr None => ""
  | jira.Opaque (Some timeStr) _ =>
      if String.eqb timeStr "" then Sprint timeField else timeStr
  | _ => Sprint timeField
  end.

Definition getDescription (desc : jira.any) : string :=
  match desc with
  | jira.Nil => ""
  | jira.Map descMap =>
      match mapIndex descMap "content" with
      | Some (jira.List content) =>
          let result :=
            foldl (fun acc item => acc +:+ extractTextFromADFNode item)
                  "" content in
          if String.length result =? 0 then Sprint desc else result
      | _ => Sprint desc
      end
  | _ => Sprint desc
  end.

End Utils.

(** ** jira_client.go *)

Record JiraClient : Type := mkJiraClient {
  client : jira.Client;
  baseURL : string
}.

(** [createErrorResult] *)
Definition createErrorResult (jc : JiraClient) (jiraID : string)
    (err : option error) : IO JiraTransitionResult :=
  errorMsg <-
    match err with
    | Some e =>
        Eprint ("Failed to fetch JIRA " +:+ jiraID +:+ ": " +:+ Error e +:+ nl) ;;;
        ret ("Error: " +:+ Error e)
    | None => ret "Error: Could not retrieve issue"
    end ;;
  ret {| Key := jiraID;
         Link := "";
         Status := ErrorStatus;
         Description := errorMsg;
         Type_ := ErrorType;
         Project := "";
         Created := "";
         Updated := "";
         Assignee := None;
         Reporter := "";
         Priority := "";
         Transitions := Some [] |}.

(** [extractTransitions]: one [Transition] per changelog item whose field
    is exactly ["status"], in changelog order; the slice stays nil when
    nothing is appended. *)
Definition extractTransitions (jc : JiraClient) (issue : jira.Issue)
  : slice Transition :=
  match jira.IssueChangelog issue with
  | None => None
  | Some changelog =>
      match jira.Histories changelog with
      | [] => None
      | histories =>
          foldl (fun transitions history =>
                   foldl (fun transitions item =>
                            if String.eqb (jira.Field item) "status" then
                              append transitions
                                {| FromStatus := jira.FromString item;
                                   ToStatus := jira.ToString item;
                                   Author := jira.DisplayName (jira.HistoryAuthor history);
                                   AuthorEmail := jira.EmailAddress (jira.HistoryAuthor history);
                                   TransitionTime := jira.HistoryCreated history |}
                            else transitions)
                         transitions (jira.Items history))
                None histories
      end
  end.

Section Client.

Variable Sprint : jira.any -> string.

(** [createSuccessResult]; the caller has checked that [issue.Fields] is
    not nil. *)
Definition createSuccessResult (jc : JiraClient) (issue : jira.Issue)
    (fields : jira.IssueFields) : JiraTransitionResult :=
  let link :=
    if negb (String.eqb (baseURL jc) "")
    then baseURL jc +:+ "/browse/" +:+ jira.IssueKey issue
    else "" in
  {| Key := jira.IssueKey issue;
     Link := link;
     Status := getStatusName (jira.StatusName fields);
     Description := getDescription Sprint (jira.FieldsDescription fields);
     Type_ := getIssueTypeName (jira.TypeName fields);
     Project := getProjectKey (jira.ProjectKey fields);
     Created := getTimeAsString Sprint (jira.FieldsCreated fields);
     Updated := getTimeAsString Sprint (jira.FieldsUpdated fields);
     Assignee := getAssignee (jira.FieldsAssignee fields);
     Reporter := getReporterName (jira.FieldsReporter fields);
     Priority := getPriorityName (jira.PriorityName fields);
     Transitions := extractTransitions jc issue |}.

(** [fetchSingleJiraDetail] *)
Definition fetchSingleJiraDetail (jc : JiraClient) (jiraID : string)
  : IO JiraTransitionResult :=
  match jira.IssueGet (client jc) jiraID with
  | (Some issue, None) =>
      match jira.Fields issue with
      | Some fields => ret (createSuccessResult jc issue fields)
      | None => createErrorResult jc jiraID None
      end
  | (_, err) => createErrorResult jc jiraID err
  end.

(** The loop of [FetchJiraDetails], from the tasks gathered so far. *)
Fixpoint fetchLoop (jc : JiraClient) (jiraIDs : list string)
    (tasks : list JiraTransitionResult) : IO (list JiraTransitionResult) :=
  match jiraIDs with
  | [] => ret tasks
  | jiraID :: rest =>
      result <- fetchSingleJiraDetail jc jiraID ;;
      fetchLoop jc rest (tasks ++ [result])
  end.

(** [FetchJiraDetails] *)
Definition FetchJiraDetails (jc : JiraClient) (jiraIDs : list string)
  : IO TransitionCheckResponse :=
  tasks <- fetchLoop jc jiraIDs [] ;;
  ret {| Tasks := Some tasks |}.

End Client.

(** ** Package time, for the one layout the tool parses

    [Parse(JiraTimeFormat, value)] reads, in this order: a four-digit year,
    ["-"], a two-digit month, ["-"], a two-digit day, ["T"], a one- or
    two-digit hour, [":"], a two-digit minute, [":"], a two-digit second, a
    fraction of exactly three digits after ["."] or [","], and a numeric zone
    [±hhmm]; nothing may follow.  The parsed time keeps the wall-clock
    reading in the zone that was read, which is what [Format] prints. *)

Module time.

Record Time : Type := mkTime {
  year : nat;
  month : nat;
  day : nat;
  hour : nat;
  minute : nat;
  second : nat;
  nanosecond : Z;
  zoneOffset : Z
}.

Definition isDigit (c : ascii) : bool := utf8.byte_in 48 57 c.

Definition digitVal (c : ascii) : nat := N.to_nat (N_of_ascii c) - 48.

(** [getnum(s, fixed)]: one or two leading digits; with [fixed] exactly
    two are required. *)
Definition getnum (s : string) (fixed : bool) : option (nat * string) :=
  match s with
  | String c0 rest =>
      if isDigit c0 then
        match rest with
        | String c1 rest' =>
            if isDigit c1 then Some (digitVal c0 * 10 + digitVal c1, rest')
            else if fixed then None else Some (digitVal c0, rest)
        | EmptyString => if fixed then None else Some (digitVal c0, rest)
        end
      else None
  | EmptyString => None
  end.

(** [skip(value, prefix)] for a one-byte prefix other than a space. *)
Definition skip (value : string) (prefix : ascii) : option string :=
  match value with
  | String c rest => if Ascii.eqb c prefix then Some rest else None
  | EmptyString => None
  end.

(** [leadingInt] followed by the test that nothing is left: the value of
    a string made of digits only. *)
Fixpoint allDigits (s : string) (acc : nat) : option nat :=
  match s with
  | EmptyString => Some acc
  | String c rest =>
      if isDigit c then allDigits rest (acc * 10 + digitVal c) else None
  end.

(** [atoi]: an optional sign, then digits only. *)
Definition atoi (s : string) : option Z :=
  match s with
  | String c rest =>
      if Ascii.eqb c "-"%char then
        match allDigits rest 0 with
        | Some n => Some (- Z.of_nat n)%Z
        | None => None
        end
      else if Ascii.eqb c "+"%char then
        match allDigits rest 0 with
        | Some n => Some (Z.of_nat n)
        | None => None
        end
      else
        match allDigits s 0 with
        | Some n => Some (Z.of_nat n)
        | None => None
        end
  | EmptyString => Some 0%Z
  end.

(** The chunk [2006]: at least four bytes, the first a digit, and the
    first four an integer. *)
Definition getLongYear (value : string) : option (nat * string) :=
  match value with
  | String c0 _ =>
      if (4 <=? String.length value) && isDigit c0 then
        match atoi (take_bytes 4 value) with
        | Some y => Some (Z.to_nat y, drop_bytes 4 value)
        | None => None
        end
      else None
  | EmptyString => None
  end.

Definition commaOrPeriod (c : ascii) : bool :=
  Ascii.eqb c "."%char || Ascii.eqb c ","%char.

(** The chunk [.000]: [parseNanoseconds(value, 4)]; a negative value is a
    range error. *)
Definition getFracSecond (value : string) : option (Z * string) :=
  match value with
  | String c0 _ =>
      if (4 <=? String.length value) && commaOrPeriod c0 then
        match atoi (drop_bytes 1 (take_bytes 4 value)) with
        | Some ns =>
            if (ns <? 0)%Z then None
            else Some ((ns * 1000000)%Z, drop_bytes 4 value)
        | None => None
        end
      else None
  | EmptyString => None
  end.

(** The chunk [-0700]: sign, two-digit hours, two-digit minutes; hours
    above 24 and minutes above 60 are range errors. *)
Definition getNumTZ (value : string) : option (Z * string) :=
  match value with
  | String sign _ =>
      if 5 <=? String.length value then
        match getnum (drop_bytes 1 (take_bytes 3 value)) true with
        | Some (hr, _) =>
            match getnum (drop_bytes 3 (take_bytes 5 value)) true with
            | Some (mm, _) =>
                if (24 <? hr) || (60 <? mm) then None
                else
                  let offset := Z.of_nat ((hr * 60 + mm) * 60) in
                  if Ascii.eqb sign "+"%char
                  then Some (offset, drop_bytes 5 value)
                  else if Ascii.eqb sign "-"%char
                  then Some ((- offset)%Z, drop_bytes 5 value)
                  else None
            | None => None
            end
        | None => None
        end
      else None
  | EmptyString => None
  end.

Definition isLeap (y : nat) : bool :=
  (y mod 4 =? 0) && (negb (y mod 100 =? 0) || (y mod 400 =? 0)).

Definition daysIn (m y : nat) : nat :=
  match m with
  | 2 => if isLeap y then 29 else 28
  | 4 | 6 | 9 | 11 => 30
  | _ => 31
  end.

(** [time.Parse(JiraTimeFormat, value)] *)
Definition Parse (value : string) : option Time :=
  '(y, value) ← getLongYear value;
  value ← skip value "-"%char;
  '(mo, value) ← getnum value true;
  if (mo =? 0) || (12 <? mo) then None else
  value ← skip value "-"%char;
  '(d, value) ← getnum value true;
  value ← skip value "T"%char;
  '(h, value) ← getnum value false;
  if 24 <=? h then None else
  value ← skip value ":"%char;
  '(mi, value) ← getnum value true;
  if 60 <=? mi then None else
  value ← skip value ":"%char;
  '(sec, value) ← getnum value true;
  if 60 <=? sec then None else
  '(ns, value) ← getFracSecond value;
  '(off, value) ← getNumTZ value;
  if negb (String.eqb value "") then None else
  if (d <? 1) || (daysIn mo y <? d) then None else
  Some {| year := y; month := mo; day := d; hour := h; minute := mi;
          second := sec; nanosecond := ns; zoneOffset := off |}.

(** [%d] *)
Definition itoa (n : nat) : string := NilZero.string_of_uint (Nat.to_uint n).

(** [appendInt(b, n, width)]: decimal, zero-padded on the left. *)
Fixpoint zeros (n : nat) : string :=
  match n with
  | 0 => ""
  | S n' => String "0"%char (zeros n')
  end.

Definition appendInt (n width : nat) : string :=
  let digits := itoa n in
  zeros (width - String.length digits) +:+ digits.

(** [t.Format("2006-01-02 15:04:05")] *)
Definition Format (t : Time) : string :=
  appendInt (year t) 4 +:+ "-" +:+ appendInt (month t) 2 +:+ "-" +:+
  appendInt (day t) 2 +:+ " " +:+ appendInt (hour t) 2 +:+ ":" +:+
  appendInt (minute t) 2 +:+ ":" +:+ appendInt (second t) 2.

End time.

(** ** markdown_generator.go *)

(** [formatDate] *)
Definition formatDate (dateStr : string) : string :=
  if String.eqb dateStr "" then "N/A"
  else match time.Parse dateStr with
       | None => dateStr
       | Some t => time.Format t
       end.

(** [keyDisplay]: the key as a hyperlink when the task has a link. *)
Definition keyDisplay (task : JiraTransitionResult) : string :=
  if negb (String.eqb (Link task) "")
  then "[" +:+ Key task +:+ "](" +:+ Link task +:+ ")"
  else Key task.

Definition assigneeDisplay (task : JiraTransitionResult) : string :=
  match Assignee task with
  | Some name => if negb (String.eqb name "") then name else "Unassigned"
  | None => "Unassigned"
  end.

Definition summaryRow (task : JiraTransitionResult) : string :=
  "| " +:+ keyDisplay task +:+ " | " +:+ Status task +:+ " | " +:+
  Type_ task +:+ " | " +:+ Priority task +:+ " | " +:+
  assigneeDisplay task +:+ " |" +:+ nl.

Definition transitionRow (transition : Transition) : string :=
  "| " +:+ FromStatus transition +:+ " | " +:+ ToStatus transition +:+
  " | " +:+ Author transition +:+ " | " +:+
  formatDate (TransitionTime transition) +:+ " |" +:+ nl.

(** [strings.Builder]: the pieces written so far, joined. *)
Definition writeAll (pieces : list string) : string :=
  foldr String.append "" pieces.

(** The detail section of the task at position [i] (counted from 0). *)
Definition taskDetails (i : nat) (task : JiraTransitionResult) : string :=
  "### " +:+ time.itoa (i + 1) +:+ ". " +:+ keyDisplay task +:+ nl +:+ nl +:+
  "**Basic Information:**" +:+ nl +:+
  "- **Status:** " +:+ Status task +:+ nl +:+
  "- **Type:** " +:+ Type_ task +:+ nl +:+
  "- **Project:** " +:+ Project task +:+ nl +:+
  "- **Priority:** " +:+ Priority task +:+ nl +:+
  nl +:+ "**People:**" +:+ nl +:+
  "- **Assignee:** " +:+ assigneeDisplay task +:+ nl +:+
  "- **Reporter:** " +:+ Reporter task +:+ nl +:+
  nl +:+ "**Dates:**" +:+ nl +:+
  "- **Created:** " +:+ formatDate (Created task) +:+ nl +:+
  "- **Updated:** " +:+ formatDate (Updated task) +:+ nl +:+
  (if negb (String.eqb (Description task) "") then
     nl +:+ "**Description:**" +:+ nl +:+
     "> " +:+ strings.ReplaceNewlines (Description task) (nl +:+ "> ") +:+ nl
   else "") +:+
  (if 0 <? len (Transitions task) then
     nl +:+ "**Transition History:**" +:+ nl +:+ nl +:+
     "| From Status | To Status | Author | Date |" +:+ nl +:+
     "|-------------|-----------|--------|------|" +:+ nl +:+
     writeAll (transitionRow <$> elems (Transitions task))
   else "") +:+
  nl +:+ "---" +:+ nl +:+ nl.

(** The loop [statusCount[task.Status]++]. *)
Definition countStatuses (tasks : list JiraTransitionResult) : gmap string nat :=
  foldl (fun statusCount task =>
           <[Status task := S (default 0 (statusCount !! Status task))]>
             statusCount)
        ∅ tasks.

Definition distributionRow (entry : string * nat) : string :=
  "| " +:+ fst entry +:+ " | " +:+ time.itoa (snd entry) +:+ " |" +:+ nl.

(** The report up to and including the header of the status table, after
    the line that carries the generation time. *)
Definition reportBody (response : TransitionCheckResponse) : string :=
  "Total tasks: " +:+ time.itoa (len (Tasks response)) +:+ nl +:+ nl +:+
  "## Summary" +:+ nl +:+ nl +:+
  "| Key | Status | Type | Priority | Assignee |" +:+ nl +:+
  "|-----|--------|------|----------|----------|" +:+ nl +:+
  writeAll (summaryRow <$> elems (Tasks response)) +:+
  nl +:+
  "## Task Details" +:+ nl +:+ nl +:+
  writeAll (imap taskDetails (elems (Tasks response))) +:+
  "## Status Distribution" +:+ nl +:+ nl +:+
  "| Status | Count |" +:+ nl +:+
  "|--------|-------|" +:+ nl.

(** [generateMarkdown]; [now] is the reading of [time.Now()] and [ord] the
    order in which the [range] over [statusCount] visits it. *)
Definition generateMarkdown (now : time.Time) (ord : RangeOrder)
    (response : TransitionCheckResponse) : string :=
  "# JIRA Tasks Report" +:+ nl +:+ nl +:+
  "Generated on: " +:+ time.Format now +:+ nl +:+ nl +:+
  reportBody response +:+
  writeAll (distributionRow <$> range ord (countStatuses (elems (Tasks response)))).

(** ** Package encoding/json, for the types of jira_models.go

    [MarshalIndent] writes a document; [Unmarshal] checks the syntax of a
    whole document and then decodes it into a value that already exists
    (the zero value, in this tool). *)

Module json.

Inductive Value : Type :=
| Null
| Bool (b : bool)
| Number (literal : string)
| Str (s : string)
| Array (items : list Value)
| Object (members : list (string * Value)).

(** *** Encoding *)

Definition hexDigit (n : N) : ascii :=
  if (n <? 10)%N then ascii_of_N (48 + n) else ascii_of_N (87 + n).

(** [htmlSafeSet]: the ASCII bytes written as they are. *)
Definition htmlSafe (b : ascii) : bool :=
  let x := N_of_ascii b in
  ((32 <=? x) && (x <? 128) &&
   negb ((x =? 34) || (x =? 92) || (x =? 60) || (x =? 62) || (x =? 38)))%N.

Definition escapeByte (b : ascii) : string :=
  let x := N_of_ascii b in
  String "\"%char
    (if ((x =? 92) || (x =? 34))%N then String b EmptyString
     else if (x =? 10)%N then "n"
     else if (x =? 13)%N then "r"
     else if (x =? 9)%N then "t"
     else "u00" +:+ String (hexDigit (x / 16)) (String (hexDigit (x mod 16)) EmptyString)).

(** The body of [encodeState.string] with HTML escaping on: unsafe ASCII
    bytes are escaped, an invalid byte becomes the escape of U+FFFD, U+2028 and
    U+2029 are escaped, every other rune is copied. *)
Fixpoint encodeRunes (fuel : nat) (s : string) {struct fuel} : string :=
  match fuel with
  | 0 => EmptyString
  | S fuel' =>
      match s with
      | EmptyString => EmptyString
      | String b rest =>
          if (N_of_ascii b <? 128)%N then
            (if htmlSafe b then String b EmptyString else escapeByte b)
            +:+ encodeRunes fuel' rest
          else
            let (c, size) := utf8.DecodeRuneInString s in
            if (c =? utf8.RuneError)%N && (size =? 1) then
              "\ufffd" +:+ encodeRunes fuel' rest
            else if ((c =? 8232) || (c =? 8233))%N then
              "\u202" +:+ String (hexDigit (c mod 16)) EmptyString
              +:+ encodeRunes fuel' (drop_bytes size s)
            else take_bytes size s +:+ encodeRunes fuel' (drop_bytes size s)
      end
  end.

Definition dquote : ascii := "034"%char.

Definition quote (s : string) : string :=
  String dquote (encodeRunes (String.length s) s +:+ String dquote EmptyString).

Fixpoint spaces (depth : nat) : string :=
  match depth with
  | 0 => EmptyString
  | S d => "  " +:+ spaces d
  end.

Definition newline (depth : nat) : string := nl +:+ spaces depth.

(** The text [Indent(compact, "", "  ")] produces for a value: members
    and items one per line, two more spaces per level, [": "] after a
    key, and [[]] or [{}] for an empty array or object. *)
Fixpoint indent (depth : nat) (v : Value) {struct v} : string :=
  match v with
  | Null => "null"
  | Bool true => "true"
  | Bool false => "false"
  | Number literal => literal
  | Str s => quote s
  | Array [] => "[]"
  | Array (first :: others) =>
      "[" +:+ newline (S depth) +:+ indent (S depth) first +:+
      (fix items (l : list Value) : string :=
         match l with
         | [] => EmptyString
         | item :: l' =>
             "," +:+ newline (S depth) +:+ indent (S depth) item +:+ items l'
         end) others +:+
      newline depth +:+ "]"
  | Object [] => "{}"
  | Object ((key, first) :: others) =>
      "{" +:+ newline (S depth) +:+ quote key +:+ ": " +:+
      indent (S depth) first +:+
      (fix members (l : list (string * Value)) : string :=
         match l with
         | [] => EmptyString
         | (k, item) :: l' =>
             "," +:+ newline (S depth) +:+ quote k +:+ ": " +:+
             indent (S depth) item +:+ members l'
         end) others +:+
      newline depth +:+ "}"
  end.

Definition encodeTransition (t : Transition) : Value :=
  Object [("from_status", Str (FromStatus t));
          ("to_status", Str (ToStatus t));
          ("author", Str (Author t));
          ("author_user_name", Str (AuthorEmail t));
          ("transition_time", Str (TransitionTime t))].

Definition encodeSlice {A} (enc : A -> Value) (s : slice A) : Value :=
  match s with
  | None => Null
  | Some l => Array (enc <$> l)
  end.

(** The field [link] carries [omitempty]. *)
Definition encodeTask (t : JiraTransitionResult) : Value :=
  Object ([("key", Str (Key t))] ++
          (if String.eqb (Link t) "" then [] else [("link", Str (Link t))]) ++
          [("status", Str (Status t));
           ("description", Str (Description t));
           ("type", Str (Type_ t));
           ("project", Str (Project t));
           ("created", Str (Created t));
           ("updated", Str (Updated t));
           ("assignee", match Assignee t with
                        | None => Null
                        | Some a => Str a
                        end);
           ("reporter", Str (Reporter t));
           ("priority", Str (Priority t));
           ("transitions", encodeSlice encodeTransition (Transitions t))]).

Definition encodeResponse (r : TransitionCheckResponse) : Value :=
  Object [("tasks", encodeSlice encodeTask (Tasks r))].

(** [json.MarshalIndent(response, "", "  ")]; it cannot fail on these
    types. *)
Definition MarshalIndent (r : TransitionCheckResponse) : string :=
  indent 0 (encodeResponse r).

(** *** Decoding *)

Definition isSpace (c : ascii) : bool :=
  let x := N_of_ascii c in ((x =? 32) || (x =? 9) || (x =? 13) || (x =? 10))%N.

Fixpoint skipSpace (s : string) : string :=
  match s with
  | String c rest => if isSpace c then skipSpace rest else s
  | EmptyString => s
  end.

Definition hexVal (c : ascii) : option N :=
  let x := N_of_ascii c in
  if utf8.byte_in 48 57 c then Some (x - 48)%N
  else if utf8.byte_in 97 102 c then Some (x - 87)%N
  else if utf8.byte_in 65 70 c then Some (x - 55)%N
  else None.

(** Four hexadecimal digits at the head of [s]. *)
Definition hex4 (s : string) : option (N * string) :=
  match s with
  | String c0 (String c1 (String c2 (String c3 rest))) =>
      match hexVal c0, hexVal c1, hexVal c2, hexVal c3 with
      | Some h0, Some h1, Some h2, Some h3 =>
          Some ((h0 * 4096 + h1 * 256 + h2 * 16 + h3)%N, rest)
      | _, _, _, _ => None
      end
  | _ => None
  end.

(** [getu4]: the value of a [\uXXXX] escape at the head of [s]. *)
Definition getu4 (s : string) : option (N * string) :=
  match s with
  | String b (String u rest) =>
      if Ascii.eqb b "\"%char && Ascii.eqb u "u"%char then hex4 rest else None
  | _ => None
  end.

Definition isSurrogate (r : N) : bool := ((55296 <=? r) && (r <? 57344))%N.

(** [utf16.DecodeRune]: the code point of a surrogate pair, if it is one. *)
Definition decodeSurrogates (r1 r2 : N) : option N :=
  if ((55296 <=? r1) && (r1 <? 56320) && (56320 <=? r2) && (r2 <? 57344))%N
  then Some ((r1 - 55296) * 1024 + (r2 - 56320) + 65536)%N
  else None.

(** The characters of a string literal after its opening quote, decoded,
    and the input after its closing quote.  A raw control character, an
    unknown escape and an unterminated literal are syntax errors; bytes
    that are not well-formed UTF-8 are replaced by U+FFFD. *)
Fixpoint unquote (fuel : nat) (s : string) {struct fuel}
  : option (string * string) :=
  match fuel with
  | 0 => None
  | S fuel' =>
      match s with
      | EmptyString => None
      | String c rest =>
          let x := N_of_ascii c in
          if (x =? 34)%N then Some (EmptyString, rest)
          else if (x =? 92)%N then
            match rest with
            | EmptyString => None
            | String e rest' =>
                let simple (b : ascii) :=
                  '(t, out) ← unquote fuel' rest'; Some (String b t, out) in
                let y := N_of_ascii e in
                if ((y =? 34) || (y =? 92) || (y =? 47))%N then simple e
                else if (y =? 98)%N then simple "008"%char
                else if (y =? 102)%N then simple "012"%char
                else if (y =? 110)%N then simple "010"%char
                else if (y =? 114)%N then simple "013"%char
                else if (y =? 116)%N then simple "009"%char
                else if (y =? 117)%N then
                  '(rr, after) ← hex4 rest';
                  if isSurrogate rr then
                    match getu4 after with
                    | Some (rr1, after1) =>
                        match decodeSurrogates rr rr1 with
                        | Some dec =>
                            '(t, out) ← unquote fuel' after1;
                            Some (utf8.EncodeRune dec +:+ t, out)
                        | None =>
                            '(t, out) ← unquote fuel' after;
                            Some (utf8.EncodeRune utf8.RuneError +:+ t, out)
                        end
                    | None =>
                        '(t, out) ← unquote fuel' after;
                        Some (utf8.EncodeRune utf8.RuneError +:+ t, out)
                    end
                  else
                    '(t, out) ← unquote fuel' after;
                    Some (utf8.EncodeRune rr +:+ t, out)
                else None
            end
          else if (x <? 32)%N then None
          else if (x <? 128)%N then
            '(t, out) ← unquote fuel' rest; Some (String c t, out)
          else
            let (rr, size) := utf8.DecodeRuneInString s in
            '(t, out) ← unquote fuel' (drop_bytes size s);
            Some (utf8.EncodeRune rr +:+ t, out)
      end
  end.

(** Number literals: an optional minus sign; a zero, or a non-zero digit
    and further digits; optionally a point and digits; optionally an
    exponent mark, a sign and digits. *)
Fixpoint digits (s : string) : string * string :=
  match s with
  | String c rest =>
      if utf8.byte_in 48 57 c
      then let (d, out) := digits rest in (String c d, out)
      else (EmptyString, s)
  | EmptyString => (EmptyString, s)
  end.

Definition digits1 (s : string) : option (string * string) :=
  match digits s with
  | (EmptyString, _) => None
  | (d, out) => Some (d, out)
  end.

Definition scanNumber (s : string) : option (string * string) :=
  let (sign, s1) :=
    match s with
    | String c rest =>
        if Ascii.eqb c "-"%char then ("-", rest) else (EmptyString, s)
    | EmptyString => (EmptyString, s)
    end in
  '(int, s2) ←
    match s1 with
    | String c rest =>
        if Ascii.eqb c "0"%char then Some ("0", rest) else digits1 s1
    | EmptyString => None
    end;
  '(frac, s3) ←
    match s2 with
    | String c rest =>
        if Ascii.eqb c "."%char
        then '(d, out) ← digits1 rest; Some (String c d, out)
        else Some (EmptyString, s2)
    | EmptyString => Some (EmptyString, s2)
    end;
  '(exp, s4) ←
    match s3 with
    | String c rest =>
        if Ascii.eqb c "e"%char || Ascii.eqb c "E"%char then
          match rest with
          | String g rest' =>
              if Ascii.eqb g "+"%char || Ascii.eqb g "-"%char
              then '(d, out) ← digits1 rest'; Some (String c (String g d), out)
              else '(d, out) ← digits1 rest; Some (String c d, out)
          | EmptyString => None
          end
        else Some (EmptyString, s3)
    | EmptyString => Some (EmptyString, s3)
    end;
  Some (sign +:+ int +:+ frac +:+ exp, s4).

(** [word] at the head of [s]: the input after it. *)
Fixpoint expect (word s : string) : option string :=
  match word, s with
  | EmptyString, _ => Some s
  | String w word', String c rest =>
      if Ascii.eqb w c then expect word' rest else None
  | String _ _, EmptyString => None
  end.

Definition maxNestingDepth : N := 10000.

(** One value at the head of [s] (after white space) and the input after
    it; [depth] counts the arrays and objects that are open. *)
Fixpoint parseValue (fuel : nat) (depth : N) (s : string) {struct fuel}
  : option (Value * string) :=
  match fuel with
  | 0 => None
  | S fuel' =>
      match skipSpace s with
      | EmptyString => None
      | String c rest =>
          let x := N_of_ascii c in
          if (x =? 34)%N then
            '(t, out) ← unquote (String.length rest) rest; Some (Str t, out)
          else if (x =? 110)%N then
            out ← expect "ull" rest; Some (Null, out)
          else if (x =? 116)%N then
            out ← expect "rue" rest; Some (Bool true, out)
          else if (x =? 102)%N then
            out ← expect "alse" rest; Some (Bool false, out)
          else if (x =? 91)%N then
            if (maxNestingDepth <? depth + 1)%N then None else
            match skipSpace rest with
            | String c' rest' =>
                if Ascii.eqb c' "]"%char then Some (Array [], rest')
                else '(items, out) ← parseItems fuel' (depth + 1) rest;
                     Some (Array items, out)
            | EmptyString => None
            end
          else if (x =? 123)%N then
            if (maxNestingDepth <? depth + 1)%N then None else
            match skipSpace rest with
            | String c' rest' =>
                if Ascii.eqb c' "}"%char then Some (Object [], rest')
                else '(members, out) ← parseMembers fuel' (depth + 1) rest;
                     Some (Object members, out)
            | EmptyString => None
            end
          else
            '(literal, out) ← scanNumber (String c rest);
            Some (Number literal, out)
      end
  end
(** The items of an array from the first or after a comma, up to and
    including the closing bracket. *)
with parseItems (fuel : nat) (depth : N) (s : string) {struct fuel}
  : option (list Value * string) :=
  match fuel with
  | 0 => None
  | S fuel' =>
      '(item, out) ← parseValue fuel' depth s;
      match skipSpace out with
      | String c rest =>
          if Ascii.eqb c ","%char then
            '(items, out') ← parseItems fuel' depth rest;
            Some (item :: items, out')
          else if Ascii.eqb c "]"%char then Some ([item], rest)
          else None
      | EmptyString => None
      end
  end
(** The members of an object, likewise. *)
with parseMembers (fuel : nat) (depth : N) (s : string) {struct fuel}
  : option (list (string * Value) * string) :=
  match fuel with
  | 0 => None
  | S fuel' =>
      match skipSpace s with
      | String q afterQuote =>
          if Ascii.eqb q dquote then
            '(key, out) ← unquote (String.length afterQuote) afterQuote;
            match skipSpace out with
            | String colon afterColon =>
                if Ascii.eqb colon ":"%char then
                  '(item, out1) ← parseValue fuel' depth afterColon;
                  match skipSpace out1 with
                  | String c rest =>
                      if Ascii.eqb c ","%char then
                        '(members, out2) ← parseMembers fuel' depth rest;
                        Some ((key, item) :: members, out2)
                      else if Ascii.eqb c "}"%char
                      then Some ([(key, item)], rest)
                      else None
                  | EmptyString => None
                  end
                else None
            | EmptyString => None
            end
          else None
      | EmptyString => None
      end
  end.

(** [checkValid] and the scan of the whole document: one value, with
    nothing but white space around it. *)
Definition parse (data : string) : option Value :=
  '(v, out) ← parseValue (S (String.length data)) 0 data;
  match skipSpace out with
  | EmptyString => Some v
  | String _ _ => None
  end.

(** *** Decoding into the types of jira_models.go *)

(** A JSON key selects the field whose name it equals up to case
    folding: ASCII letters fold to upper case, and the long s (U+017F)
    and the Kelvin sign (U+212A) fold to [S] and [K]. *)
Fixpoint foldName (s : string) : string :=
  match s with
  | EmptyString => EmptyString
  | String c rest =>
      let x := N_of_ascii c in
      let plain :=
        String (if utf8.byte_in 97 122 c then ascii_of_N (x - 32) else c)
               (foldName rest) in
      match rest with
      | String c1 rest1 =>
          if ((x =? 197) && (N_of_ascii c1 =? 191))%N
          then String "S"%char (foldName rest1)
          else match rest1 with
               | String c2 rest2 =>
                   if ((x =? 226) && (N_of_ascii c1 =? 132)
                       && (N_of_ascii c2 =? 170))%N
                   then String "K"%char (foldName rest2)
                   else plain
               | EmptyString => plain
               end
      | EmptyString => plain
      end
  end.

Definition isField (key name : string) : bool :=
  String.eqb (foldName key) (foldName name).

Definition typeError (what : string) : error :=
  errorString ("json: cannot unmarshal " +:+ what).

(** A string field: [null] leaves it as it is. *)
Definition decodeString (cur : string) (v : Value) : result string :=
  match v with
  | Null => Ok cur
  | Str s => Ok s
  | _ => Err (typeError "into Go value of type string")
  end.

(** A [*string] field: [null] makes it nil. *)
Definition decodeStringPtr (cur : option string) (v : Value)
  : result (option string) :=
  match v with
  | Null => Ok None
  | Str s => Ok (Some s)
  | _ => Err (typeError "into Go value of type string")
  end.

(** The items of an array decoded one by one, the i-th into the i-th
    element the slice already has, or into a zero element. *)
Fixpoint decodeItems {A} (zero : A) (dec : A -> Value -> result A)
    (cur : list A) (items : list Value) : result (list A) :=
  match items with
  | [] => Ok []
  | item :: items' =>
      match dec (hd zero cur) item with
      | Err e => Err e
      | Ok a =>
          match decodeItems zero dec (tl cur) items' with
          | Err e => Err e
          | Ok l => Ok (a :: l)
          end
      end
  end.

(** A slice field: [null] makes it nil, an array replaces its elements. *)
Definition decodeSlice {A} (zero : A) (dec : A -> Value -> result A)
    (cur : slice A) (v : Value) : result (slice A) :=
  match v with
  | Null => Ok None
  | Array items =>
      match decodeItems zero dec (elems cur) items with
      | Err e => Err e
      | Ok l => Ok (Some l)
      end
  | _ => Err (typeError "into Go value of slice type")
  end.

(** A struct: the members of an object are decoded in document order,
    each into the field its key selects; other keys are skipped. *)
Fixpoint decodeMembers {A} (field : A -> string -> Value -> result A)
    (cur : A) (members : list (string * Value)) : result A :=
  match members with
  | [] => Ok cur
  | (key, v) :: members' =>
      match field cur key v with
      | Err e => Err e
      | Ok cur' => decodeMembers field cur' members'
      end
  end.

Definition decodeStruct {A} (field : A -> string -> Value -> result A)
    (cur : A) (v : Value) : result A :=
  match v with
  | Null => Ok cur
  | Object members => decodeMembers field cur members
  | _ => Err (typeError "into Go value of struct type")
  end.

Definition with_result {A B} (r : result A) (k : A -> B) : result B :=
  match r with
  | Ok a => Ok (k a)
  | Err e => Err e
  end.

Definition zeroTransition : Transition :=
  {| FromStatus := ""; ToStatus := ""; Author := ""; AuthorEmail := "";
     TransitionTime := "" |}.

Definition transitionField (t : Transition) (key : string) (v : Value)
  : result Transition :=
  if isField key "from_status" then
    with_result (decodeString (FromStatus t) v) (fun x =>
      {| FromStatus := x; ToStatus := ToStatus t; Author := Author t;
         AuthorEmail := AuthorEmail t; TransitionTime := TransitionTime t |})
  else if isField key "to_status" then
    with_result (decodeString (ToStatus t) v) (fun x =>
      {| FromStatus := FromStatus t; ToStatus := x; Author := Author t;
         AuthorEmail := AuthorEmail t; TransitionTime := TransitionTime t |})
  else if isField key "author" then
    with_result (decodeString (Author t) v) (fun x =>
      {| FromStatus := FromStatus t; ToStatus := ToStatus t; Author := x;
         AuthorEmail := AuthorEmail t; TransitionTime := TransitionTime t |})
  else if isField key "author_user_name" then
    with_result (decodeString (AuthorEmail t) v) (fun x =>
      {| FromStatus := FromStatus t; ToStatus := ToStatus t; Author := Author t;
         AuthorEmail := x; TransitionTime := TransitionTime t |})
  else if isField key "transition_time" then
    with_result (decodeString (TransitionTime t) v) (fun x =>
      {| FromStatus := FromStatus t; ToStatus := ToStatus t; Author := Author t;
         AuthorEmail := AuthorEmail t; TransitionTime := x |})
  else Ok t.

Definition decodeTransition : Transition -> Value -> result Transition :=
  decodeStruct transitionField.

Definition zeroTask : JiraTransitionResult :=
  {| Key := ""; Link := ""; Status := ""; Description := ""; Type_ := "";
     Project := ""; Created := ""; Updated := ""; Assignee := None;
     Reporter := ""; Priority := ""; Transitions := None |}.

Definition setField (t : JiraTransitionResult) (i : nat) (x : string)
  : JiraTransitionResult :=
  {| Key := if i =? 0 then x else Key t;
     Link := if i =? 1 then x else Link t;
     Status := if i =? 2 then x else Status t;
     Description := if i =? 3 then x else Description t;
     Type_ := if i =? 4 then x else Type_ t;
     Project := if i =? 5 then x else Project t;
     Created := if i =? 6 then x else Created t;
     Updated := if i =? 7 then x else Updated t;
     Assignee := Assignee t;
     Reporter := if i =? 8 then x else Reporter t;
     Priority := if i =? 9 then x else Priority t;
     Transitions := Transitions t |}.

Definition taskField (t : JiraTransitionResult) (key : string) (v : Value)
  : result JiraTransitionResult :=
  if isField key "key" then
    with_result (decodeString (Key t) v) (setField t 0)
  else if isField key "link" then
    with_result (decodeString (Link t) v) (setField t 1)
  else if isField key "status" then
    with_result (decodeString (Status t) v) (setField t 2)
  else if isField key "description" then
    with_result (decodeString (Description t) v) (setField t 3)
  else if isField key "type" then
    with_result (decodeString (Type_ t) v) (setField t 4)
  else if isField key "project" then
    with_result (decodeString (Project t) v) (setField t 5)
  else if isField key "created" then
    with_result (decodeString (Created t) v) (setField t 6)
  else if isField key "updated" then
    with_result (decodeString (Updated t) v) (setField t 7)
  else if isField key "assignee" then
    with_result (decodeStringPtr (Assignee t) v) (fun a =>
      {| Key := Key t; Link := Link t; Status := Status t;
         Description := Description t; Type_ := Type_ t;
         Project := Project t; Created := Created t; Updated := Updated t;
         Assignee := a; Reporter := Reporter t; Priority := Priority t;
         Transitions := Transitions t |})
  else if isField key "reporter" then
    with_result (decodeString (Reporter t) v) (setField t 8)
  else if isField key "priority" then
    with_result (decodeString (Priority t) v) (setField t 9)
  else if isField key "transitions" then
    with_result
      (decodeSlice zeroTransition decodeTransition (Transitions t) v)
      (fun l =>
         {| Key := Key t; Link := Link t; Status := Status t;
            Description := Description t; Type_ := Type_ t;
            Project := Project t; Created := Created t; Updated := Updated t;
            Assignee := Assignee t; Reporter := Reporter t;
            Priority := Priority t; Transitions := l |})
  else Ok t.

Definition decodeTask
  : JiraTransitionResult -> Value -> result JiraTransitionResult :=
  decodeStruct taskField.

Definition responseField (r : TransitionCheckResponse) (key : string)
    (v : Value) : result TransitionCheckResponse :=
  if isField key "tasks" then
    with_result (decodeSlice zeroTask decodeTask (Tasks r) v)
                (fun l => {| Tasks := l |})
  else Ok r.

Definition zeroResponse : TransitionCheckResponse := {| Tasks := None |}.

(** [json.Unmarshal(data, &response)] for [var response
    TransitionCheckResponse].  The error values stand for the errors of
    the library; their texts, which name the offending character and its
    offset, are not reproduced. *)
Definition Unmarshal (data : string) : result TransitionCheckResponse :=
  match parse data with
  | None => Err (errorString "invalid character in JSON input")
  | Some v => decodeStruct responseField zeroResponse v
  end.

End json.

(** ** config.go *)

Record AppConfig : Type := mkAppConfig {
  JIRAToken : string;
  JIRAURL : string;
  JIRAUsername : string;
  JIRAIDRegex : string;
  OutputFile : string;
  ExtractOnly : bool;
  ExtractFromGit : bool;
  SingleCommit : bool;
  StartCommit : string;
  JIRAIDs : list string
}.

Record FlagConfig : Type := mkFlagConfig {
  FlagJIRAIDRegex : string;
  FlagOutputFile : string;
  FlagExtractOnly : bool;
  FlagExtractFromGit : bool;
  CommitRange : bool;
  Help : bool;
  HelpLong : bool;
  GenerateMarkdown : bool;
  MarkdownOutput : string
}.

(** [getOrDefault]: the first non-empty value. *)
Fixpoint getOrDefault (values : list string) : string :=
  match values with
  | [] => ""
  | v :: rest => if negb (String.eqb v "") then v else getOrDefault rest
  end.

Definition validateJIRAConfig (config : AppConfig) : option error :=
  if String.eqb (JIRAToken config) "" then
    Some (ValidationError "JIRA_API_TOKEN" "" (errorString "environment variable is required"))
  else if String.eqb (JIRAURL config) "" then
    Some (ValidationError "JIRA_URL" "" (errorString "environment variable is required"))
  else if String.eqb (JIRAUsername config) "" then
    Some (ValidationError "JIRA_USERNAME" "" (errorString "environment variable is required"))
  else None.

Definition usageLines : list string :=
  [ "JIRA Evidence Gathering Tool";
    "";
    "Usage:";
    "  ./main [OPTIONS] <start_commit>";
    "  ./main <jira_id1> [jira_id2] [jira_id3] ...";
    "";
    "Options:";
    "  -r, --regex PATTERN    JIRA ID regex pattern (default: '[A-Z]+-[0-9]+')";
    "  -o, --output FILE      Output file for JIRA data (default: transformed_jira_data.json)";
    "  --extract-only         Only extract JIRA IDs, don't fetch details";
    "  --extract-from-git     Extract JIRA IDs from git commits (legacy mode)";
    "  --range                Process commits from the specified commit to HEAD (instead of single commit)";
    "  --markdown             Generate markdown from existing JSON file";
    "  --markdown-output FILE Output file for markdown (default: transformed_jira_data.md)";
    "  -h, --help             Display this help message";
    "";
    "Arguments:";
    "  commit                 The commit to process (default: process only this commit)";
    "                         With --range: Starting commit hash (excluded from evidence filter)";
    "";
    "Environment Variables:";
    "  JIRA_API_TOKEN         JIRA API token";
    "  JIRA_URL              JIRA instance URL";
    "  JIRA_USERNAME         JIRA username";
    "  JIRA_ID_REGEX         JIRA ID regex pattern (can be overridden with -r)";
    "  OUTPUT_FILE           Output file path (can be overridden with -o)";
    "";
    "Examples:";
    "  ./main abc123def456                   # Process only commit abc123def456";
    "  ./main --range abc123def456           # Process commits from abc123def456 to HEAD";
    "  ./main -r 'EV-\d+' -o jira_results.json abc123def456";
    "  ./main --extract-only abc123def456";
    "  ./main EV-123 EV-456 EV-789         # Direct JIRA ticket processing";
    "  ./main --markdown                    # Generate markdown from transformed_jira_data.json";
    "  ./main --markdown --markdown-output report.md  # Generate markdown with custom output file" ].

Definition DisplayUsage : IO unit :=
  foldr (fun line rest => Println line ;;; rest) (ret tt) usageLines.

(** [allArgsMatchPattern] *)
Fixpoint allArgsMatchPattern (args : list string) (regex : Regexp) : bool :=
  match args with
  | [] => true
  | arg :: rest =>
      if negb (MatchString regex arg) then false
      else allArgsMatchPattern rest regex
  end.

(** ** The process environment *)

Record System : Type := mkSystem {
  (** [regexp.Compile] *)
  regexp_Compile : string -> result Regexp;
  (** [defaultGitCommand]: the git binary, output trimmed *)
  defaultGitCommand : list string -> result string;
  (** [fmt.Sprintf("%v", x)] *)
  Sprint : jira.any -> string;
  (** [os.Getenv] *)
  Getenv : string -> string;
  (** [jira.NewClient(url, transport)] for a user name and a token *)
  jira_NewClient : string -> string -> string -> result jira.Client;
  (** [filepath.Dir] *)
  filepath_Dir : string -> string;
  (** [os.MkdirAll(dir, 0755)]: the error, if it fails *)
  os_MkdirAll : string -> option error;
  (** [os.WriteFile(name, data, 0644)]: the error, if it fails *)
  os_WriteFile : string -> option error;
  (** what a failing [os.WriteFile] leaves behind: [None] when the file
      could not be opened and is as it was, [Some n] when it was opened,
      and so truncated, and [n] bytes of the data reached it before the
      error *)
  os_WriteFile_partial : string -> option nat;
  (** [time.Now()] *)
  time_Now : time.Time;
  (** the order of the [range] loops over maps *)
  rangeOrder : RangeOrder
}.

Section Modes.

Variable sys : System.

(** [LoadConfig] *)
Definition LoadConfig (flags : FlagConfig) (args : list string)
  : result AppConfig :=
  let config :=
    {| JIRAToken := ""; JIRAURL := ""; JIRAUsername := "";
       JIRAIDRegex := getOrDefault [FlagJIRAIDRegex flags;
                                    Getenv sys "JIRA_ID_REGEX";
                                    DefaultJIRAIDRegex];
       OutputFile := getOrDefault [FlagOutputFile flags;
                                   Getenv sys "OUTPUT_FILE";
                                   DefaultOutputFile];
       ExtractOnly := FlagExtractOnly flags;
       ExtractFromGit := FlagExtractFromGit flags;
       SingleCommit := negb (CommitRange flags);
       StartCommit := "";
       JIRAIDs := [] |} in
  if negb (ExtractOnly config) && negb (ExtractFromGit config)
     && negb (GenerateMarkdown flags) then
    let config :=
      {| JIRAToken := Getenv sys "JIRA_API_TOKEN";
         JIRAURL := Getenv sys "JIRA_URL";
         JIRAUsername := Getenv sys "JIRA_USERNAME";
         JIRAIDRegex := JIRAIDRegex config;
         OutputFile := OutputFile config;
         ExtractOnly := ExtractOnly config;
         ExtractFromGit := ExtractFromGit config;
         SingleCommit := SingleCommit config;
         StartCommit := StartCommit config;
         JIRAIDs := JIRAIDs config |} in
    match validateJIRAConfig config with
    | Some e => Err e
    | None => Ok config
    end
  else Ok config.

(** [NewJiraClient] *)
Definition NewJiraClient : result JiraClient :=
  let jiraToken := Getenv sys "JIRA_API_TOKEN" in
  if String.eqb jiraToken "" then
    Err (ValidationError "JIRA_API_TOKEN" "" (errorString "environment variable not found"))
  else
  let jiraURL := Getenv sys "JIRA_URL" in
  if String.eqb jiraURL "" then
    Err (ValidationError "JIRA_URL" "" (errorString "environment variable not found"))
  else
  let jiraUsername := Getenv sys "JIRA_USERNAME" in
  if String.eqb jiraUsername "" then
    Err (ValidationError "JIRA_USERNAME" "" (errorString "environment variable not found"))
  else
  match jira_NewClient sys jiraURL jiraUsername jiraToken with
  | Err e => Err (errorString ("failed to create JIRA client: " +:+ Error e))
  | Ok c => Ok {| client := c; baseURL := jiraURL |}
  end.

(** ** utils.go *)

(** [os.WriteFile]: the file is opened with [O_TRUNC], the data written
    and the file closed.  When the open fails the file is as it was; an
    error of the write or of the close leaves in it the part of the data
    that was written. *)
Definition WriteFile (name data : string) : IO (option error) :=
  fun w =>
    match os_WriteFile sys name with
    | None =>
        (None, {| stdout := stdout w; stderr := stderr w;
                  files := <[name := data]> (files w) |})
    | Some e =>
        (Some e,
         match os_WriteFile_partial sys name with
         | None => w
         | Some n =>
             {| stdout := stdout w; stderr := stderr w;
                files := <[name := take_bytes n data]> (files w) |}
         end)
    end.

(** [writeToFile] *)
Definition writeToFile (filename : string) (data : string)
  : IO (option error) :=
  let dir := filepath_Dir sys filename in
  match (if negb (String.eqb dir ".") then os_MkdirAll sys dir else None) with
  | Some e =>
      ret (Some (errorString ("failed to create directory: " +:+ Error e)))
  | None => WriteFile filename data
  end.

(** [os.ReadFile]; [files] holds the files that are there, which the
    process is taken to be able to read. *)
Definition ReadFile (filename : string) : IO (result string) :=
  fun w => match files w !! filename with
           | Some data => (Ok data, w)
           | None => (Err (errorString ("open " +:+ filename +:+
                                        ": no such file or directory")), w)
           end.

(** ** markdown_generator.go, continued *)

(** [GenerateMarkdownFromJSON] *)
Definition GenerateMarkdownFromJSON (inputFile outputFile : string)
  : IO (option error) :=
  read <- ReadFile inputFile ;;
  match read with
  | Err e => ret (Some (errorString ("error reading JSON file: " +:+ Error e)))
  | Ok data =>
      match json.Unmarshal data with
      | Err e => ret (Some (errorString ("error parsing JSON: " +:+ Error e)))
      | Ok response =>
          let markdown :=
            generateMarkdown (time_Now sys) (rangeOrder sys) response in
          written <- WriteFile outputFile markdown ;;
          match written with
          | Some e =>
              ret (Some (errorString ("error writing markdown file: " +:+ Error e)))
          | None =>
              Print ("Markdown file generated: " +:+ outputFile +:+ nl) ;;;
              ret None
          end
      end
  end.

(** ** modes.go *)

Definition git : GitService := NewGitService (defaultGitCommand sys).

(** [saveJiraResults] *)
Definition saveJiraResults (response : TransitionCheckResponse)
    (config : AppConfig) : IO (option error) :=
  let jsonBytes := json.MarshalIndent response in
  written <- writeToFile (OutputFile config) jsonBytes ;;
  match written with
  | Some e => ret (Some (errorString ("error writing to file: " +:+ Error e)))
  | None =>
      Print ("JIRA data saved to: " +:+ OutputFile config +:+ nl) ;;;
      ret None
  end.

(** [runExtractOnlyMode] *)
Definition runExtractOnlyMode (config : AppConfig) : IO (option error) :=
  Println "=== JIRA ID Extraction (Extract Only Mode) ===" ;;;
  (if SingleCommit config
   then Print ("Commit: " +:+ StartCommit config +:+ nl)
   else Print ("Start Commit: " +:+ StartCommit config +:+ nl)) ;;;
  Print ("JIRA ID Regex: " +:+ JIRAIDRegex config +:+ nl) ;;;
  Println "" ;;;
  match GetBranchInfo (regexp_Compile sys) git with
  | Err e => ret (Some (errorString ("failed to get branch info: " +:+ Error e)))
  | Ok (branchName, commitHash, currentJiraID) =>
      Print ("Branch: " +:+ branchName +:+ nl) ;;;
      Print ("Latest Commit: " +:+ commitHash +:+ nl) ;;;
      match ValidateHEAD git with
      | Some e => Eprint ("❌ " +:+ Error e +:+ nl) ;;; ret None
      | None =>
          extracted <- ExtractJiraIDs (regexp_Compile sys) (rangeOrder sys) git
                         (StartCommit config) (JIRAIDRegex config)
                         currentJiraID (SingleCommit config) ;;
          match extracted with
          | Err e =>
              ret (Some (errorString ("failed to extract JIRA IDs: " +:+ Error e)))
          | Ok jiraIDs =>
              if length jiraIDs =? 0 then
                Println "No JIRA IDs found" ;;; ret None
              else
                Println (strings.Join jiraIDs ",") ;;; ret None
          end
      end
  end.

(** [runLegacyExtractFromGit] *)
Definition runLegacyExtractFromGit (args : list string) : IO (option error) :=
  match args with
  | startCommit :: regex :: _ =>
      match GetBranchInfo (regexp_Compile sys) git with
      | Err e => ret (Some (errorString ("error getting branch info: " +:+ Error e)))
      | Ok (branchName, commitHash, currentJiraID) =>
          Print ("BRANCH_NAME: " +:+ branchName +:+ nl) ;;;
          Print ("JIRA ID: " +:+ currentJiraID +:+ nl) ;;;
          Print ("START_COMMIT: " +:+ commitHash +:+ nl) ;;;
          match ValidateHEAD git with
          | Some e => Eprint ("❌ " +:+ Error e +:+ nl) ;;; ret None
          | None =>
              match ValidateCommit git startCommit with
              | Some e => Eprint ("❌ " +:+ Error e +:+ nl) ;;; ret None
              | None =>
                  extracted <- ExtractJiraIDs (regexp_Compile sys) (rangeOrder sys)
                                 git startCommit regex currentJiraID false ;;
                  match extracted with
                  | Err e =>
                      ret (Some (errorString ("error extracting JIRA IDs: " +:+ Error e)))
                  | Ok jiraIDs =>
                      if length jiraIDs =? 0 then
                        Println "No JIRA IDs found" ;;; ret None
                      else
                        Println (strings.Join jiraIDs ",") ;;; ret None
                  end
              end
          end
      end
  | _ =>
      Println "Usage: ./main --extract-from-git <start_commit> <jira_id_regex>" ;;;
      ret (Some (errorString "insufficient arguments"))
  end.

Definition withJIRAIDs (config : AppConfig) (ids : list string) : AppConfig :=
  {| JIRAToken := JIRAToken config; JIRAURL := JIRAURL config;
     JIRAUsername := JIRAUsername config; JIRAIDRegex := JIRAIDRegex config;
     OutputFile := OutputFile config; ExtractOnly := ExtractOnly config;
     ExtractFromGit := ExtractFromGit config;
     SingleCommit := SingleCommit config; StartCommit := StartCommit config;
     JIRAIDs := ids |}.

Definition withStartCommit (config : AppConfig) (commit : string) : AppConfig :=
  {| JIRAToken := JIRAToken config; JIRAURL := JIRAURL config;
     JIRAUsername := JIRAUsername config; JIRAIDRegex := JIRAIDRegex config;
     OutputFile := OutputFile config; ExtractOnly := ExtractOnly config;
     ExtractFromGit := ExtractFromGit config;
     SingleCommit := SingleCommit config; StartCommit := commit;
     JIRAIDs := JIRAIDs config |}.

(** [runFullMode] *)
Definition runFullMode (config : AppConfig) : IO (option error) :=
  Println "=== JIRA Details Fetching Process ===" ;;;
  (if SingleCommit config
   then Print ("Commit: " +:+ StartCommit config +:+ nl)
   else Print ("Start Commit: " +:+ StartCommit config +:+ nl)) ;;;
  Print ("JIRA ID Regex: " +:+ JIRAIDRegex config +:+ nl) ;;;
  Print ("Output File: " +:+ OutputFile config +:+ nl) ;;;
  Println "" ;;;
  (if SingleCommit config
   then Println "Step 1: Extracting JIRA IDs from commit..."
   else Println "Step 1: Extracting JIRA IDs from git commits...") ;;;
  match GetBranchInfo (regexp_Compile sys) git with
  | Err e => ret (Some (errorString ("error getting branch info: " +:+ Error e)))
  | Ok (branchName, commitHash, currentJiraID) =>
      Print ("Branch: " +:+ branchName +:+ nl) ;;;
      Print ("Latest Commit: " +:+ commitHash +:+ nl) ;;;
      match ValidateHEAD git with
      | Some e => Eprint ("❌ " +:+ Error e +:+ nl) ;;; ret None
      | None =>
          extracted <- ExtractJiraIDs (regexp_Compile sys) (rangeOrder sys) git
                         (StartCommit config) (JIRAIDRegex config)
                         currentJiraID (SingleCommit config) ;;
          match extracted with
          | Err e =>
              ret (Some (errorString ("error extracting JIRA IDs: " +:+ Error e)))
          | Ok jiraIDs =>
              if length jiraIDs =? 0 then
                Println "No JIRA IDs found in commit range" ;;; ret None
              else
                Print ("Found JIRA IDs: " +:+ strings.Join jiraIDs ", " +:+ nl) ;;;
                let config := withJIRAIDs config jiraIDs in
                Println "" ;;;
                Println "Step 2: Fetching JIRA details..." ;;;
                match NewJiraClient with
                | Err e =>
                    ret (Some (errorString ("error creating JIRA client: " +:+ Error e)))
                | Ok jiraClient =>
                    response <- FetchJiraDetails (Sprint sys) jiraClient (JIRAIDs config) ;;
                    Println "" ;;;
                    Println "Step 3: Writing results..." ;;;
                    saved <- saveJiraResults response config ;;
                    match saved with
                    | Some e => ret (Some e)
                    | None =>
                        Println "" ;;;
                        Println "=== Process completed successfully ===" ;;;
                        ret None
                    end
                end
          end
      end
  end.

(** [processDirectJiraIDs] *)
Definition processDirectJiraIDs (config : AppConfig) : IO (option error) :=
  Print ("Processing JIRA IDs: " +:+ strings.Join (JIRAIDs config) ", " +:+ nl) ;;;
  match NewJiraClient with
  | Err e => ret (Some (errorString ("error creating JIRA client: " +:+ Error e)))
  | Ok jiraClient =>
      response <- FetchJiraDetails (Sprint sys) jiraClient (JIRAIDs config) ;;
      saveJiraResults response config
  end.

(** [runMarkdownMode] *)
Definition runMarkdownMode (flags : FlagConfig) : IO (option error) :=
  let inputFile := getOrDefault [FlagOutputFile flags; Getenv sys "OUTPUT_FILE";
                                 DefaultOutputFile] in
  let outputFile := getOrDefault [MarkdownOutput flags;
                                  "transformed_jira_data.md"] in
  Println "=== Markdown Generation Mode ===" ;;;
  Print ("Input JSON file: " +:+ inputFile +:+ nl) ;;;
  Print ("Output Markdown file: " +:+ outputFile +:+ nl) ;;;
  Println "" ;;;
  generated <- GenerateMarkdownFromJSON inputFile outputFile ;;
  match generated with
  | Some e => ret (Some e)
  | None =>
      Println "" ;;;
      Println "=== Markdown generation completed successfully ===" ;;;
      ret None
  end.

(** The test of [determineExecutionMode] for direct processing of the
    arguments as identifiers. *)
Definition isDirectMode (flags : FlagConfig) (args : list string)
    (config : AppConfig) : bool :=
  negb (FlagExtractOnly flags) && (0 <? length args) &&
  match regexp_Compile sys (JIRAIDRegex config) with
  | Ok regex => allArgsMatchPattern args regex
  | Err _ => false
  end.

(** [determineExecutionMode] *)
Definition determineExecutionMode (flags : FlagConfig) (args : list string)
    (config : AppConfig) : IO (option error) :=
  if GenerateMarkdown flags then runMarkdownMode flags
  else if FlagExtractFromGit flags then runLegacyExtractFromGit args
  else
    match args with
    | [] => ret (Some (errorString "missing required arguments"))
    | arg0 :: _ =>
        if isDirectMode flags args config then
          processDirectJiraIDs (withJIRAIDs config args)
        else
          let config := withStartCommit config arg0 in
          match CheckRepository git with
          | Some e => ret (Some e)
          | None =>
              if ExtractOnly config then runExtractOnlyMode config
              else runFullMode config
          end
    end.

(** ** main.go

    [main], from the parsed flags and the positional arguments, to the
    exit status of the process. *)
Definition main (flags : FlagConfig) (args : list string) : IO nat :=
  if Help flags || HelpLong flags then DisplayUsage ;;; ret 0
  else
    match LoadConfig flags args with
    | Err e =>
        Eprint ("Error loading configuration: " +:+ Error e +:+ nl) ;;;
        DisplayUsage ;;;
        ret 1
    | Ok config =>
        outcome <- determineExecutionMode flags args config ;;
        match outcome with
        | Some e => Eprint ("Error: " +:+ Error e +:+ nl) ;;; ret 1
        | None => ret 0
        end
    end.

End Modes.


(** ** Package unicode/utf8, continued *)

(** [s[i]], for an index within the string. *)
Definition byteAt (s : string) (i : nat) : ascii :=
  match String.get i s with
  | Some c => c
  | None => Ascii.zero
  end.

(** [utf8.RuneStart]: the byte is not a continuation byte. *)
Definition RuneStart (b : ascii) : bool := negb (utf8.byte_in 128 191 b).

(** The loop [for start--; start >= lim; start-- { if RuneStart(s[start])
    { break } }] of [DecodeLastRuneInString], from the value of [start]
    after the first decrement. *)
Fixpoint lastRuneStart (fuel : nat) (s : string) (lim start : Z) : Z :=
  match fuel with
  | 0 => start
  | S fuel' =>
      if (start <? lim)%Z then start
      else if RuneStart (byteAt s (Z.to_nat start)) then start
      else lastRuneStart fuel' s lim (start - 1)
  end.

(** [utf8.DecodeLastRuneInString]: the last rune of a string and its width
    in bytes. *)
Definition DecodeLastRuneInString (s : string) : N * nat :=
  let end_ := Z.of_nat (String.length s) in
  if (end_ =? 0)%Z then (utf8.RuneError, 0)
  else
    let start := (end_ - 1)%Z in
    let r := N_of_ascii (byteAt s (Z.to_nat start)) in
    if (r <? 128)%N then (r, 1)
    else
      let lim := Z.max (end_ - 4) 0 in
      let start := lastRuneStart (String.length s) s lim (start - 1) in
      let start := Z.max start 0 in
      let (r, size) := utf8.DecodeRuneInString (drop_bytes (Z.to_nat start) s) in
      if (start + Z.of_nat size =? end_)%Z then (r, size)
      else (utf8.RuneError, 1).

(** ** Package unicode *)

Module unicode.

(** [IsSpace]: the white space of Latin-1 and, above it, the code points of
    the table [White_Space]. *)
Definition IsSpace (r : N) : bool :=
  if (r <=? 255)%N then
    ((r =? 9) || (r =? 10) || (r =? 11) || (r =? 12) || (r =? 13) ||
     (r =? 32) || (r =? 133) || (r =? 160))%N
  else
    ((r =? 5760) || ((8192 <=? r) && (r <=? 8202)) || (r =? 8232) ||
     (r =? 8233) || (r =? 8239) || (r =? 8287) || (r =? 12288))%N.

End unicode.

(** ** Package strings, continued *)

(** The table [asciiSpace]. *)
Definition asciiSpace (c : ascii) : bool :=
  let x := N_of_ascii c in
  ((x =? 9) || (x =? 10) || (x =? 11) || (x =? 12) || (x =? 13) || (x =? 32))%N.

(** [TrimLeftFunc(s, f)]: [s] from its first rune that does not satisfy
    [f]; the empty string when there is none. *)
Fixpoint TrimLeftFunc (fuel : nat) (s : string) (f : N -> bool) {struct fuel}
  : string :=
  match fuel with
  | 0 => EmptyString
  | S fuel' =>
      match s with
      | EmptyString => EmptyString
      | String _ _ =>
          let (r, size) := utf8.DecodeRuneInString s in
          if f r then TrimLeftFunc fuel' (drop_bytes size s) f else s
      end
  end.

(** [lastIndexFunc(s, f, false)] from the index [i]: the index of the last
    rune of [s[:i]] that does not satisfy [f]. *)
Fixpoint lastIndexFunc (fuel : nat) (s : string) (f : N -> bool) (i : nat)
  {struct fuel} : option nat :=
  match fuel with
  | 0 => None
  | S fuel' =>
      if i =? 0 then None
      else
        let (r, size) := DecodeLastRuneInString (take_bytes i s) in
        let i := i - size in
        if negb (f r) then Some i else lastIndexFunc fuel' s f i
  end.

(** [TrimRightFunc(s, f)] *)
Definition TrimRightFunc (s : string) (f : N -> bool) : string :=
  match lastIndexFunc (String.length s) s f (String.length s) with
  | Some i =>
      if (128 <=? N_of_ascii (byteAt s i))%N
      then take_bytes (i + utf8.RuneWidth (drop_bytes i s)) s
      else take_bytes (i + 1) s
  | None => EmptyString
  end.

(** [TrimFunc(s, f)] *)
Definition TrimFunc (s : string) (f : N -> bool) : string :=
  TrimRightFunc (TrimLeftFunc (String.length s) s f) f.

(** The second loop of [TrimSpace], on [s[start:]]: [stop] moves down from
    the end over ASCII white space. *)
Fixpoint trimSpaceRight (s : string) (stop : nat) : string :=
  match stop with
  | 0 => EmptyString
  | S stop' =>
      let c := byteAt s stop' in
      if (128 <=? N_of_ascii c)%N
      then TrimRightFunc (take_bytes stop s) unicode.IsSpace
      else if asciiSpace c then trimSpaceRight s stop'
      else take_bytes stop s
  end.

(** [strings.TrimSpace]: ASCII white space is skipped at both ends; at the
    first byte that is not ASCII the rest is left to the functions that
    decode runes. *)
Fixpoint TrimSpace (s : string) : string :=
  match s with
  | EmptyString => EmptyString
  | String c rest =>
      if (128 <=? N_of_ascii c)%N then TrimFunc s unicode.IsSpace
      else if asciiSpace c then TrimSpace rest
      else trimSpaceRight s (String.length s)
  end.

(** ** git.go, continued *)

(** [defaultGitCommand]: [exec_Output] stands for running the git binary
    with the arguments and collecting its standard output. *)
Definition runGitCommand (exec_Output : list string -> result string)
    (args : list string) : result string :=
  match exec_Output args with
  | Err err => Err (GitError (strings.Join args " ") err)
  | Ok output => Ok (TrimSpace output)
  end.
(** ** Reference definitions for the statements below *)

(** The texts that enter the identifier map, in the order
    [extractUniqueJIRAIDs] meets them: the seed if it qualifies, then the
    matches line by line. *)
Definition seenIDs (commitMessages currentJiraID : string) (regex : Regexp)
  : list string :=
  (if negb (String.eqb currentJiraID "") && MatchString regex currentJiraID
   then [currentJiraID] else []) ++
  mjoin (FindAllString regex <$> strings.SplitLines commitMessages).

(** The first occurrence of every element, in order. *)
Fixpoint firstOccurrences (seen l : list string) : list string :=
  match l with
  | [] => []
  | x :: l' =>
      if bool_decide (x ∈ seen) then firstOccurrences seen l'
      else x :: firstOccurrences (x :: seen) l'
  end.

(** The identifier set in first-seen insertion order, as the specification
    words it. *)
Definition firstSeenOrder (commitMessages currentJiraID : string)
    (regex : Regexp) : list string :=
  filter (fun jiraID => jiraID <> "")
         (firstOccurrences [] (seenIDs commitMessages currentJiraID regex)).

(** Two iteration orders of a map: the one of [map_to_list], and its
    reverse. *)
Program Definition ascendingOrder : RangeOrder :=
  {| range := fun V m => map_to_list m |}.
Next Obligation. reflexivity. Qed.

Program Definition descendingOrder : RangeOrder :=
  {| range := fun V m => reverse (map_to_list m) |}.
Next Obligation. intros. apply reverse_Permutation. Qed.

(** The ten digit characters. *)
Definition digitChars : list ascii :=
  ["0"; "1"; "2"; "3"; "4"; "5"; "6"; "7"; "8"; "9"]%char.

(** The text [formatDate] prints for a time stamp it can parse: the date
    as written, a space, and the time of day as written, with a zero put
    before a one-digit hour. *)
Definition wallClockText (dateStr : string) : string :=
  let afterT := drop_bytes 11 dateStr in
  take_bytes 10 dateStr +:+ " " +:+
  (if match afterT with
      | String _ (String c _) => time.isDigit c
      | _ => false
      end
   then take_bytes 8 afterT
   else "0" +:+ take_bytes 7 afterT).

(** Texts of the form [YYYY-MM-DD HH:MM:SS]. *)
Definition isTimestamp (s : string) : bool :=
  match s with
  | String y0 (String y1 (String y2 (String y3 (String a
      (String m0 (String m1 (String b (String d0 (String d1 (String c
        (String h0 (String h1 (String e (String i0 (String i1 (String f
          (String s0 (String s1 EmptyString)))))))))))))))))) =>
      forallb time.isDigit [y0; y1; y2; y3; m0; m1; d0; d1; h0; h1; i0; i1; s0; s1]
      && String.eqb (String a (String b (String c (String e (String f EmptyString)))))
                    "-- ::"
  | _ => false
  end.

(** The number of tasks with a given status. *)
Definition tasksWithStatus (status : string) (tasks : list JiraTransitionResult)
  : nat :=
  length (filter (fun task => Status task = status) tasks).

(** One entry per status value, in order of first appearance, with the
    number of tasks that have it. *)
Definition statusDistribution (tasks : list JiraTransitionResult)
  : list (string * nat) :=
  (fun status => (status, tasksWithStatus status tasks))
    <$> firstOccurrences [] (Status <$> tasks).

Definition reportHeader (now : time.Time) : string :=
  "# JIRA Tasks Report" +:+ nl +:+ nl +:+
  "Generated on: " +:+ time.Format now +:+ nl +:+ nl.

(** One round of the loop [statusCount[task.Status]++]. *)
Definition countStep (statusCount : gmap string nat) (task : JiraTransitionResult)
  : gmap string nat :=
  <[Status task := S (default 0 (statusCount !! Status task))]> statusCount.

(** A fetch has failed when the tracker returned an error, or no issue,
    or an issue without fields. *)
Definition fetchFailed (jc : JiraClient) (jiraID : string) : Prop :=
  match jira.IssueGet (client jc) jiraID with
  | (Some issue, None) => jira.Fields issue = None
  | _ => True
  end.

(** The status the tracker reports for an identifier whose fetch
    succeeds. *)
Definition reportedStatus (jc : JiraClient) (jiraID : string) : option string :=
  match jira.IssueGet (client jc) jiraID with
  | (Some issue, None) =>
      match jira.Fields issue with
      | Some fields => Some (getStatusName (jira.StatusName fields))
      | None => None
      end
  | _ => None
  end.

(** ** A sample environment

    Used to run the functions on concrete inputs. *)

(** [ABC-[0-9]+] *)
Definition abcPattern : syntax.Regexp :=
  syntax.Concat (syntax.Literal "A"%char)
    (syntax.Concat (syntax.Literal "B"%char)
       (syntax.Concat (syntax.Literal "C"%char)
          (syntax.Concat (syntax.Literal "-"%char)
             (syntax.Plus (syntax.CharClass [("0"%char, "9"%char)]))))).

(** [regexp.Compile] on the patterns of the examples. *)
Definition sampleCompile (pattern : string) : result Regexp :=
  if String.eqb pattern DefaultJIRAIDRegex then Ok (compiled defaultPattern)
  else if String.eqb pattern "ABC-[0-9]+" then Ok (compiled abcPattern)
  else if String.eqb pattern "[A-Z]*"
  then Ok (compiled (syntax.Star (syntax.CharClass [("A"%char, "Z"%char)])))
  else Err (errorString ("error parsing regexp: " +:+ pattern)).

(** A repository whose latest commit is [EV-9: latest change], on top of
    [ABC-1: earlier change], on top of the commit [abc123]. *)
Definition sampleGit : GitService :=
  {| execCommand := fun args =>
       if bool_decide (args = ["rev-parse"; "--git-dir"]) then Ok ".git"
       else if bool_decide (args = ["rev-parse"; "--verify"; "HEAD"]) then Ok "f00d"
       else if bool_decide (args = ["rev-parse"; "--verify"; "abc123"]) then Ok "abc123"
       else if bool_decide (args = ["branch"; "--show-current"]) then Ok "main"
       else if bool_decide (args = ["log"; "-1"; "--format=%H%n%s"])
       then Ok ("f00d" +:+ nl +:+ "EV-9: latest change")
       else if bool_decide (args = ["log"; "-1"; "--pretty=format:%s"; "abc123"])
       then Ok "EV-1: base"
       else if bool_decide (args = ["log"; "--pretty=format:%s"; "abc123..HEAD"])
       then Ok ("EV-9: latest change" +:+ nl +:+ "ABC-1: earlier change")
       else Err (GitError (strings.Join args " ") (errorString "exit status 1")) |}.

(** Outside any repository every git command fails. *)
Definition noRepository (args : list string) : result string :=
  Err (GitError (strings.Join args " ") (errorString "exit status 128")).

(** A tracker that knows no issue. *)
Definition emptyTracker : jira.Client :=
  {| jira.IssueGet := fun _ => (None, Some (errorString "Issue does not exist")) |}.

Definition sampleSystem (gitCommand : list string -> result string) : System :=
  {| regexp_Compile := sampleCompile;
     defaultGitCommand := gitCommand;
     Sprint := fun _ => "";
     Getenv := fun name =>
       if String.eqb name "JIRA_API_TOKEN" then "token"
       else if String.eqb name "JIRA_URL" then "https://example.atlassian.net"
       else if String.eqb name "JIRA_USERNAME" then "user@example.com"
       else "";
     jira_NewClient := fun _ _ _ => Ok emptyTracker;
     filepath_Dir := fun _ => ".";
     os_MkdirAll := fun _ => None;
     os_WriteFile := fun _ => None;
     os_WriteFile_partial := fun _ => None;
     time_Now := {| time.year := 2025; time.month := 1; time.day := 1;
                    time.hour := 10; time.minute := 30; time.second := 45;
                    time.nanosecond := 0; time.zoneOffset := 0 |};
     rangeOrder := ascendingOrder |}.

(** A tracker whose workflow has a status named [Error]: every issue it
    knows is in that status, assigned to Jane. *)
Definition errorWorkflowTracker : jira.Client :=
  {| jira.IssueGet := fun jiraID =>
       (Some {| jira.IssueKey := jiraID;
                jira.Fields := Some
                  {| jira.StatusName := Some "Error";
                     jira.FieldsDescription := jira.Str "Deployment failed";
                     jira.TypeName := "Task";
                     jira.ProjectKey := "EV";
                     jira.FieldsCreated := jira.Nil;
                     jira.FieldsUpdated := jira.Nil;
                     jira.FieldsAssignee :=
                       Some {| jira.DisplayName := "Jane";
                               jira.EmailAddress := "jane@example.com" |};
                     jira.FieldsReporter := None;
                     jira.PriorityName := None |};
                jira.IssueChangelog := None |}, None) |}.

Definition errorWorkflowSystem : System :=
  {| regexp_Compile := sampleCompile;
     defaultGitCommand := noRepository;
     Sprint := fun v => match v with jira.Str text => text | _ => "" end;
     Getenv := fun name =>
       if String.eqb name "JIRA_API_TOKEN" then "token"
       else if String.eqb name "JIRA_URL" then "https://example.atlassian.net"
       else if String.eqb name "JIRA_USERNAME" then "user@example.com"
       else "";
     jira_NewClient := fun _ _ _ => Ok errorWorkflowTracker;
     filepath_Dir := fun _ => ".";
     os_MkdirAll := fun _ => None;
     os_WriteFile := fun _ => None;
     os_WriteFile_partial := fun _ => None;
     time_Now := {| time.year := 2025; time.month := 1; time.day := 1;
                    time.hour := 10; time.minute := 30; time.second := 45;
                    time.nanosecond := 0; time.zoneOffset := 0 |};
     rangeOrder := ascendingOrder |}.

Definition noFlags : FlagConfig :=
  {| FlagJIRAIDRegex := ""; FlagOutputFile := ""; FlagExtractOnly := false;
     FlagExtractFromGit := false; CommitRange := false; Help := false;
     HelpLong := false; GenerateMarkdown := false; MarkdownOutput := "" |}.

(** Two tasks with different statuses, and two clock readings. *)
Definition twoStatuses : TransitionCheckResponse :=
  {| Tasks := Some [
       {| Key := "EV-1"; Link := ""; Status := "Done"; Description := "";
          Type_ := "Task"; Project := "EV"; Created := ""; Updated := "";
          Assignee := None; Reporter := ""; Priority := "";
          Transitions := None |};
       {| Key := "EV-2"; Link := ""; Status := "Open"; Description := "";
          Type_ := "Task"; Project := "EV"; Created := ""; Updated := "";
          Assignee := None; Reporter := ""; Priority := "";
          Transitions := None |} ] |}.

Definition noon : time.Time :=
  {| time.year := 2025; time.month := 1; time.day := 1; time.hour := 12;
     time.minute := 0; time.second := 0; time.nanosecond := 0;
     time.zoneOffset := 0 |}.

Definition oneSecondPastNoon : time.Time :=
  {| time.year := 2025; time.month := 1; time.day := 1; time.hour := 12;
     time.minute := 0; time.second := 1; time.nanosecond := 0;
     time.zoneOffset := 0 |}.


(** What one round of [json.unquote] adds to the rest of the literal. *)
Definition consByte (b : ascii) (r : option (string * string))
  : option (string * string) :=
  match r with
  | Some (t, out) => Some (String b t, out)
  | None => None
  end.

Definition consBytes (p : string) (r : option (string * string))
  : option (string * string) :=
  match r with
  | Some (t, out) => Some (p +:+ t, out)
  | None => None
  end.


(** ** Reference definitions for the JSON round trip *)

(** The text of the items of an array after the first, and of the members
    of an object after the first, as [json.indent] writes them. *)
Fixpoint itemsText (d : nat) (l : list json.Value) : string :=
  match l with
  | [] => EmptyString
  | item :: l' =>
      "," +:+ json.newline d +:+ json.indent d item +:+ itemsText d l'
  end.

Fixpoint membersText (d : nat) (l : list (string * json.Value)) : string :=
  match l with
  | [] => EmptyString
  | (k, item) :: l' =>
      "," +:+ json.newline d +:+ json.quote k +:+ ": " +:+
      json.indent d item +:+ membersText d l'
  end.

(** Values made of [null], valid UTF-8 strings, arrays and objects. *)
Fixpoint plain (v : json.Value) : bool :=
  match v with
  | json.Null => true
  | json.Str s => utf8.ValidString s
  | json.Array l => forallb plain l
  | json.Object l =>
      forallb (fun kv => utf8.ValidString (fst kv) && plain (snd kv)) l
  | _ => false
  end.

(** Fuel that suffices to parse a value, and its nesting depth. *)
Fixpoint need (v : json.Value) : nat :=
  match v with
  | json.Array l =>
      S ((fix items (l : list json.Value) : nat :=
            match l with
            | [] => 0
            | x :: l' => S (Nat.max (need x) (items l'))
            end) l)
  | json.Object l =>
      S ((fix members (l : list (string * json.Value)) : nat :=
            match l with
            | [] => 0
            | (_, x) :: l' => S (Nat.max (need x) (members l'))
            end) l)
  | _ => 1
  end.

Definition needItems : list json.Value -> nat :=
  fix items (l : list json.Value) : nat :=
    match l with
    | [] => 0
    | x :: l' => S (Nat.max (need x) (items l'))
    end.

Definition needMembers : list (string * json.Value) -> nat :=
  fix members (l : list (string * json.Value)) : nat :=
    match l with
    | [] => 0
    | (_, x) :: l' => S (Nat.max (need x) (members l'))
    end.

Fixpoint nest (v : json.Value) : nat :=
  match v with
  | json.Array l =>
      S ((fix items (l : list json.Value) : nat :=
            match l with
            | [] => 0
            | x :: l' => Nat.max (nest x) (items l')
            end) l)
  | json.Object l =>
      S ((fix members (l : list (string * json.Value)) : nat :=
            match l with
            | [] => 0
            | (_, x) :: l' => Nat.max (nest x) (members l')
            end) l)
  | _ => 0
  end.

Definition nestItems : list json.Value -> nat :=
  fix items (l : list json.Value) : nat :=
    match l with
    | [] => 0
    | x :: l' => Nat.max (nest x) (items l')
    end.

Definition nestMembers : list (string * json.Value) -> nat :=
  fix members (l : list (string * json.Value)) : nat :=
    match l with
    | [] => 0
    | (_, x) :: l' => Nat.max (nest x) (members l')
    end.

(** The first byte of the text of a plain value. *)
Definition opens (c : ascii) : Prop :=
  c = "n"%char ∨ c = json.dquote ∨ c = "["%char ∨ c = "{"%char.

(** The nesting limit leaves room for [n] more levels below [depth]. *)
Definition depthOK (depth : N) (n : nat) : Prop :=
  (depth + N.of_nat n <= json.maxNestingDepth)%N.

(** ** Responses whose strings are valid UTF-8 *)

Definition validTransition (t : Transition) : bool :=
  utf8.ValidString (FromStatus t) && utf8.ValidString (ToStatus t) &&
  utf8.ValidString (Author t) && utf8.ValidString (AuthorEmail t) &&
  utf8.ValidString (TransitionTime t).

Definition validTask (t : JiraTransitionResult) : bool :=
  utf8.ValidString (Key t) && utf8.ValidString (Link t) &&
  utf8.ValidString (Status t) && utf8.ValidString (Description t) &&
  utf8.ValidString (Type_ t) && utf8.ValidString (Project t) &&
  utf8.ValidString (Created t) && utf8.ValidString (Updated t) &&
  match Assignee t with
  | Some a => utf8.ValidString a
  | None => true
  end &&
  utf8.ValidString (Reporter t) && utf8.ValidString (Priority t) &&
  forallb validTransition (elems (Transitions t)).

Definition validResponse (r : TransitionCheckResponse) : bool :=
  forallb validTask (elems (Tasks r)).


(** A response with a nil and an empty assignee, nil and empty
    transitions, and text that needs escaping. *)
Definition sampleResponse : TransitionCheckResponse :=
  {| Tasks := Some [
       {| Key := "EV-1"; Link := "https://example.atlassian.net/browse/EV-1";
          Status := "Done <ok>"; Description := "line one" +:+ nl +:+ "é";
          Type_ := "Task"; Project := "EV";
          Created := "2025-01-01T10:30:45.123+0300"; Updated := "";
          Assignee := Some ""; Reporter := "Jane"; Priority := "High";
          Transitions := None |};
       {| Key := "EV-2"; Link := ""; Status := "Error";
          Description := "Error: Could not retrieve issue"; Type_ := "Error";
          Project := ""; Created := ""; Updated := ""; Assignee := None;
          Reporter := ""; Priority := ""; Transitions := Some [] |};
       {| Key := "EV-3"; Link := ""; Status := "Open";
          Description := ""; Type_ := "Bug";
          Project := "EV"; Created := ""; Updated := "";
          Assignee := Some "John"; Reporter := ""; Priority := "";
          Transitions := Some [
            {| FromStatus := "To Do"; ToStatus := "Open"; Author := "John";
               AuthorEmail := "john@example.com";
               TransitionTime := "2025-01-02T09:00:00.000+0300" |} ] |} ] |}.

(** The identifier [EV-1] followed by the byte 255, which is not UTF-8. *)
Definition notUTF8 : string := "EV-1" +:+ String (ascii_of_nat 255) EmptyString.

(** ** Further reference definitions *)

(** The character class and the body of the anchored pattern
    [^[a-fA-F0-9]+$] of [validateCommitHash]. *)
Definition hexClass : list (ascii * ascii) :=
  [("a"%char, "f"%char); ("A"%char, "F"%char); ("0"%char, "9"%char)].

Definition hexPattern : syntax.Regexp :=
  syntax.Plus (syntax.CharClass hexClass).

(** The warning of [ExtractJiraIDs] for an empty result. *)
Definition emptyWarning (startCommit : string) (singleCommit : bool) : string :=
  if singleCommit
  then "⚠️  No JIRA IDs found in commit " +:+ startCommit +:+ nl
  else "⚠️  No JIRA IDs found in commit range " +:+ startCommit +:+ "..HEAD" +:+ nl.

(** The transition recorded for one changelog item of a history. *)
Definition statusChange (history : jira.ChangelogHistory)
    (item : jira.ChangelogItems) : Transition :=
  {| FromStatus := jira.FromString item;
     ToStatus := jira.ToString item;
     Author := jira.DisplayName (jira.HistoryAuthor history);
     AuthorEmail := jira.EmailAddress (jira.HistoryAuthor history);
     TransitionTime := jira.HistoryCreated history |}.

(** The status changes of an issue: history by history, the items whose
    field is ["status"]. *)
Definition statusChanges (issue : jira.Issue) : list Transition :=
  match jira.IssueChangelog issue with
  | None => []
  | Some changelog =>
      history ← jira.Histories changelog;
      statusChange history <$>
        filter (fun item => jira.Field item = "status") (jira.Items history)
  end.

(** The line written to standard error for an identifier: one when the
    tracker returned an error, none otherwise. *)
Definition fetchDiagnostic (jc : JiraClient) (jiraID : string) : string :=
  match (jira.IssueGet (client jc) jiraID).2 with
  | Some e => "Failed to fetch JIRA " +:+ jiraID +:+ ": " +:+ Error e +:+ nl
  | None => ""
  end.

(** Nodes of the Atlassian Document Format, as decoded JSON objects: a
    text node, a paragraph of nodes, and a document of nodes. *)
Definition textNode (text : string) : jira.any :=
  jira.Map [("type", jira.Str "text"); ("text", jira.Str text)].

Definition paragraphNode (content : list jira.any) : jira.any :=
  jira.Map [("type", jira.Str "paragraph"); ("content", jira.List content)].

Definition documentNode (content : list jira.any) : jira.any :=
  jira.Map [("type", jira.Str "doc"); ("content", jira.List content)].

(** What [DisplayUsage] prints. *)
Definition usageText : string :=
  writeAll ((fun line => line +:+ nl) <$> usageLines).

(** The first of the three credentials the environment lacks. *)
Definition missingCredential (sys : System) : option string :=
  if String.eqb (Getenv sys "JIRA_API_TOKEN") "" then Some "JIRA_API_TOKEN"
  else if String.eqb (Getenv sys "JIRA_URL") "" then Some "JIRA_URL"
  else if String.eqb (Getenv sys "JIRA_USERNAME") "" then Some "JIRA_USERNAME"
  else None.

(** The files [main] may write, by mode. *)
Definition outputPaths (sys : System) (flags : FlagConfig) : list string :=
  if Help flags || HelpLong flags then []
  else if GenerateMarkdown flags
  then [getOrDefault [MarkdownOutput flags; "transformed_jira_data.md"]]
  else if FlagExtractFromGit flags || FlagExtractOnly flags then []
  else [getOrDefault [FlagOutputFile flags; Getenv sys "OUTPUT_FILE";
                      DefaultOutputFile]].

(** What extract-only mode prints before the identifiers. *)
Definition extractOnlyBanner (startCommit pattern branchName commitHash : string)
    (singleCommit : bool) : string :=
  "=== JIRA ID Extraction (Extract Only Mode) ===" +:+ nl +:+
  (if singleCommit then "Commit: " else "Start Commit: ") +:+ startCommit +:+ nl +:+
  "JIRA ID Regex: " +:+ pattern +:+ nl +:+
  nl +:+
  "Branch: " +:+ branchName +:+ nl +:+
  "Latest Commit: " +:+ commitHash +:+ nl.

(** An action leaves every file outside [paths] as it was. *)
Definition keeps {A} (paths : list string) (m : IO A) : Prop :=
  forall w p, p ∉ paths -> files (m w).2 !! p = files w !! p.

(** The error [writeToFile] meets when it creates the directory of
    [filename], if any. *)
Definition directoryError (sys : System) (filename : string) : option error :=
  if negb (String.eqb (filepath_Dir sys filename) ".")
  then os_MkdirAll sys (filepath_Dir sys filename) else None.

(** [writeToFile] meets no obstacle at [filename]. *)
Definition writable (sys : System) (filename : string) : Prop :=
  (if negb (String.eqb (filepath_Dir sys filename) ".")
   then os_MkdirAll sys (filepath_Dir sys filename) else None) = None ∧
  os_WriteFile sys filename = None.

(** ** Further sample environments *)

(** The sample environment without the tracker address and user name. *)
Definition noCredentials (gitCommand : list string -> result string) : System :=
  {| regexp_Compile := sampleCompile;
     defaultGitCommand := gitCommand;
     Sprint := fun _ => "";
     Getenv := fun name =>
       if String.eqb name "JIRA_API_TOKEN" then "token" else "";
     jira_NewClient := fun _ _ _ => Ok emptyTracker;
     filepath_Dir := fun _ => ".";
     os_MkdirAll := fun _ => None;
     os_WriteFile := fun _ => None;
     os_WriteFile_partial := fun _ => None;
     time_Now := noon;
     rangeOrder := ascendingOrder |}.

(** The sample repository with a history that cannot be verified:
    [rev-parse --verify HEAD] fails. *)
Definition unverifiableHEAD (args : list string) : result string :=
  if bool_decide (args = ["rev-parse"; "--verify"; "HEAD"])
  then Err (GitError (strings.Join args " ") (errorString "exit status 128"))
  else execCommand sampleGit args.

Definition legacyFlags : FlagConfig :=
  {| FlagJIRAIDRegex := ""; FlagOutputFile := ""; FlagExtractOnly := false;
     FlagExtractFromGit := true; CommitRange := false; Help := false;
     HelpLong := false; GenerateMarkdown := false; MarkdownOutput := "" |}.

Definition markdownFlags : FlagConfig :=
  {| FlagJIRAIDRegex := ""; FlagOutputFile := ""; FlagExtractOnly := false;
     FlagExtractFromGit := false; CommitRange := false; Help := false;
     HelpLong := false; GenerateMarkdown := true; MarkdownOutput := "" |}.

Definition extractOnlyFlags : FlagConfig :=
  {| FlagJIRAIDRegex := ""; FlagOutputFile := ""; FlagExtractOnly := true;
     FlagExtractFromGit := false; CommitRange := false; Help := false;
     HelpLong := false; GenerateMarkdown := false; MarkdownOutput := "" |}.

(** The configuration [LoadConfig] builds with the extract-only flag: no
    credential is read. *)
Definition extractOnlyConfig : AppConfig :=
  {| JIRAToken := ""; JIRAURL := ""; JIRAUsername := "";
     JIRAIDRegex := DefaultJIRAIDRegex; OutputFile := DefaultOutputFile;
     ExtractOnly := true; ExtractFromGit := false; SingleCommit := true;
     StartCommit := ""; JIRAIDs := [] |}.

(** The configuration [LoadConfig] builds in the sample environment when no
    flag is given. *)
Definition sampleConfig : AppConfig :=
  {| JIRAToken := "token"; JIRAURL := "https://example.atlassian.net";
     JIRAUsername := "user@example.com"; JIRAIDRegex := DefaultJIRAIDRegex;
     OutputFile := DefaultOutputFile; ExtractOnly := false;
     ExtractFromGit := false; SingleCommit := true;
     StartCommit := ""; JIRAIDs := [] |}.

(** A tracker that knows the issue [EV-1], in progress and unassigned. *)
Definition sampleIssue : jira.Issue :=
  {| jira.IssueKey := "EV-1";
     jira.Fields := Some
       {| jira.StatusName := Some "In Progress";
          jira.FieldsDescription := jira.Nil;
          jira.TypeName := "Task";
          jira.ProjectKey := "EV";
          jira.FieldsCreated := jira.Str "2025-01-01T10:30:45.123+0300";
          jira.FieldsUpdated := jira.Nil;
          jira.FieldsAssignee := None;
          jira.FieldsReporter := None;
          jira.PriorityName := None |};
     jira.IssueChangelog := None |}.

Definition sampleTracker : jira.Client :=
  {| jira.IssueGet := fun jiraID =>
       if String.eqb jiraID "EV-1" then (Some sampleIssue, None)
       else (None, Some (errorString "Issue does not exist")) |}.

Definition trackerSystem : System :=
  {| regexp_Compile := sampleCompile;
     defaultGitCommand := execCommand sampleGit;
     Sprint := fun _ => "";
     Getenv := Getenv (sampleSystem noRepository);
     jira_NewClient := fun _ _ _ => Ok sampleTracker;
     filepath_Dir := fun _ => ".";
     os_MkdirAll := fun _ => None;
     os_WriteFile := fun _ => None;
     os_WriteFile_partial := fun _ => None;
     time_Now := noon;
     rangeOrder := ascendingOrder |}.

(** ** Texts that are not UTF-8 *)

(** [s] with every byte that is not part of a well-formed UTF-8 sequence
    replaced by the encoding of U+FFFD. *)
Fixpoint replaceInvalid (fuel : nat) (s : string) {struct fuel} : string :=
  match fuel with
  | 0 => EmptyString
  | S fuel' =>
      match s with
      | EmptyString => EmptyString
      | String _ rest =>
          let (c, size) := utf8.DecodeRuneInString s in
          if (c =? utf8.RuneError)%N && (size =? 1)
          then utf8.EncodeRune utf8.RuneError +:+ replaceInvalid fuel' rest
          else take_bytes size s +:+ replaceInvalid fuel' (drop_bytes size s)
      end
  end.

Definition toValidUTF8 (s : string) : string :=
  replaceInvalid (String.length s) s.

(** Values made of [null], strings, arrays and objects. *)
Fixpoint textual (v : json.Value) : bool :=
  match v with
  | json.Null => true
  | json.Str _ => true
  | json.Array l => forallb textual l
  | json.Object l => forallb (fun kv => textual (snd kv)) l
  | _ => false
  end.

(** A value with its strings and keys made valid. *)
Fixpoint sanitizeValue (v : json.Value) : json.Value :=
  match v with
  | json.Str s => json.Str (toValidUTF8 s)
  | json.Array l => json.Array (sanitizeValue <$> l)
  | json.Object l =>
      json.Object ((fun kv => (toValidUTF8 (fst kv), sanitizeValue (snd kv)))
                     <$> l)
  | _ => v
  end.

Definition sanitizeMember (kv : string * json.Value) : string * json.Value :=
  (toValidUTF8 (fst kv), sanitizeValue (snd kv)).

(** A slice with a function applied to its elements; nil stays nil. *)
Definition mapSlice {A B} (f : A -> B) (s : slice A) : slice B :=
  match s with
  | None => None
  | Some l => Some (f <$> l)
  end.

Definition sanitizeTransition (t : Transition) : Transition :=
  {| FromStatus := toValidUTF8 (FromStatus t);
     ToStatus := toValidUTF8 (ToStatus t);
     Author := toValidUTF8 (Author t);
     AuthorEmail := toValidUTF8 (AuthorEmail t);
     TransitionTime := toValidUTF8 (TransitionTime t) |}.

Definition sanitizeTask (t : JiraTransitionResult) : JiraTransitionResult :=
  {| Key := toValidUTF8 (Key t);
     Link := toValidUTF8 (Link t);
     Status := toValidUTF8 (Status t);
     Description := toValidUTF8 (Description t);
     Type_ := toValidUTF8 (Type_ t);
     Project := toValidUTF8 (Project t);
     Created := toValidUTF8 (Created t);
     Updated := toValidUTF8 (Updated t);
     Assignee := toValidUTF8 <$> Assignee t;
     Reporter := toValidUTF8 (Reporter t);
     Priority := toValidUTF8 (Priority t);
     Transitions := mapSlice sanitizeTransition (Transitions t) |}.

(** The response as it is read back from its JSON form. *)
Definition sanitizeResponse (r : TransitionCheckResponse)
  : TransitionCheckResponse :=
  {| Tasks := mapSlice sanitizeTask (Tasks r) |}.

(** ** White space *)

(** Texts made of ASCII white space only. *)
Fixpoint blank (s : string) : bool :=
  match s with
  | EmptyString => true
  | String c rest => asciiSpace c && blank rest
  end.

(** What the git binary prints in a repository on the branch [main] whose
    latest commit, [f00d], has an empty subject. *)
Definition blankSubjectRepository (args : list string) : result string :=
  if bool_decide (args = ["branch"; "--show-current"]) then Ok ("main" +:+ nl)
  else if bool_decide (args = ["log"; "-1"; "--format=%H%n%s"])
  then Ok ("f00d" +:+ nl +:+ "" +:+ nl)
  else Err (errorString "exit status 128").
(** * Verification *)

(** ** Strings *)

Lemma append_assoc (a b c : string) : (a +:+ b) +:+ c = a +:+ (b +:+ c).
Proof.
  induction a as [|x a IH]; [reflexivity|].
  change (String x ((a +:+ b) +:+ c) = String x (a +:+ (b +:+ c))).
  by rewrite IH.
Qed.

Lemma append_nil_r (a : string) : a +:+ "" = a.
Proof.
  induction a as [|x a IH]; [reflexivity|].
  change (String x (a +:+ "") = String x a). by rewrite IH.
Qed.

Lemma length_append (a b : string) :
  String.length (a +:+ b) = String.length a + String.length b.
Proof.
  induction a as [|x a IH]; [reflexivity|].
  change (S (String.length (a +:+ b)) = S (String.length a + String.length b)).
  by rewrite IH.
Qed.

Lemma take_drop_bytes n s : take_bytes n s +:+ drop_bytes n s = s.
Proof.
  revert s. induction n as [|n IH]; intros [|c s]; try reflexivity.
  simpl. change (String c (take_bytes n s +:+ drop_bytes n s) = String c s).
  by rewrite IH.
Qed.

Lemma drop_take_append n s tail :
  n <= String.length s -> drop_bytes n (take_bytes n s +:+ tail) = tail.
Proof.
  revert s. induction n as [|n IH]; intros [|c s]; simpl; try lia.
  - reflexivity.
  - reflexivity.
  - intros H. change (drop_bytes n (take_bytes n s +:+ tail) = tail).
    apply IH. lia.
Qed.

Lemma length_drop_bytes n s :
  String.length (drop_bytes n s) = String.length s - n.
Proof.
  revert s. induction n as [|n IH]; intros [|c s]; simpl; try lia. apply IH.
Qed.

Lemma length_take_bytes n s :
  n <= String.length s -> String.length (take_bytes n s) = n.
Proof.
  revert s. induction n as [|n IH]; intros [|c s]; simpl; try lia.
  intros H. rewrite IH; lia.
Qed.

(** ** Identifier extraction *)

Section Extraction.

Implicit Types (m : gmap string bool) (l : list string).

Lemma addMatches_lookup m l k :
  addMatches m l !! k = if bool_decide (k ∈ l) then Some true else m !! k.
Proof.
  unfold addMatches. revert m. induction l as [|x l IH]; intros m; simpl.
  - reflexivity.
  - rewrite IH. destruct (decide (k ∈ l)) as [Hin|Hnin].
    + rewrite !bool_decide_eq_true_2; [reflexivity | set_solver | done].
    + rewrite (bool_decide_eq_false_2 _ Hnin).
      destruct (decide (k = x)) as [->|Hne].
      * rewrite lookup_insert_eq, bool_decide_eq_true_2; [done | set_solver].
      * rewrite lookup_insert_ne by done.
        rewrite bool_decide_eq_false_2; [done | set_solver].
Qed.

Lemma foldl_addMatches_lookup m (ls : list (list string)) k :
  foldl addMatches m ls !! k =
  if bool_decide (k ∈ mjoin ls) then Some true else m !! k.
Proof.
  revert m. induction ls as [|l ls IH]; intros m; simpl.
  - reflexivity.
  - rewrite IH, addMatches_lookup.
    destruct (decide (k ∈ mjoin ls)) as [Hin|Hnin].
    + rewrite !bool_decide_eq_true_2; [done | set_solver | done].
    + rewrite (bool_decide_eq_false_2 _ Hnin).
      destruct (decide (k ∈ l)).
      * rewrite !bool_decide_eq_true_2; [done | set_solver | done].
      * rewrite !bool_decide_eq_false_2; [done | set_solver | done].
Qed.

Lemma collectJIRAIDs_lookup msgs seed regex k :
  collectJIRAIDs msgs seed regex !! k =
  if bool_decide (k ∈ seenIDs msgs seed regex) then Some true else None.
Proof.
  unfold collectJIRAIDs, seenIDs.
  set (seedOK := negb (String.eqb seed "") && MatchString regex seed).
  set (ls := strings.SplitLines msgs).
  assert (Hfold : forall m0 : gmap string bool,
    foldl (fun m line => addMatches m (FindAllString regex line)) m0 ls =
    foldl addMatches m0 (FindAllString regex <$> ls)).
  { induction ls as [|x xs IH]; intros m0; simpl; [done | apply IH]. }
  rewrite Hfold, foldl_addMatches_lookup.
  destruct (decide (k ∈ mjoin (FindAllString regex <$> ls))) as [Hin|Hnin].
  - rewrite !bool_decide_eq_true_2; [done | set_solver | done].
  - rewrite (bool_decide_eq_false_2 _ Hnin). destruct seedOK.
    + destruct (decide (k = seed)) as [->|Hne].
      * rewrite lookup_insert_eq, bool_decide_eq_true_2; [done | set_solver].
      * rewrite lookup_insert_ne, lookup_empty by done.
        rewrite bool_decide_eq_false_2; [done | set_solver].
    + rewrite lookup_empty, bool_decide_eq_false_2; [done | set_solver].
Qed.

Lemma elem_of_extractUniqueJIRAIDs ord msgs seed regex x :
  x ∈ extractUniqueJIRAIDs ord msgs seed regex ↔
  x <> "" ∧ x ∈ seenIDs msgs seed regex.
Proof.
  unfold extractUniqueJIRAIDs. rewrite list_elem_of_filter.
  rewrite (range_perm ord). rewrite list_elem_of_fmap.
  split.
  - intros [Hne [[k v] [-> Hkv]]]. split; [done|].
    apply elem_of_map_to_list in Hkv. rewrite collectJIRAIDs_lookup in Hkv.
    simpl. destruct (decide (k ∈ seenIDs msgs seed regex)); [done|].
    by rewrite bool_decide_eq_false_2 in Hkv.
  - intros [Hne Hin]. split; [done|]. exists (x, true). split; [done|].
    apply elem_of_map_to_list. rewrite collectJIRAIDs_lookup.
    by rewrite bool_decide_eq_true_2.
Qed.

Lemma NoDup_extractUniqueJIRAIDs ord msgs seed regex :
  NoDup (extractUniqueJIRAIDs ord msgs seed regex).
Proof.
  unfold extractUniqueJIRAIDs. apply NoDup_filter.
  rewrite (range_perm ord). apply NoDup_fst_map_to_list.
Qed.

Lemma elem_of_firstOccurrences seen l x :
  x ∈ firstOccurrences seen l ↔ x ∈ l ∧ x ∉ seen.
Proof.
  revert seen. induction l as [|y l IH]; intros seen; simpl.
  - set_solver.
  - case_bool_decide as Hy.
    + rewrite IH. set_solver.
    + rewrite elem_of_cons, IH. destruct (decide (x = y)); set_solver.
Qed.

Lemma NoDup_firstOccurrences seen l : NoDup (firstOccurrences seen l).
Proof.
  revert seen. induction l as [|y l IH]; intros seen; simpl.
  - constructor.
  - case_bool_decide; [apply IH|].
    apply NoDup_cons. split; [|apply IH].
    rewrite elem_of_firstOccurrences. set_solver.
Qed.

End Extraction.

(** C2 (as amended).  The identifiers returned by [extractUniqueJIRAIDs]
    are pairwise distinct and are exactly the identifiers of the first-seen
    list, in some order: the result is a permutation of the first-seen
    list, whatever order the map is iterated in. *)
Theorem extractUniqueJIRAIDs_unique_unordered
    (ord : RangeOrder) (commitMessages currentJiraID : string) (regex : Regexp) :
  NoDup (extractUniqueJIRAIDs ord commitMessages currentJiraID regex) ∧
  extractUniqueJIRAIDs ord commitMessages currentJiraID regex
    ≡ₚ firstSeenOrder commitMessages currentJiraID regex.
Proof.
  split; [apply NoDup_extractUniqueJIRAIDs|].
  apply NoDup_Permutation.
  - apply NoDup_extractUniqueJIRAIDs.
  - unfold firstSeenOrder. apply NoDup_filter, NoDup_firstOccurrences.
  - intros x. rewrite elem_of_extractUniqueJIRAIDs.
    unfold firstSeenOrder.
    rewrite list_elem_of_filter, elem_of_firstOccurrences. set_solver.
Qed.

(** C2 as stated fails: on the messages [EV-1: first] and [EV-2: second],
    an iteration of the map that visits [EV-2] before [EV-1] returns them
    in that order, which is not the first-seen order. *)
Lemma extractUniqueJIRAIDs_not_first_seen :
  ~ (forall (ord : RangeOrder) (commitMessages currentJiraID : string)
            (regex : Regexp),
        extractUniqueJIRAIDs ord commitMessages currentJiraID regex =
        firstSeenOrder commitMessages currentJiraID regex).
Proof.
  intros H.
  specialize (H descendingOrder ("EV-1: first" +:+ nl +:+ "EV-2: second") ""
                (compiled defaultPattern)).
  vm_compute in H. discriminate H.
Qed.

(** C10.  A seed that the supplied pattern does not match leaves no trace:
    the identifier map, the extracted identifiers and the whole run of
    [ExtractJiraIDs] in range mode (result and diagnostics) are those of an
    empty seed. *)
Theorem seed_not_matching_pattern_is_dropped
    (regexp_Compile : string -> result Regexp) (ord : RangeOrder)
    (g : GitService) (startCommit jiraIDRegex currentJiraID : string)
    (regex : Regexp) (commitMessages : string) :
  regexp_Compile jiraIDRegex = Ok regex ->
  MatchString regex currentJiraID = false ->
  extractUniqueJIRAIDs ord commitMessages currentJiraID regex =
    extractUniqueJIRAIDs ord commitMessages "" regex ∧
  ExtractJiraIDs regexp_Compile ord g startCommit jiraIDRegex currentJiraID false =
    ExtractJiraIDs regexp_Compile ord g startCommit jiraIDRegex "" false.
Proof.
  intros Hcompile Hno.
  assert (Heq : forall msgs, extractUniqueJIRAIDs ord msgs currentJiraID regex =
                             extractUniqueJIRAIDs ord msgs "" regex).
  { intros msgs. unfold extractUniqueJIRAIDs, collectJIRAIDs.
    rewrite Hno, andb_false_r. reflexivity. }
  split; [apply Heq|].
  unfold ExtractJiraIDs. rewrite Hcompile.
  destruct (ValidateCommit g startCommit); [reflexivity|].
  destruct (execCommand g _); [|reflexivity].
  rewrite Heq. reflexivity.
Qed.

Lemma seed_not_matching_pattern_is_dropped_witness :
  extractUniqueJIRAIDs ascendingOrder "ABC-1: earlier change" "EV-9"
    (compiled abcPattern) = ["ABC-1"] ∧
  ExtractJiraIDs sampleCompile ascendingOrder sampleGit "abc123" "ABC-[0-9]+"
    "EV-9" false =
  ExtractJiraIDs sampleCompile ascendingOrder sampleGit "abc123" "ABC-[0-9]+"
    "" false.
Proof.
  split; [vm_compute; reflexivity|].
  apply (seed_not_matching_pattern_is_dropped sampleCompile ascendingOrder
           sampleGit "abc123" "ABC-[0-9]+" "EV-9" (compiled abcPattern)
           "ABC-1: earlier change").
  - reflexivity.
  - vm_compute; reflexivity.
Defined.

(** The value of [ExtractJiraIDs] once the commit is validated, the log is
    read and the pattern is compiled. *)
Lemma ExtractJiraIDs_Ok regexp_Compile ord g startCommit jiraIDRegex seed
    singleCommit w ids :
  (ExtractJiraIDs regexp_Compile ord g startCommit jiraIDRegex seed
     singleCommit w).1 = Ok ids ->
  exists output regex,
    (if singleCommit
     then execCommand g ["log"; "-1"; "--pretty=format:%s"; startCommit]
     else execCommand g ["log"; "--pretty=format:%s"; startCommit +:+ "..HEAD"])
      = Ok output ∧
    regexp_Compile jiraIDRegex = Ok regex ∧
    ids = extractUniqueJIRAIDs ord output
            (if singleCommit then "" else seed) regex.
Proof.
  unfold ExtractJiraIDs.
  destruct (ValidateCommit g startCommit); [discriminate|].
  destruct (if singleCommit then _ else _) as [output|]; [|discriminate].
  destruct (regexp_Compile jiraIDRegex) as [regex|]; [|discriminate].
  intros H. exists output, regex. split; [reflexivity|]. split; [reflexivity|].
  unfold bind, ret in H.
  destruct (if length _ =? 0 then _ else _) as [u w'] in H.
  simpl in H. by injection H.
Qed.

(** C7 (as amended).  In single-commit mode the seed plays no part: the run
    of [ExtractJiraIDs] is the run with an empty seed, and the seed is in
    the result only if it is one of the pattern matches in the message of
    the starting commit.  In range mode a non-empty seed that the supplied
    pattern matches is in the result. *)
Theorem ExtractJiraIDs_seed_by_mode
    (regexp_Compile : string -> result Regexp) (ord : RangeOrder)
    (g : GitService) (startCommit jiraIDRegex currentJiraID : string) :
  ExtractJiraIDs regexp_Compile ord g startCommit jiraIDRegex currentJiraID true =
    ExtractJiraIDs regexp_Compile ord g startCommit jiraIDRegex "" true ∧
  (forall w ids,
      (ExtractJiraIDs regexp_Compile ord g startCommit jiraIDRegex
         currentJiraID true w).1 = Ok ids ->
      currentJiraID ∈ ids ->
      exists output regex line,
        execCommand g ["log"; "-1"; "--pretty=format:%s"; startCommit] = Ok output ∧
        regexp_Compile jiraIDRegex = Ok regex ∧
        line ∈ strings.SplitLines output ∧
        currentJiraID ∈ FindAllString regex line) ∧
  (forall w ids regex,
      (ExtractJiraIDs regexp_Compile ord g startCommit jiraIDRegex
         currentJiraID false w).1 = Ok ids ->
      regexp_Compile jiraIDRegex = Ok regex ->
      currentJiraID <> "" ->
      MatchString regex currentJiraID = true ->
      currentJiraID ∈ ids).
Proof.
  split; [reflexivity|]. split.
  - intros w ids Hrun Hin.
    apply ExtractJiraIDs_Ok in Hrun as (output & regex & Hlog & Hre & ->).
    apply elem_of_extractUniqueJIRAIDs in Hin as [_ Hin].
    unfold seenIDs in Hin. simpl in Hin.
    apply list_elem_of_join in Hin as (l & Hx & Hl).
    apply list_elem_of_fmap in Hl as (line & -> & Hline).
    by exists output, regex, line.
  - intros w ids regex Hrun Hre Hne Hmatch.
    apply ExtractJiraIDs_Ok in Hrun as (output & regex' & Hlog & Hre' & ->).
    rewrite Hre in Hre'. injection Hre' as <-.
    apply elem_of_extractUniqueJIRAIDs. split; [done|].
    unfold seenIDs. rewrite Hmatch.
    apply String.eqb_neq in Hne. rewrite Hne. simpl. set_solver.
Qed.

(** C7 as stated fails in its last part: in range mode, with the latest
    commit [EV-9: latest change] and the pattern [ABC-[0-9]+], the seed
    [EV-9] is not in the result. *)
Lemma range_mode_seed_not_always_included :
  exists ids,
    (ExtractJiraIDs sampleCompile ascendingOrder sampleGit "abc123"
       "ABC-[0-9]+" "EV-9" false (initialWorld ∅)).1 = Ok ids ∧
    GetBranchInfo sampleCompile sampleGit = Ok ("main", "f00d", "EV-9") ∧
    "EV-9" ∉ ids.
Proof.
  exists ["ABC-1"]. split; [vm_compute; reflexivity|].
  split; [vm_compute; reflexivity|].
  intros Hin. apply list_elem_of_singleton in Hin. discriminate Hin.
Qed.

(** ** The pattern matcher *)

Section Matcher.

Local Ltac some := first [done | by eexists].
Local Ltac case_head :=
  match goal with
  | |- is_Some (match ?b with Some _ => _ | None => _ end) => destruct b
  end.

Implicit Types (r : syntax.Regexp) (s m rest : string)
               (k : string -> option string).

(** A continuation that succeeds wherever another one does. *)
Definition weaker k1 k2 : Prop := forall x, is_Some (k1 x) -> is_Some (k2 x).

Lemma starLoop_mono step k1 k2 :
  (forall s c1 c2, weaker c1 c2 -> is_Some (step s c1) -> is_Some (step s c2)) ->
  weaker k1 k2 ->
  forall n s, is_Some (syntax.starLoop step k1 n s) -> is_Some (syntax.starLoop step k2 n s).
Proof.
  intros Hstep Hk. induction n as [|n IH]; intros s; simpl.
  - apply Hk.
  - destruct (step s (fun s' => if _ <? _ then syntax.starLoop step k1 n s' else None))
      as [x|] eqn:E1.
    + intros _.
      assert (Hs : is_Some (step s (fun s' =>
                 if String.length s' <? String.length s
                 then syntax.starLoop step k2 n s' else None))).
      { eapply Hstep; [|by rewrite E1].
        intros y. destruct (_ <? _); [apply IH | done]. }
      destruct Hs as [y ->]. some.
    + intros Hks. apply Hk in Hks. case_head; some.
Qed.

Lemma backtrack_mono r :
  forall s k1 k2, weaker k1 k2 ->
    is_Some (syntax.backtrack r s k1) -> is_Some (syntax.backtrack r s k2).
Proof.
  induction r as [| |ranges|r1 IH1 r2 IH2|r1 IH1 r2 IH2|r1 IH1];
    intros s k1 k2 Hk; simpl.
  - done.
  - apply Hk.
  - destruct s as [|c s]; [done|]. destruct (syntax.in_class c ranges); [apply Hk|done].
  - apply IH1. intros x. by apply IH2.
  - destruct (syntax.backtrack r1 s k1) as [x|] eqn:E1.
    + intros _. destruct (IH1 s k1 k2 Hk) as [y ->]; [by rewrite E1 | done].
    + intros H2. destruct (syntax.backtrack r1 s k2); [done|]. by apply (IH2 s k1).
  - by apply starLoop_mono.
Qed.

Lemma starLoop_fuel r k n n' s :
  n <= n' ->
  is_Some (syntax.starLoop (syntax.backtrack r) k n s) ->
  is_Some (syntax.starLoop (syntax.backtrack r) k n' s).
Proof.
  revert n' s. induction n as [|n IH]; intros n' s Hle.
  - simpl. intros Hk. destruct n' as [|n']; [done|]. simpl.
    case_head; some.
  - destruct n' as [|n']; [lia|]. simpl.
    destruct (syntax.backtrack r s (fun s' => if _ <? _
                then syntax.starLoop (syntax.backtrack r) k n s' else None)) as [x|] eqn:E1.
    + intros _.
      assert (Hs : is_Some (syntax.backtrack r s (fun s' =>
                 if String.length s' <? String.length s
                 then syntax.starLoop (syntax.backtrack r) k n' s' else None))).
      { eapply backtrack_mono; [|by rewrite E1].
        intros y. destruct (_ <? _); [apply IH; lia | done]. }
      destruct Hs as [y ->]. some.
    + intros Hks. case_head; some.
Qed.

(** The matcher finds a match wherever the pattern has one. *)
Lemma backtrack_complete r m :
  syntax.matches r m ->
  forall rest k, is_Some (k rest) -> is_Some (syntax.backtrack r (m +:+ rest) k).
Proof.
  induction 1 as [|c ranges Hc|r1 r2 s1 s2 _ IH1 _ IH2|r1 r2 s _ IH
                  |r1 r2 s _ IH|r|r s1 s2 _ IH1 _ IH2];
    intros rest k Hk.
  - exact Hk.
  - change (String c "" +:+ rest) with (String c rest). simpl. by rewrite Hc.
  - rewrite append_assoc. simpl. apply IH1. by apply IH2.
  - simpl. destruct (IH rest k Hk) as [x ->]. done.
  - simpl. destruct (syntax.backtrack r1 (s +:+ rest) k); [done|]. by apply IH.
  - change ("" +:+ rest) with rest. simpl.
    destruct (String.length rest); simpl; [done|].
    case_head; some.
  - destruct s1 as [|c s1]; [by apply IH2|].
    rewrite append_assoc. specialize (IH2 rest k Hk). simpl in IH2.
    change (syntax.backtrack (syntax.Star r) (String c s1 +:+ s2 +:+ rest) k)
      with (syntax.starLoop (syntax.backtrack r) k
              (String.length (String c s1 +:+ s2 +:+ rest))
              (String c s1 +:+ s2 +:+ rest)).
    rewrite length_append. simpl Nat.add. simpl syntax.starLoop.
    match goal with
    | |- is_Some (match ?b with Some x => Some x | None => _ end) =>
        assert (Hs : is_Some b); [|destruct Hs as [y ->]; some]
    end.
    apply IH1. rewrite !length_append. simpl String.length.
    assert (Hlt : (String.length s2 + String.length rest <?
                   S (String.length s1 + (String.length s2 + String.length rest)))
                  = true) by (apply Nat.ltb_lt; lia).
    rewrite Hlt.
    eapply starLoop_fuel; [|exact IH2]. rewrite length_append. lia.
Qed.

Lemma starLoop_sound r k :
  (forall s c x, syntax.backtrack r s c = Some x ->
     exists m rest, s = m +:+ rest ∧ syntax.matches r m ∧ c rest = Some x) ->
  forall n s x, syntax.starLoop (syntax.backtrack r) k n s = Some x ->
    exists m rest, s = m +:+ rest ∧ syntax.matches (syntax.Star r) m ∧ k rest = Some x.
Proof.
  intros Hr. induction n as [|n IH]; intros s x; simpl.
  - intros Hk. exists "", s. repeat split; [constructor | done].
  - destruct (syntax.backtrack r s _) as [y|] eqn:E1.
    + intros [= ->]. apply Hr in E1 as (m1 & rest1 & -> & Hm1 & Hc).
      destruct (_ <? _); [|discriminate].
      apply IH in Hc as (m2 & rest & -> & Hm2 & Hk).
      exists (m1 +:+ m2), rest. rewrite append_assoc.
      repeat split; [by constructor | done].
    + intros Hk. exists "", s. repeat split; [constructor | done].
Qed.

(** Whatever the matcher accepts is a match of the pattern. *)
Lemma backtrack_sound r :
  forall s k x, syntax.backtrack r s k = Some x ->
    exists m rest, s = m +:+ rest ∧ syntax.matches r m ∧ k rest = Some x.
Proof.
  induction r as [| |ranges|r1 IH1 r2 IH2|r1 IH1 r2 IH2|r1 IH1];
    intros s k x; simpl.
  - discriminate.
  - intros Hk. exists "", s. repeat split; [constructor | done].
  - destruct s as [|c s]; [discriminate|].
    destruct (syntax.in_class c ranges) eqn:Hc; [|discriminate].
    intros Hk. exists (String c ""), s. repeat split; [by constructor | done].
  - intros H. apply IH1 in H as (m1 & rest1 & -> & Hm1 & H).
    apply IH2 in H as (m2 & rest & -> & Hm2 & Hk).
    exists (m1 +:+ m2), rest. rewrite append_assoc.
    repeat split; [by constructor | done].
  - destruct (syntax.backtrack r1 s k) as [y|] eqn:E1.
    + intros [= ->]. apply IH1 in E1 as (m & rest & -> & Hm & Hk).
      exists m, rest. repeat split; [by apply syntax.matches_alt_l | done].
    + intros H. apply IH2 in H as (m & rest & -> & Hm & Hk).
      exists m, rest. repeat split; [by apply syntax.matches_alt_r | done].
  - by apply starLoop_sound.
Qed.

Lemma search_sound r s n rest :
  syntax.search r s = Some (n, rest) ->
  exists pre m, s = pre +:+ m +:+ rest ∧ syntax.matches r m.
Proof.
  revert n rest. induction s as [|c s IH]; intros n rest; simpl;
    unfold syntax.match_here.
  - destruct (syntax.backtrack r "" Some) as [y|] eqn:E; [|discriminate].
    intros [= <- <-]. apply backtrack_sound in E as (m & rest' & -> & Hm & [= ->]).
    by exists "", m.
  - destruct (syntax.backtrack r (String c s) Some) as [y|] eqn:E.
    + intros [= <- <-].
      apply backtrack_sound in E as (m & rest' & Hs & Hm & [= ->]).
      exists "", m. by rewrite Hs.
    + destruct (syntax.search r s) as [[n' rest']|] eqn:Es; [|discriminate].
      intros [= <- <-]. destruct (IH _ _ eq_refl) as (pre & m & -> & Hm).
      by exists (String c pre), m.
Qed.

Lemma search_complete r pre m post :
  syntax.matches r m -> is_Some (syntax.search r (pre +:+ m +:+ post)).
Proof.
  intros Hm.
  assert (Hhere : is_Some (syntax.match_here r (m +:+ post)))
    by (by apply backtrack_complete).
  induction pre as [|c pre IH].
  - change ("" +:+ m +:+ post) with (m +:+ post).
    destruct Hhere as [y Hy].
    destruct (m +:+ post); simpl; rewrite Hy; some.
  - change (String c pre +:+ m +:+ post) with (String c (pre +:+ m +:+ post)).
    simpl. case_head; [some|].
    destruct IH as [[n rest] ->]. some.
Qed.

(** [MatchString] is an unanchored test: it holds exactly when some
    substring of the text is a match of the pattern. *)
Lemma MatchString_substring r s :
  syntax.MatchString r s = true ↔
  exists pre m post, s = pre +:+ m +:+ post ∧ syntax.matches r m.
Proof.
  unfold syntax.MatchString. split.
  - destruct (syntax.search r s) as [[n rest]|] eqn:E; [|discriminate].
    intros _. apply search_sound in E as (pre & m & -> & Hm).
    by exists pre, m, rest.
  - intros (pre & m & post & -> & Hm).
    by destruct (search_complete r pre m post Hm) as [y ->].
Qed.

End Matcher.

(** ** The tracker client *)

Section ClientProofs.

Variable Sprint : jira.any -> string.

(** What [createErrorResult] returns does not depend on what has been
    written so far. *)
Lemma createErrorResult_value jc jiraID err w :
  (createErrorResult jc jiraID err w).1 =
  {| Key := jiraID; Link := ""; Status := ErrorStatus;
     Description := match err with
                    | Some e => "Error: " +:+ Error e
                    | None => "Error: Could not retrieve issue"
                    end;
     Type_ := ErrorType; Project := ""; Created := ""; Updated := "";
     Assignee := None; Reporter := ""; Priority := "";
     Transitions := Some [] |}.
Proof. destruct err; reflexivity. Qed.

Lemma fetchSingleJiraDetail_value jc jiraID w w' :
  (fetchSingleJiraDetail Sprint jc jiraID w).1 =
  (fetchSingleJiraDetail Sprint jc jiraID w').1.
Proof.
  unfold fetchSingleJiraDetail.
  destruct (jira.IssueGet (client jc) jiraID) as [[issue|] [e|]];
    rewrite ?createErrorResult_value; try reflexivity.
  destruct (jira.Fields issue); [reflexivity|].
  by rewrite !createErrorResult_value.
Qed.

Lemma fetchSingleJiraDetail_failed jc jiraID w :
  fetchFailed jc jiraID ->
  (fetchSingleJiraDetail Sprint jc jiraID w).1 =
  (createErrorResult jc jiraID (jira.IssueGet (client jc) jiraID).2 w).1.
Proof.
  unfold fetchFailed, fetchSingleJiraDetail.
  destruct (jira.IssueGet (client jc) jiraID) as [[issue|] [e|]];
    try reflexivity.
  intros ->. reflexivity.
Qed.

Lemma fetchLoop_tasks jc jiraIDs tasks w :
  (fetchLoop Sprint jc jiraIDs tasks w).1 =
  tasks ++ ((fun jiraID =>
               (fetchSingleJiraDetail Sprint jc jiraID w).1) <$> jiraIDs).
Proof.
  revert tasks w. induction jiraIDs as [|jiraID rest IH]; intros tasks w.
  - simpl. by rewrite app_nil_r.
  - simpl. unfold bind.
    rewrite (surjective_pairing (fetchSingleJiraDetail Sprint jc jiraID w)).
    rewrite IH, <- app_assoc. simpl. f_equal. f_equal.
    apply list_fmap_ext. intros _ x _.
    apply fetchSingleJiraDetail_value.
Qed.

(** C1.  [FetchJiraDetails] returns one task per identifier, in the
    order of the identifiers; the task at each position is the outcome of
    fetching its own identifier alone, whatever the other identifiers
    are, and a failed fetch gives an [Error] task for that identifier. *)
Theorem FetchJiraDetails_one_task_per_identifier
    (jc : JiraClient) (jiraIDs : list string) (w : World) :
  let response := (FetchJiraDetails Sprint jc jiraIDs w).1 in
  len (Tasks response) = length jiraIDs ∧
  (forall i jiraID,
      jiraIDs !! i = Some jiraID ->
      exists task,
        elems (Tasks response) !! i = Some task ∧
        (forall w', task = (fetchSingleJiraDetail Sprint jc jiraID w').1) ∧
        (fetchFailed jc jiraID ->
         Status task = ErrorStatus ∧ Key task = jiraID ∧
         strings.HasPrefix (Description task) "Error:" = true)).
Proof.
  assert (Htasks : Tasks (FetchJiraDetails Sprint jc jiraIDs w).1 =
    Some ((fun jiraID => (fetchSingleJiraDetail Sprint jc jiraID w).1)
            <$> jiraIDs)).
  { unfold FetchJiraDetails, bind.
    rewrite (surjective_pairing (fetchLoop Sprint jc jiraIDs [] w)).
    simpl. by rewrite fetchLoop_tasks. }
  simpl. rewrite Htasks. split.
  - unfold len. simpl. by rewrite length_fmap.
  - intros i jiraID Hi.
    exists (fetchSingleJiraDetail Sprint jc jiraID w).1. split.
    + simpl. by rewrite list_lookup_fmap, Hi.
    + split; [intros w'; apply fetchSingleJiraDetail_value|].
      intros Hfail. rewrite (fetchSingleJiraDetail_failed _ _ _ Hfail).
      rewrite createErrorResult_value. simpl.
      split; [reflexivity|]. split; [reflexivity|].
      by destruct (jira.IssueGet (client jc) jiraID).2.
Qed.

End ClientProofs.

(** C5 (as amended).  Every task of the response that has the status
    [Error], other than one for an issue that was fetched and whose status
    in the tracker is itself named [Error], has an empty link, empty
    project, created and updated texts, no assignee, an empty (non-nil)
    sequence of transitions and a description that begins with [Error:];
    when the requested identifier is not empty, its key is that identifier
    and so is not empty. *)
Theorem error_tasks_record_failed_fetches
    (Sprint : jira.any -> string) (jc : JiraClient) (jiraIDs : list string)
    (w : World) (i : nat) (jiraID : string) (task : JiraTransitionResult) :
  jiraIDs !! i = Some jiraID ->
  elems (Tasks (FetchJiraDetails Sprint jc jiraIDs w).1) !! i = Some task ->
  Status task = "Error" ->
  reportedStatus jc jiraID <> Some "Error" ->
  Link task = "" ∧
  Project task = "" ∧ Created task = "" ∧ Updated task = "" ∧
  Assignee task = None ∧
  Transitions task = Some [] ∧
  strings.HasPrefix (Description task) "Error:" = true ∧
  (jiraID <> "" -> Key task = jiraID ∧ Key task <> "").
Proof.
  intros Hi Htask Hstatus Hreported.
  assert (Hfetch : task = (fetchSingleJiraDetail Sprint jc jiraID w).1).
  { revert Htask. unfold FetchJiraDetails, bind.
    rewrite (surjective_pairing (fetchLoop Sprint jc jiraIDs [] w)).
    simpl. rewrite fetchLoop_tasks. simpl.
    rewrite list_lookup_fmap, Hi. by intros [= <-]. }
  assert (Herror : exists err,
             task = (createErrorResult jc jiraID err w).1).
  { revert Hreported Hstatus. rewrite Hfetch.
    unfold reportedStatus, fetchSingleJiraDetail.
    destruct (jira.IssueGet (client jc) jiraID) as [[issue|] [e|]];
      try (intros; by eexists).
    destruct (jira.Fields issue) as [fields|]; [|intros; by eexists].
    simpl. intros Hne Heq. by rewrite Heq in Hne. }
  destruct Herror as [err ->]. rewrite createErrorResult_value. simpl.
  repeat (split; [reflexivity|]).
  split; [by destruct err|]. done.
Qed.

Lemma error_tasks_record_failed_fetches_witness :
  let task :=
    {| Key := "EV-404"; Link := ""; Status := "Error";
       Description := "Error: Issue does not exist"; Type_ := "Error";
       Project := ""; Created := ""; Updated := ""; Assignee := None;
       Reporter := ""; Priority := ""; Transitions := Some [] |} in
  Link task = "" ∧
  Project task = "" ∧ Created task = "" ∧ Updated task = "" ∧
  Assignee task = None ∧
  Transitions task = Some [] ∧
  strings.HasPrefix (Description task) "Error:" = true ∧
  ("EV-404" <> "" -> Key task = "EV-404" ∧ Key task <> "").
Proof.
  apply (error_tasks_record_failed_fetches (fun _ => "")
           {| client := emptyTracker; baseURL := "https://example.atlassian.net" |}
           ["EV-1"; "EV-404"] (initialWorld ∅) 1 "EV-404").
  - reflexivity.
  - reflexivity.
  - reflexivity.
  - discriminate.
Defined.

(** C5 as stated fails, in two ways.  A tracker whose workflow has a status
    named [Error] gives, for an issue that was fetched, a task with the
    status [Error] that has a link, a project, an assignee and the
    description of the issue.  And the key of the task of a failed fetch is
    the requested identifier even when that is the empty string: run with
    the pattern [[A-Z]*] and one empty argument, the tool processes the
    argument as an identifier and saves an [Error] task whose key is
    empty. *)
Lemma error_status_without_the_invariant :
  (let run := main errorWorkflowSystem noFlags ["EV-7"] (initialWorld ∅) in
   exists task,
     run.1 = 0 ∧
     files run.2 !! DefaultOutputFile =
       Some (json.MarshalIndent {| Tasks := Some [task] |}) ∧
     Status task = "Error" ∧
     Link task = "https://example.atlassian.net/browse/EV-7" ∧
     Project task = "EV" ∧ Assignee task = Some "Jane" ∧
     Description task = "Deployment failed") ∧
  (let flags :=
     {| FlagJIRAIDRegex := "[A-Z]*"; FlagOutputFile := "";
        FlagExtractOnly := false; FlagExtractFromGit := false;
        CommitRange := false; Help := false; HelpLong := false;
        GenerateMarkdown := false; MarkdownOutput := "" |} in
   let run := main (sampleSystem noRepository) flags [""] (initialWorld ∅) in
   exists task,
     run.1 = 0 ∧
     files run.2 !! DefaultOutputFile =
       Some (json.MarshalIndent {| Tasks := Some [task] |}) ∧
     Status task = "Error" ∧ Key task = "").
Proof.
  split.
  - exists {| Key := "EV-7";
              Link := "https://example.atlassian.net/browse/EV-7";
              Status := "Error"; Description := "Deployment failed";
              Type_ := "Task"; Project := "EV"; Created := ""; Updated := "";
              Assignee := Some "Jane"; Reporter := ""; Priority := "";
              Transitions := None |}.
    split; [vm_compute; reflexivity|].
    split; [vm_compute; reflexivity|].
    repeat split.
  - exists {| Key := ""; Link := ""; Status := "Error";
              Description := "Error: Issue does not exist"; Type_ := "Error";
              Project := ""; Created := ""; Updated := ""; Assignee := None;
              Reporter := ""; Priority := ""; Transitions := Some [] |}.
    split; [vm_compute; reflexivity|].
    split; [vm_compute; reflexivity|].
    split; reflexivity.
Qed.

(** ** Mode selection and exit status *)

(** C4 (as amended).  When no help, markdown, legacy or direct-identifier
    mode applies and the repository check fails, [determineExecutionMode]
    returns the error of the check and [main] treats it like any other
    error: the diagnostic goes to standard error, nothing else is written,
    and the exit status is 1. *)
Theorem not_a_repository_exits_1
    (sys : System) (flags : FlagConfig) (args : list string)
    (config : AppConfig) (w : World) :
  Help flags || HelpLong flags = false ->
  LoadConfig sys flags args = Ok config ->
  GenerateMarkdown flags = false ->
  FlagExtractFromGit flags = false ->
  args <> [] ->
  isDirectMode sys flags args config = false ->
  (exists e, defaultGitCommand sys ["rev-parse"; "--git-dir"] = Err e) ->
  main sys flags args w =
    (1, {| stdout := stdout w;
           stderr := stderr w +:+
             ("Error: git operation 'rev-parse --git-dir' failed: "
              +:+ "not in a git repository" +:+ nl);
           files := files w |}).
Proof.
  intros Hhelp Hconfig Hmd Hlegacy Hargs Hdirect [e He].
  unfold main. rewrite Hhelp, Hconfig.
  unfold bind, determineExecutionMode. rewrite Hmd, Hlegacy.
  destruct args as [|arg0 rest]; [done|].
  rewrite Hdirect.
  unfold CheckRepository, git, NewGitService. simpl. rewrite He.
  reflexivity.
Qed.

Lemma not_a_repository_exits_1_witness :
  main (sampleSystem noRepository) noFlags ["abc123"] (initialWorld ∅) =
    (1, {| stdout := "";
           stderr := "Error: git operation 'rev-parse --git-dir' failed: "
                     +:+ "not in a git repository" +:+ nl;
           files := ∅ |}).
Proof.
  apply (not_a_repository_exits_1 (sampleSystem noRepository) noFlags
           ["abc123"]
           {| JIRAToken := "token"; JIRAURL := "https://example.atlassian.net";
              JIRAUsername := "user@example.com";
              JIRAIDRegex := DefaultJIRAIDRegex;
              OutputFile := DefaultOutputFile; ExtractOnly := false;
              ExtractFromGit := false; SingleCommit := true;
              StartCommit := ""; JIRAIDs := [] |}
           (initialWorld ∅)).
  - reflexivity.
  - reflexivity.
  - reflexivity.
  - reflexivity.
  - discriminate.
  - vm_compute; reflexivity.
  - eexists. reflexivity.
Defined.

(** C4 as stated fails: started outside a repository with a commit as its
    argument, the tool exits with status 1, not 0. *)
Lemma not_a_repository_is_not_graceful :
  let sys := sampleSystem noRepository in
  GenerateMarkdown noFlags = false ∧
  FlagExtractFromGit noFlags = false ∧
  (exists config, LoadConfig sys noFlags ["abc123"] = Ok config ∧
                  isDirectMode sys noFlags ["abc123"] config = false) ∧
  CheckRepository (git sys) =
    Some (GitError "rev-parse --git-dir" (errorString "not in a git repository")) ∧
  (main sys noFlags ["abc123"] (initialWorld ∅)).1 = 1.
Proof.
  split; [reflexivity|]. split; [reflexivity|]. split.
  - eexists. split; [reflexivity|]. vm_compute. reflexivity.
  - split; reflexivity.
Qed.

Lemma allArgsMatchPattern_Forall args regex :
  allArgsMatchPattern args regex = true ↔
  Forall (fun arg => MatchString regex arg = true) args.
Proof.
  induction args as [|arg rest IH]; simpl.
  - split; [constructor | done].
  - rewrite Forall_cons. destruct (MatchString regex arg); simpl.
    + rewrite IH. tauto.
    + split; [discriminate | intros [? _]; done].
Qed.



(** ** Date formatting *)

Lemma isDigit_digitChars c : time.isDigit c = true -> c ∈ digitChars.
Proof.
  destruct c as [[] [] [] [] [] [] [] []]; vm_compute; intros H;
    try discriminate H; set_solver.
Qed.

Lemma appendInt_two_digits c0 c1 :
  time.isDigit c0 = true -> time.isDigit c1 = true ->
  time.appendInt (time.digitVal c0 * 10 + time.digitVal c1) 2 =
  String c0 (String c1 EmptyString).
Proof.
  intros H0 H1.
  assert (Hall : forallb (fun a => forallb (fun b =>
            String.eqb (time.appendInt (time.digitVal a * 10 + time.digitVal b) 2)
                       (String a (String b EmptyString))) digitChars) digitChars = true)
    by (vm_compute; reflexivity).
  rewrite forallb_forall in Hall.
  apply isDigit_digitChars, list_elem_of_In in H0.
  apply isDigit_digitChars, list_elem_of_In in H1.
  specialize (Hall _ H0). rewrite forallb_forall in Hall.
  specialize (Hall _ H1). by apply String.eqb_eq in Hall.
Qed.

Lemma appendInt_one_digit c0 :
  time.isDigit c0 = true ->
  time.appendInt (time.digitVal c0) 2 = String "0"%char (String c0 EmptyString).
Proof.
  intros H0. apply isDigit_digitChars in H0.
  repeat (apply elem_of_cons in H0 as [->|H0]; [vm_compute; reflexivity|]).
  by apply elem_of_nil in H0.
Qed.

Lemma appendInt_four_digits c0 c1 c2 c3 :
  time.isDigit c0 = true -> time.isDigit c1 = true ->
  time.isDigit c2 = true -> time.isDigit c3 = true ->
  time.appendInt
    (((time.digitVal c0 * 10 + time.digitVal c1) * 10 + time.digitVal c2) * 10
     + time.digitVal c3) 4 =
  String c0 (String c1 (String c2 (String c3 EmptyString))).
Proof.
  intros H0 H1 H2 H3.
  assert (Hall : forallb (fun a => forallb (fun b => forallb (fun c =>
            forallb (fun d =>
              String.eqb
                (time.appendInt
                   (((time.digitVal a * 10 + time.digitVal b) * 10
                     + time.digitVal c) * 10 + time.digitVal d) 4)
                (String a (String b (String c (String d EmptyString)))))
            digitChars) digitChars) digitChars) digitChars = true)
    by (vm_compute; reflexivity).
  rewrite forallb_forall in Hall.
  apply isDigit_digitChars, list_elem_of_In in H0.
  apply isDigit_digitChars, list_elem_of_In in H1.
  apply isDigit_digitChars, list_elem_of_In in H2.
  apply isDigit_digitChars, list_elem_of_In in H3.
  specialize (Hall _ H0). rewrite forallb_forall in Hall.
  specialize (Hall _ H1). rewrite forallb_forall in Hall.
  specialize (Hall _ H2). rewrite forallb_forall in Hall.
  specialize (Hall _ H3). by apply String.eqb_eq in Hall.
Qed.

Lemma skip_inv value prefix rest :
  time.skip value prefix = Some rest -> value = String prefix rest.
Proof.
  destruct value as [|c v]; simpl; [discriminate|].
  destruct (Ascii.eqb c prefix) eqn:E; [|discriminate].
  apply Ascii.eqb_eq in E as ->. by intros [= ->].
Qed.

Lemma getnum_fixed_inv s n rest :
  time.getnum s true = Some (n, rest) ->
  exists c0 c1, s = String c0 (String c1 rest) ∧
    time.isDigit c0 = true ∧ time.isDigit c1 = true ∧
    n = time.digitVal c0 * 10 + time.digitVal c1.
Proof.
  destruct s as [|c0 [|c1 s]]; simpl; try discriminate.
  - destruct (time.isDigit c0); discriminate.
  - destruct (time.isDigit c0) eqn:E0; [|discriminate].
    destruct (time.isDigit c1) eqn:E1; [|discriminate].
    intros [= <- <-]. by exists c0, c1.
Qed.

Lemma getnum_free_inv s n rest :
  time.getnum s false = Some (n, rest) ->
  (exists c0 c1, s = String c0 (String c1 rest) ∧
     time.isDigit c0 = true ∧ time.isDigit c1 = true ∧
     n = time.digitVal c0 * 10 + time.digitVal c1) ∨
  (exists c0, s = String c0 rest ∧ time.isDigit c0 = true ∧
     n = time.digitVal c0 ∧
     match rest with
     | String c1 _ => time.isDigit c1 = false
     | EmptyString => True
     end).
Proof.
  destruct s as [|c0 [|c1 s]]; simpl; try discriminate.
  - destruct (time.isDigit c0) eqn:E0; [|discriminate].
    intros [= <- <-]. right. by exists c0.
  - destruct (time.isDigit c0) eqn:E0; [|discriminate].
    destruct (time.isDigit c1) eqn:E1.
    + intros [= <- <-]. left. by exists c0, c1.
    + intros [= <- <-]. right. by exists c0.
Qed.

Lemma allDigits_acc s acc n :
  time.allDigits s acc = Some n ->
  match s with
  | String c rest => time.isDigit c = true ∧
      time.allDigits rest (acc * 10 + time.digitVal c) = Some n
  | EmptyString => n = acc
  end.
Proof.
  destruct s as [|c rest]; simpl.
  - by intros [= ->].
  - destruct (time.isDigit c); [done|discriminate].
Qed.

Lemma isDigit_not_sign c :
  time.isDigit c = true ->
  Ascii.eqb c "-"%char = false ∧ Ascii.eqb c "+"%char = false.
Proof.
  intros H. apply isDigit_digitChars in H.
  repeat (apply elem_of_cons in H as [->|H]; [by split|]).
  by apply elem_of_nil in H.
Qed.

Lemma getLongYear_inv value y rest :
  time.getLongYear value = Some (y, rest) ->
  exists c0 c1 c2 c3,
    value = String c0 (String c1 (String c2 (String c3 rest))) ∧
    time.isDigit c0 = true ∧ time.isDigit c1 = true ∧
    time.isDigit c2 = true ∧ time.isDigit c3 = true ∧
    y = ((time.digitVal c0 * 10 + time.digitVal c1) * 10 + time.digitVal c2) * 10
        + time.digitVal c3.
Proof.
  unfold time.getLongYear.
  destruct value as [|c0 [|c1 [|c2 [|c3 v]]]]; intros H;
    try (simpl in H; discriminate H).
  change (4 <=? String.length (String c0 (String c1 (String c2 (String c3 v)))))
    with true in H.
  destruct (time.isDigit c0) eqn:E0; [|discriminate].
  simpl andb in H. cbv iota in H.
  change (take_bytes 4 (String c0 (String c1 (String c2 (String c3 v)))))
    with (String c0 (String c1 (String c2 (String c3 EmptyString)))) in H.
  change (drop_bytes 4 (String c0 (String c1 (String c2 (String c3 v))))) with v in H.
  unfold time.atoi in H.
  destruct (isDigit_not_sign _ E0) as [Hm Hp]. rewrite Hm, Hp in H.
  destruct (time.allDigits _ 0) as [n|] eqn:En; [|discriminate].
  simpl in En. rewrite E0 in En.
  destruct (time.isDigit c1) eqn:E1; [|discriminate].
  destruct (time.isDigit c2) eqn:E2; [|discriminate].
  destruct (time.isDigit c3) eqn:E3; [|discriminate].
  injection En as <-. injection H as <- <-.
  exists c0, c1, c2, c3. rewrite Nat2Z.id. by repeat split.
Qed.

Lemma Format_fields y mo d h mi sec ns off :
  time.Format {| time.year := y; time.month := mo; time.day := d;
                 time.hour := h; time.minute := mi; time.second := sec;
                 time.nanosecond := ns; time.zoneOffset := off |} =
  time.appendInt y 4 +:+ "-" +:+ time.appendInt mo 2 +:+ "-" +:+
  time.appendInt d 2 +:+ " " +:+ time.appendInt h 2 +:+ ":" +:+
  time.appendInt mi 2 +:+ ":" +:+ time.appendInt sec 2.
Proof. reflexivity. Qed.

Lemma Parse_wallClockText s t :
  time.Parse s = Some t ->
  time.Format t = wallClockText s ∧ isTimestamp (time.Format t) = true.
Proof.
  unfold time.Parse. intros H.
  cbv beta iota zeta delta [mbind option_bind] in H.
  destruct (time.getLongYear s) as [[y v1]|] eqn:Ey; [|discriminate].
  cbv beta iota zeta in H.
  destruct (time.skip v1 "-") as [v2|] eqn:E1; [|discriminate].
  cbv beta iota zeta in H.
  destruct (time.getnum v2 true) as [[mo v3]|] eqn:Emo; [|discriminate].
  cbv beta iota zeta in H.
  destruct ((mo =? 0) || (12 <? mo)) in H; [discriminate|].
  destruct (time.skip v3 "-") as [v4|] eqn:E2; [|discriminate].
  cbv beta iota zeta in H.
  destruct (time.getnum v4 true) as [[d v5]|] eqn:Ed; [|discriminate].
  cbv beta iota zeta in H.
  destruct (time.skip v5 "T") as [v6|] eqn:E3; [|discriminate].
  cbv beta iota zeta in H.
  destruct (time.getnum v6 false) as [[h v7]|] eqn:Eh; [|discriminate].
  cbv beta iota zeta in H.
  destruct (24 <=? h) in H; [discriminate|].
  destruct (time.skip v7 ":") as [v8|] eqn:E4; [|discriminate].
  cbv beta iota zeta in H.
  destruct (time.getnum v8 true) as [[mi v9]|] eqn:Emi; [|discriminate].
  cbv beta iota zeta in H.
  destruct (60 <=? mi) in H; [discriminate|].
  destruct (time.skip v9 ":") as [v10|] eqn:E5; [|discriminate].
  cbv beta iota zeta in H.
  destruct (time.getnum v10 true) as [[sec v11]|] eqn:Es; [|discriminate].
  cbv beta iota zeta in H.
  destruct (60 <=? sec) in H; [discriminate|].
  destruct (time.getFracSecond v11) as [[ns v12]|]; [|discriminate].
  cbv beta iota zeta in H.
  destruct (time.getNumTZ v12) as [[off v13]|]; [|discriminate].
  cbv beta iota zeta in H.
  destruct (negb (String.eqb v13 "")) in H; [discriminate|].
  destruct ((d <? 1) || (time.daysIn mo y <? d)) in H; [discriminate|].
  injection H as <-.
  apply getLongYear_inv in Ey as (y0 & y1 & y2 & y3 & -> & Hy0 & Hy1 & Hy2 & Hy3 & ->).
  apply skip_inv in E1 as ->.
  apply getnum_fixed_inv in Emo as (m0 & m1 & -> & Hm0 & Hm1 & ->).
  apply skip_inv in E2 as ->.
  apply getnum_fixed_inv in Ed as (d0 & d1 & -> & Hd0 & Hd1 & ->).
  apply skip_inv in E3 as ->.
  apply skip_inv in E4 as ->.
  apply getnum_fixed_inv in Emi as (i0 & i1 & -> & Hi0 & Hi1 & ->).
  apply skip_inv in E5 as ->.
  apply getnum_fixed_inv in Es as (s0 & s1 & -> & Hs0 & Hs1 & ->).
  rewrite Format_fields.
  rewrite appendInt_four_digits, !appendInt_two_digits by assumption.
  apply getnum_free_inv in Eh
    as [(h0 & h1 & -> & Hh0 & Hh1 & ->)|(h0 & -> & Hh0 & -> & Hnext)].
  - rewrite appendInt_two_digits by assumption.
    unfold wallClockText. simpl. rewrite Hh1. split; [reflexivity|].
    rewrite Hy0, Hy1, Hy2, Hy3, Hm0, Hm1, Hd0, Hd1, Hh0, Hi0, Hi1, Hs0, Hs1.
    reflexivity.
  - rewrite appendInt_one_digit by assumption.
    unfold wallClockText. simpl.
    split; [reflexivity|].
    rewrite Hy0, Hy1, Hy2, Hy3, Hm0, Hm1, Hd0, Hd1, Hh0, Hi0, Hi1, Hs0, Hs1.
    reflexivity.
Qed.

(** C6.  [formatDate] prints [N/A] for the empty text; for a text that
    parses under the tracker layout it prints the parsed time as
    [YYYY-MM-DD HH:MM:SS], which is the date and the time of day of the
    text itself; any other text is returned as it is. *)
Theorem formatDate_spec :
  formatDate "" = "N/A" ∧
  formatDate "2025-01-01T10:30:45.123+0300" = "2025-01-01 10:30:45" ∧
  formatDate "not-a-date" = "not-a-date" ∧
  (forall dateStr t,
      time.Parse dateStr = Some t ->
      formatDate dateStr = time.Format t ∧
      isTimestamp (formatDate dateStr) = true ∧
      formatDate dateStr = wallClockText dateStr) ∧
  (forall dateStr,
      dateStr <> "" -> time.Parse dateStr = None ->
      formatDate dateStr = dateStr).
Proof.
  split; [reflexivity|]. split; [vm_compute; reflexivity|].
  split; [vm_compute; reflexivity|]. split.
  - intros dateStr t Hparse.
    assert (Hfmt : formatDate dateStr = time.Format t).
    { unfold formatDate. rewrite Hparse.
      destruct (String.eqb_spec dateStr "") as [->|]; [|reflexivity].
      discriminate Hparse. }
    rewrite Hfmt. destruct (Parse_wallClockText _ _ Hparse). by repeat split.
  - intros dateStr Hne Hparse. unfold formatDate. rewrite Hparse.
    by apply String.eqb_neq in Hne as ->.
Qed.

(** ** The report *)

Lemma countLoop_lookup (m0 : gmap string nat) tasks status :
  foldl countStep m0 tasks !! status =
  match tasksWithStatus status tasks with
  | 0 => m0 !! status
  | S c => Some (default 0 (m0 !! status) + S c)
  end.
Proof.
  revert m0. induction tasks as [|task tasks IH]; intros m0; [reflexivity|].
  simpl foldl. rewrite IH. unfold tasksWithStatus, countStep.
  rewrite filter_cons. destruct (decide (Status task = status)) as [<-|Hne].
  - rewrite lookup_insert_eq. simpl.
    destruct (length _); f_equal; lia.
  - by rewrite lookup_insert_ne.
Qed.

Lemma countStatuses_lookup tasks status n :
  countStatuses tasks !! status = Some n ↔
  status ∈ Status <$> tasks ∧ n = tasksWithStatus status tasks.
Proof.
  change (countStatuses tasks) with (foldl countStep ∅ tasks).
  rewrite countLoop_lookup, lookup_empty.
  assert (Hmem : status ∈ Status <$> tasks ↔ tasksWithStatus status tasks <> 0).
  { unfold tasksWithStatus. rewrite list_elem_of_fmap. split.
    - intros (task & -> & Hin) Hlen.
      apply length_zero_iff_nil in Hlen.
      assert (task ∈ filter (fun t => Status t = Status task) tasks)
        by (by apply list_elem_of_filter).
      rewrite Hlen in H. by apply elem_of_nil in H.
    - intros Hlen.
      destruct (filter (fun t => Status t = status) tasks) as [|task l] eqn:E;
        [done|].
      assert (Hin : task ∈ filter (fun t => Status t = status) tasks)
        by (rewrite E; left).
      apply list_elem_of_filter in Hin as [Hs Hin]. by exists task. }
  rewrite Hmem. destruct (tasksWithStatus status tasks) as [|c]; simpl.
  - split; [done | intros [? _]; done].
  - split.
    + intros [= <-]. done.
    + intros [_ ->]. done.
Qed.

Lemma range_countStatuses ord tasks :
  range ord (countStatuses tasks) ≡ₚ statusDistribution tasks.
Proof.
  rewrite (range_perm ord). apply NoDup_Permutation.
  - apply NoDup_map_to_list.
  - unfold statusDistribution.
    assert (Hinj : Inj (=) (=)
              (fun status => (status, tasksWithStatus status tasks)))
      by (intros x y Heq; congruence).
    apply (NoDup_fmap_2 _), NoDup_firstOccurrences.
  - intros [status n]. rewrite elem_of_map_to_list, countStatuses_lookup.
    unfold statusDistribution. split.
    + intros [Hin ->]. apply list_elem_of_fmap. exists status. split; [done|].
      apply elem_of_firstOccurrences. split; [done | apply not_elem_of_nil].
    + intros (s & [= -> ->] & Hin)%list_elem_of_fmap.
      apply elem_of_firstOccurrences in Hin as [Hin _]. done.
Qed.

(** C3 (as amended).  A rendering is the header with the clock reading of
    the run, then a body that depends on the response alone, then the rows
    of the status table in the order the map is iterated in.  Two
    renderings of one response therefore agree except for the generation
    time and the order of the status rows, which in both are the rows of
    the status distribution: one per status value, with its count. *)
Theorem generateMarkdown_up_to_clock_and_row_order
    (now1 now2 : time.Time) (ord1 ord2 : RangeOrder)
    (response : TransitionCheckResponse) :
  exists rows1 rows2 : list (string * nat),
    generateMarkdown now1 ord1 response =
      reportHeader now1 +:+ reportBody response +:+
      writeAll (distributionRow <$> rows1) ∧
    generateMarkdown now2 ord2 response =
      reportHeader now2 +:+ reportBody response +:+
      writeAll (distributionRow <$> rows2) ∧
    rows1 ≡ₚ statusDistribution (elems (Tasks response)) ∧
    rows2 ≡ₚ statusDistribution (elems (Tasks response)).
Proof.
  exists (range ord1 (countStatuses (elems (Tasks response)))),
         (range ord2 (countStatuses (elems (Tasks response)))).
  unfold generateMarkdown, reportHeader.
  rewrite !append_assoc. simpl.
  split; [reflexivity|]. split; [reflexivity|].
  split; apply range_countStatuses.
Qed.

(** C3 as stated fails: a rendering one second later differs, and so does
    a rendering that iterates the status map in another order. *)
Lemma generateMarkdown_not_deterministic :
  generateMarkdown noon ascendingOrder {| Tasks := Some [] |} <>
  generateMarkdown oneSecondPastNoon ascendingOrder {| Tasks := Some [] |} ∧
  generateMarkdown noon ascendingOrder twoStatuses <>
  generateMarkdown noon descendingOrder twoStatuses.
Proof. split; vm_compute; discriminate. Qed.

(** ** UTF-8 *)

Lemma byte_in_spec lo hi c :
  utf8.byte_in lo hi c = true ↔ (lo <= N_of_ascii c <= hi)%N.
Proof.
  unfold utf8.byte_in. rewrite andb_true_iff, !N.leb_le. tauto.
Qed.

Lemma byte_in_false lo hi c :
  utf8.byte_in lo hi c = false ↔ (N_of_ascii c < lo ∨ hi < N_of_ascii c)%N.
Proof.
  unfold utf8.byte_in. rewrite andb_false_iff, !N.leb_gt. tauto.
Qed.

Lemma N_of_ascii_lt c : (N_of_ascii c < 256)%N.
Proof. apply N_ascii_bounded. Qed.

Lemma ascii_of_N_eq c n : N_of_ascii c = n -> ascii_of_N n = c.
Proof. intros <-. apply ascii_N_embedding. Qed.

(** Division and remainder by constants, for [lia]. *)
Ltac Zify.zify_post_hook ::= Z.to_euclidean_division_equations.

Ltac byte_facts :=
  repeat match goal with
  | H : utf8.cont _ = true |- _ => unfold utf8.cont in H
  | H : utf8.cont _ = false |- _ => unfold utf8.cont in H
  | H : utf8.byte_in _ _ _ = true |- _ => apply byte_in_spec in H
  | H : utf8.byte_in _ _ _ = false |- _ => apply byte_in_false in H
  | H : (_ <? _)%N = true |- _ => apply N.ltb_lt in H
  | H : (_ <? _)%N = false |- _ => apply N.ltb_ge in H
  | H : _ && _ = true |- _ => apply andb_true_iff in H as [? ?]
  end.

Ltac decide_N :=
  repeat match goal with
  | |- context [(?a <? ?b)%N] =>
      destruct (N.ltb_spec a b); [try lia | try lia]
  | |- context [(?a <=? ?b)%N] =>
      destruct (N.leb_spec a b); [try lia | try lia]
  end.

Lemma second_ok_facts b0 b1 :
  utf8.second_ok b0 b1 = true ->
  (128 <= N_of_ascii b1 <= 191)%N ∧
  (N_of_ascii b0 = 224 -> 160 <= N_of_ascii b1)%N ∧
  (N_of_ascii b0 = 237 -> N_of_ascii b1 <= 159)%N ∧
  (N_of_ascii b0 = 240 -> 144 <= N_of_ascii b1)%N ∧
  (N_of_ascii b0 = 244 -> N_of_ascii b1 <= 143)%N.
Proof.
  unfold utf8.second_ok.
  destruct (utf8.byte_in 224 224 b0) eqn:E1;
  destruct (utf8.byte_in 237 237 b0) eqn:E2;
  destruct (utf8.byte_in 240 240 b0) eqn:E3;
  destruct (utf8.byte_in 244 244 b0) eqn:E4;
  intros H; byte_facts; lia.
Qed.

(** A well-formed multi-byte sequence is the encoding of the rune it
    decodes to. *)
Lemma EncodeRune_DecodeRune s c size :
  utf8.DecodeRuneInString s = (c, size) -> 2 <= size ->
  utf8.EncodeRune c = take_bytes size s ∧ size <= String.length s.
Proof.
  unfold utf8.DecodeRuneInString.
  destruct s as [|b0 rest]; [intros [= <- <-]; lia|].
  pose proof (N_of_ascii_lt b0) as Hb0.
  destruct (N_of_ascii b0 <? 128)%N eqn:Eascii; [intros [= <- <-]; lia|].
  destruct (utf8.byte_in 194 223 b0) eqn:E2.
  { destruct rest as [|b1 rest]; [intros [= <- <-]; lia|].
    pose proof (N_of_ascii_lt b1) as Hb1.
    destruct (utf8.cont b1) eqn:Ec1; [|intros [= <- <-]; lia].
    intros [= <- <-] _. byte_facts. split; [|simpl; lia].
    unfold utf8.EncodeRune. decide_N.
    simpl take_bytes. f_equal; [|f_equal]; apply ascii_of_N_eq; lia. }
  destruct (utf8.byte_in 224 239 b0) eqn:E3.
  { destruct rest as [|b1 [|b2 rest]]; try (intros [= <- <-]; lia).
    pose proof (N_of_ascii_lt b1) as Hb1.
    pose proof (N_of_ascii_lt b2) as Hb2.
    destruct (utf8.second_ok b0 b1 && utf8.cont b2) eqn:Eok;
      [|intros [= <- <-]; lia].
    intros [= <- <-] _. byte_facts.
    match goal with H : utf8.second_ok _ _ = true |- _ =>
      apply second_ok_facts in H as (? & ? & ? & ? & ?) end.
    split; [|simpl; lia].
    unfold utf8.EncodeRune, utf8.bytes3.
    assert (N_of_ascii b0 = 224 ∨ N_of_ascii b0 = 237 ∨
            (N_of_ascii b0 <> 224 ∧ N_of_ascii b0 <> 237))%N as Hcase by lia.
    destruct Hcase as [Hc0|[Hc0|[Hc0 Hc1]]]; decide_N;
      simpl andb; cbv iota;
      simpl take_bytes; (f_equal; [|f_equal; [|f_equal]]); apply ascii_of_N_eq; lia. }
  destruct (utf8.byte_in 240 244 b0) eqn:E4; [|intros [= <- <-]; lia].
  destruct rest as [|b1 [|b2 [|b3 rest]]]; try (intros [= <- <-]; lia).
  pose proof (N_of_ascii_lt b1) as Hb1.
  pose proof (N_of_ascii_lt b2) as Hb2.
  pose proof (N_of_ascii_lt b3) as Hb3.
  destruct (utf8.second_ok b0 b1 && utf8.cont b2 && utf8.cont b3) eqn:Eok;
    [|intros [= <- <-]; lia].
  intros [= <- <-] _. byte_facts.
  match goal with H : utf8.second_ok _ _ = true |- _ =>
    apply second_ok_facts in H as (? & ? & ? & ? & ?) end.
  split; [|simpl; lia].
  unfold utf8.EncodeRune.
  assert (N_of_ascii b0 = 240 ∨ N_of_ascii b0 = 244 ∨
          (N_of_ascii b0 <> 240 ∧ N_of_ascii b0 <> 244))%N as Hcase by lia.
  destruct Hcase as [Hc0|[Hc0|[Hc0 Hc1]]]; decide_N;
    simpl andb; cbv iota;
    simpl take_bytes; (f_equal; [|f_equal; [|f_equal; [|f_equal]]]);
    apply ascii_of_N_eq; lia.
Qed.

Lemma DecodeRune_ascii b rest :
  (N_of_ascii b < 128)%N ->
  utf8.DecodeRuneInString (String b rest) = (N_of_ascii b, 1).
Proof.
  intros H. unfold utf8.DecodeRuneInString.
  apply N.ltb_lt in H. by rewrite H.
Qed.

Lemma DecodeRune_size b rest c size :
  utf8.DecodeRuneInString (String b rest) = (c, size) ->
  (c = utf8.RuneError ∧ size = 1) ∨ (size = 1 ∧ (N_of_ascii b < 128)%N) ∨
  (2 <= size ∧ (128 <= N_of_ascii b)%N).
Proof.
  unfold utf8.DecodeRuneInString.
  destruct (N_of_ascii b <? 128)%N eqn:Eascii.
  { intros [= <- <-]. byte_facts. right. left. done. }
  byte_facts.
  repeat match goal with
  | |- context [if ?t then _ else _] => destruct t
  | |- context [match ?r with EmptyString => _ | String _ _ => _ end] =>
      destruct r
  end; intros [= <- <-]; (left; done) || (right; right; split; [lia | done]).
Qed.

(** Decoding looks at the bytes of the sequence only. *)
Lemma DecodeRune_take s c size tail :
  utf8.DecodeRuneInString s = (c, size) -> 2 <= size ->
  utf8.DecodeRuneInString (take_bytes size s +:+ tail) = (c, size).
Proof.
  unfold utf8.DecodeRuneInString.
  destruct s as [|b0 rest]; [intros [= <- <-]; lia|].
  destruct (N_of_ascii b0 <? 128)%N eqn:Eascii; [intros [= <- <-]; lia|].
  destruct (utf8.byte_in 194 223 b0) eqn:E2.
  { destruct rest as [|b1 rest]; [intros [= <- <-]; lia|].
    destruct (utf8.cont b1) eqn:Ec1; [|intros [= <- <-]; lia].
    intros [= <- <-] _. simpl take_bytes.
    change (String b0 (String b1 "") +:+ tail) with (String b0 (String b1 tail)).
    cbv beta iota. by rewrite Eascii, E2, Ec1. }
  destruct (utf8.byte_in 224 239 b0) eqn:E3.
  { destruct rest as [|b1 [|b2 rest]]; try (intros [= <- <-]; lia).
    destruct (utf8.second_ok b0 b1 && utf8.cont b2) eqn:Eok;
      [|intros [= <- <-]; lia].
    intros [= <- <-] _. simpl take_bytes.
    change (String b0 (String b1 (String b2 "")) +:+ tail)
      with (String b0 (String b1 (String b2 tail))).
    cbv beta iota. by rewrite Eascii, E2, E3, Eok. }
  destruct (utf8.byte_in 240 244 b0) eqn:E4; [|intros [= <- <-]; lia].
  destruct rest as [|b1 [|b2 [|b3 rest]]]; try (intros [= <- <-]; lia).
  destruct (utf8.second_ok b0 b1 && utf8.cont b2 && utf8.cont b3) eqn:Eok;
    [|intros [= <- <-]; lia].
  intros [= <- <-] _. simpl take_bytes.
  change (String b0 (String b1 (String b2 (String b3 ""))) +:+ tail)
    with (String b0 (String b1 (String b2 (String b3 tail)))).
  cbv beta iota. by rewrite Eascii, E2, E3, E4, Eok.
Qed.


(** ** JSON strings *)

(** One round of [unquote] on what [encodeRunes] writes for one rune. *)

Lemma unquote_safe b tail f :
  (N_of_ascii b <? 128)%N = true -> json.htmlSafe b = true ->
  json.unquote (S f) (String b tail) = consByte b (json.unquote f tail).
Proof.
  destruct b as [[] [] [] [] [] [] [] []]; intros H1 H2;
    try discriminate H1; try discriminate H2; reflexivity.
Qed.

Lemma unquote_escapeByte b tail f :
  (N_of_ascii b <? 128)%N = true -> json.htmlSafe b = false ->
  json.unquote (S f) (json.escapeByte b +:+ tail) =
  consByte b (json.unquote f tail).
Proof.
  destruct b as [[] [] [] [] [] [] [] []]; intros H1 H2;
    try discriminate H1; try discriminate H2; reflexivity.
Qed.

Lemma unquote_lineSeparator c tail f :
  c = 8232%N ∨ c = 8233%N ->
  json.unquote (S f)
    ("\u202" +:+ String (json.hexDigit (c mod 16)) EmptyString +:+ tail) =
  consBytes (utf8.EncodeRune c) (json.unquote f tail).
Proof. intros [-> | ->]; reflexivity. Qed.

Lemma unquote_replacement tail f :
  json.unquote (S f) ("\ufffd" +:+ tail) =
  consBytes (utf8.EncodeRune utf8.RuneError) (json.unquote f tail).
Proof. reflexivity. Qed.

#[local] Arguments utf8.DecodeRuneInString : simpl never.
#[local] Arguments utf8.EncodeRune : simpl never.

Lemma unquote_multibyte s c size tail f :
  utf8.DecodeRuneInString s = (c, size) -> 2 <= size ->
  json.unquote (S f) (take_bytes size s +:+ tail) =
  consBytes (take_bytes size s) (json.unquote f tail).
Proof.
  intros Hdec Hsize.
  destruct (EncodeRune_DecodeRune _ _ _ Hdec Hsize) as [Henc Hlen].
  pose proof (DecodeRune_take _ _ _ tail Hdec Hsize) as Htake.
  destruct s as [|b0 rest]; [simpl in Hlen; lia|].
  destruct (DecodeRune_size _ _ _ _ Hdec) as [[_ ?]|[[? _]|[_ Hb0]]]; try lia.
  destruct size as [|size]; [lia|].
  revert Htake. simpl take_bytes.
  change (String b0 (take_bytes size rest) +:+ tail)
    with (String b0 (take_bytes size rest +:+ tail)).
  intros Htake. simpl json.unquote.
  assert (H34 : (N_of_ascii b0 =? 34)%N = false) by (apply N.eqb_neq; lia).
  assert (H92 : (N_of_ascii b0 =? 92)%N = false) by (apply N.eqb_neq; lia).
  assert (H32 : (N_of_ascii b0 <? 32)%N = false) by (apply N.ltb_ge; lia).
  assert (H128 : (N_of_ascii b0 <? 128)%N = false) by (apply N.ltb_ge; lia).
  rewrite H34, H92, H32, H128.
  rewrite Htake.
  change (String b0 (take_bytes size rest +:+ tail))
    with (take_bytes (S size) (String b0 rest) +:+ tail).
  rewrite drop_take_append by exact Hlen.
  rewrite Henc. simpl take_bytes. destruct (json.unquote f tail) as [[t out]|]; reflexivity.
Qed.

Lemma unquote_end f tail :
  json.unquote (S f) (String json.dquote tail) = Some (EmptyString, tail).
Proof. reflexivity. Qed.

Lemma length_escapeByte b : 1 <= String.length (json.escapeByte b).
Proof. unfold json.escapeByte. simpl. lia. Qed.

(** A string is read back from its quoted form with its invalid bytes
    replaced. *)
Lemma unquote_encodeRunes n :
  forall s tail f,
    String.length s <= n ->
    String.length (json.encodeRunes n s) < f ->
    json.unquote f (json.encodeRunes n s +:+ String json.dquote tail) =
    Some (replaceInvalid n s, tail).
Proof.
  induction n as [|n IH]; intros s tail f Hlen Hf.
  - destruct s; [|simpl in Hlen; lia].
    destruct f; [simpl in Hf; lia|]. apply unquote_end.
  - destruct s as [|b rest].
    { destruct f; [simpl in Hf; lia|]. apply unquote_end. }
    simpl in Hlen.
    simpl json.encodeRunes in Hf |- *. simpl replaceInvalid.
    destruct (N_of_ascii b <? 128)%N eqn:Eascii.
    + rewrite DecodeRune_ascii by (by apply N.ltb_lt).
      assert (Hrune : (N_of_ascii b =? utf8.RuneError)%N = false).
      { apply N.eqb_neq. apply N.ltb_lt in Eascii. unfold utf8.RuneError. lia. }
      rewrite Hrune. cbn [andb take_bytes drop_bytes].
      rewrite length_append in Hf.
      destruct f as [|f]; [lia|].
      rewrite append_assoc.
      destruct (json.htmlSafe b) eqn:Esafe.
      * change (String b "" +:+ json.encodeRunes n rest +:+ String json.dquote tail)
          with (String b (json.encodeRunes n rest +:+ String json.dquote tail)).
        rewrite unquote_safe by assumption.
        rewrite IH; [reflexivity | lia | simpl in Hf; lia].
      * rewrite unquote_escapeByte by assumption.
        pose proof (length_escapeByte b).
        rewrite IH; [reflexivity | lia | lia].
    + destruct (utf8.DecodeRuneInString (String b rest)) as [c size] eqn:Edec.
      destruct f as [|f]; [lia|].
      destruct ((c =? utf8.RuneError)%N && (size =? 1)) eqn:Ebad.
      { rewrite length_append in Hf. simpl String.length in Hf.
        rewrite append_assoc, unquote_replacement.
        rewrite IH; [reflexivity | lia | lia]. }
      destruct (DecodeRune_size _ _ _ _ Edec) as [[-> ->]|[[_ Hb]|[Hsize _]]].
      { discriminate Ebad. }
      { apply N.ltb_ge in Eascii. lia. }
      destruct (EncodeRune_DecodeRune _ _ _ Edec Hsize) as [Henc Hsl].
      assert (Hdl : String.length (drop_bytes size (String b rest)) <= n).
      { rewrite length_drop_bytes. simpl String.length in *. lia. }
      destruct ((c =? 8232)%N || (c =? 8233)%N) eqn:Esep.
      * rewrite length_append in Hf.
        rewrite !append_assoc, unquote_lineSeparator.
        2:{ apply orb_true_iff in Esep as [H|H]; apply N.eqb_eq in H; auto. }
        rewrite IH; [|exact Hdl|].
        2:{ rewrite length_append in Hf. simpl in Hf. lia. }
        simpl. by rewrite Henc.
      * rewrite length_append in Hf.
        rewrite append_assoc, (unquote_multibyte _ _ _ _ _ Edec Hsize).
        rewrite IH; [|exact Hdl|].
        2:{ rewrite length_take_bytes in Hf by exact Hsl. lia. }
        reflexivity.
Qed.

Lemma unquote_quote s tail :
  json.unquote (String.length (json.encodeRunes (String.length s) s
                               +:+ String json.dquote tail))
    (json.encodeRunes (String.length s) s +:+ String json.dquote tail) =
  Some (toValidUTF8 s, tail).
Proof.
  apply unquote_encodeRunes; [lia|].
  rewrite length_append. simpl. lia.
Qed.

(** Nothing is replaced in a valid string. *)
Lemma replaceInvalid_valid n :
  forall s, String.length s <= n -> utf8.validFrom n s = true ->
            replaceInvalid n s = s.
Proof.
  induction n as [|n IH]; intros s Hlen Hvalid.
  - destruct s; [done | simpl in Hlen; lia].
  - destruct s as [|b rest]; [done|].
    simpl in Hlen. simpl utf8.validFrom in Hvalid. simpl replaceInvalid.
    destruct (utf8.DecodeRuneInString (String b rest)) as [c size] eqn:Edec.
    destruct ((c =? utf8.RuneError)%N && (size =? 1)); [done|].
    rewrite IH; [apply take_drop_bytes | | done].
    rewrite length_drop_bytes. simpl String.length.
    destruct (DecodeRune_size _ _ _ _ Edec) as [[_ ->]|[[-> _]|[? _]]]; lia.
Qed.

Lemma toValidUTF8_valid s : utf8.ValidString s = true -> toValidUTF8 s = s.
Proof. intros H. by apply replaceInvalid_valid. Qed.

Lemma toValidUTF8_empty s : String.eqb (toValidUTF8 s) "" = String.eqb s "".
Proof.
  destruct s as [|b rest]; [done|]. unfold toValidUTF8. simpl.
  destruct (utf8.DecodeRuneInString (String b rest)) as [c size] eqn:Edec.
  destruct ((c =? utf8.RuneError)%N && (size =? 1)); [done|].
  destruct (DecodeRune_size _ _ _ _ Edec) as [[_ ->]|[[-> _]|[? _]]];
    try done.
  destruct size as [|size]; [lia|]. done.
Qed.


(** ** JSON documents *)

Lemma indent_Array d first others :
  json.indent d (json.Array (first :: others)) =
  "[" +:+ json.newline (S d) +:+ json.indent (S d) first +:+
  itemsText (S d) others +:+ json.newline d +:+ "]".
Proof.
  simpl. do 3 f_equal.
  assert (H : forall l,
    (fix items (l : list json.Value) : string :=
       match l with
       | [] => ""
       | item :: l' =>
           "," +:+ json.newline (S d) +:+ json.indent (S d) item +:+ items l'
       end) l = itemsText (S d) l).
  { induction l as [|x l IH]; [reflexivity|]. simpl. by rewrite IH. }
  by rewrite H.
Qed.

Lemma indent_Object d key first others :
  json.indent d (json.Object ((key, first) :: others)) =
  "{" +:+ json.newline (S d) +:+ json.quote key +:+ ": " +:+
  json.indent (S d) first +:+ membersText (S d) others +:+
  json.newline d +:+ "}".
Proof.
  simpl. do 5 f_equal.
  assert (H : forall l,
    (fix members (l : list (string * json.Value)) : string :=
       match l with
       | [] => ""
       | (k, item) :: l' =>
           "," +:+ json.newline (S d) +:+ json.quote k +:+ ": " +:+
           json.indent (S d) item +:+ members l'
       end) l = membersText (S d) l).
  { induction l as [|[k x] l IH]; [reflexivity|]. simpl. by rewrite IH. }
  by rewrite H.
Qed.

Lemma skipSpace_append pre t :
  json.skipSpace pre = EmptyString ->
  json.skipSpace (pre +:+ t) = json.skipSpace t.
Proof.
  induction pre as [|c pre IH]; [reflexivity|]. simpl.
  change (String c pre +:+ t) with (String c (pre +:+ t)). simpl.
  destruct (json.isSpace c); [exact IH | discriminate].
Qed.

Lemma skipSpace_spaces d : json.skipSpace (json.spaces d) = EmptyString.
Proof. induction d as [|d IH]; [reflexivity|]. exact IH. Qed.

Lemma skipSpace_newline d : json.skipSpace (json.newline d) = EmptyString.
Proof. unfold json.newline. apply skipSpace_spaces. Qed.

Lemma indent_head d v :
  textual v = true -> exists c t, json.indent d v = String c t ∧ opens c.
Proof.
  unfold opens. destruct v as [|b|lit|s|[|x l]|[|[k x] l]]; try discriminate;
    intros _.
  - exists "n"%char, "ull". auto.
  - eexists _, _. split; [reflexivity|]. auto.
  - exists "["%char, "]". auto.
  - rewrite indent_Array. eexists _, _. split; [reflexivity|]. auto.
  - exists "{"%char, "}". auto.
  - rewrite indent_Object. eexists _, _. split; [reflexivity|]. auto.
Qed.

Lemma opens_skipSpace c t : opens c -> json.skipSpace (String c t) = String c t.
Proof. intros [H|[H|[H|H]]]; subst c; reflexivity. Qed.

Lemma skipSpace_indent pre d v rest :
  json.skipSpace pre = EmptyString -> textual v = true ->
  json.skipSpace (pre +:+ json.indent d v +:+ rest) =
  json.indent d v +:+ rest.
Proof.
  intros Hpre Hplain. rewrite skipSpace_append by exact Hpre.
  destruct (indent_head d v Hplain) as (c & t & -> & Hc).
  change (String c t +:+ rest) with (String c (t +:+ rest)).
  by apply opens_skipSpace.
Qed.

(** What [parseValue] does after white space, by the first byte. *)
Lemma parseValue_null f depth s rest :
  json.skipSpace s = "null" +:+ rest ->
  json.parseValue (S f) depth s = Some (json.Null, rest).
Proof. intros H. simpl. rewrite H. reflexivity. Qed.

Lemma parseValue_string f depth s body :
  json.skipSpace s = String json.dquote body ->
  json.parseValue (S f) depth s =
  match json.unquote (String.length body) body with
  | Some (t, out) => Some (json.Str t, out)
  | None => None
  end.
Proof. intros H. simpl. rewrite H. reflexivity. Qed.

Lemma depthOK_open depth n :
  depthOK depth (S n) -> (json.maxNestingDepth <? depth + 1)%N = false.
Proof. unfold depthOK. intros H. apply N.ltb_ge. lia. Qed.

Lemma depthOK_inside depth n :
  depthOK depth (S n) -> depthOK (depth + 1) n.
Proof. unfold depthOK. lia. Qed.

Lemma depthOK_le depth n m : m <= n -> depthOK depth n -> depthOK depth m.
Proof. unfold depthOK. lia. Qed.

Lemma parseValue_array f depth s body n :
  json.skipSpace s = String "["%char body ->
  depthOK depth (S n) ->
  json.parseValue (S f) depth s =
  match json.skipSpace body with
  | String c' rest' =>
      if Ascii.eqb c' "]"%char then Some (json.Array [], rest')
      else match json.parseItems f (depth + 1) body with
           | Some (items, out) => Some (json.Array items, out)
           | None => None
           end
  | EmptyString => None
  end.
Proof.
  intros H Hd. simpl. rewrite H. cbv beta iota zeta.
  change ((N_of_ascii "[" =? 34)%N) with false.
  change ((N_of_ascii "[" =? 110)%N) with false.
  change ((N_of_ascii "[" =? 116)%N) with false.
  change ((N_of_ascii "[" =? 102)%N) with false.
  change ((N_of_ascii "[" =? 91)%N) with true.
  cbv iota. rewrite (depthOK_open _ _ Hd). reflexivity.
Qed.

Lemma parseValue_object f depth s body n :
  json.skipSpace s = String "{"%char body ->
  depthOK depth (S n) ->
  json.parseValue (S f) depth s =
  match json.skipSpace body with
  | String c' rest' =>
      if Ascii.eqb c' "}"%char then Some (json.Object [], rest')
      else match json.parseMembers f (depth + 1) body with
           | Some (members, out) => Some (json.Object members, out)
           | None => None
           end
  | EmptyString => None
  end.
Proof.
  intros H Hd. simpl. rewrite H. cbv beta iota zeta.
  change ((N_of_ascii "{" =? 34)%N) with false.
  change ((N_of_ascii "{" =? 110)%N) with false.
  change ((N_of_ascii "{" =? 116)%N) with false.
  change ((N_of_ascii "{" =? 102)%N) with false.
  change ((N_of_ascii "{" =? 91)%N) with false.
  change ((N_of_ascii "{" =? 123)%N) with true.
  cbv iota. rewrite (depthOK_open _ _ Hd). reflexivity.
Qed.

Lemma parseItems_S f depth s :
  json.parseItems (S f) depth s =
  match json.parseValue f depth s with
  | Some (item, out) =>
      match json.skipSpace out with
      | String c rest =>
          if Ascii.eqb c ","%char then
            match json.parseItems f depth rest with
            | Some (items, out') => Some (item :: items, out')
            | None => None
            end
          else if Ascii.eqb c "]"%char then Some ([item], rest)
          else None
      | EmptyString => None
      end
  | None => None
  end.
Proof. simpl. destruct (json.parseValue f depth s) as [[item out]|]; reflexivity. Qed.

Lemma parseMembers_S f depth s afterQuote :
  json.skipSpace s = String json.dquote afterQuote ->
  json.parseMembers (S f) depth s =
  match json.unquote (String.length afterQuote) afterQuote with
  | Some (key, out) =>
      match json.skipSpace out with
      | String colon afterColon =>
          if Ascii.eqb colon ":"%char then
            match json.parseValue f depth afterColon with
            | Some (item, out1) =>
                match json.skipSpace out1 with
                | String c rest =>
                    if Ascii.eqb c ","%char then
                      match json.parseMembers f depth rest with
                      | Some (members, out2) => Some ((key, item) :: members, out2)
                      | None => None
                      end
                    else if Ascii.eqb c "}"%char
                    then Some ([(key, item)], rest)
                    else None
                | EmptyString => None
                end
            | None => None
            end
          else None
      | EmptyString => None
      end
  | None => None
  end.
Proof.
  intros H. simpl. rewrite H. cbv beta iota.
  change (Ascii.eqb json.dquote json.dquote) with true. cbv iota.
  destruct (json.unquote _ afterQuote) as [[key out]|]; [|reflexivity].
  simpl. destruct (json.skipSpace out) as [|colon afterColon]; [reflexivity|].
  destruct (Ascii.eqb colon ":"); [|reflexivity].
  destruct (json.parseValue f depth afterColon) as [[item out1]|]; reflexivity.
Qed.

Lemma need_pos v : 1 <= need v.
Proof. destruct v; simpl; lia. Qed.

Lemma quote_append s rest :
  json.quote s +:+ rest =
  String json.dquote
    (json.encodeRunes (String.length s) s +:+ String json.dquote rest).
Proof.
  unfold json.quote.
  change (String json.dquote ?a +:+ rest) with (String json.dquote (a +:+ rest)).
  by rewrite append_assoc.
Qed.

Lemma opens_not_close c :
  opens c -> Ascii.eqb c "]"%char = false ∧ Ascii.eqb c "}"%char = false.
Proof. intros [H|[H|[H|H]]]; subst c; by split. Qed.

Lemma indent_append_head d v a :
  textual v = true ->
  exists c t, json.indent d v +:+ a = String c t ∧ opens c.
Proof.
  intros H. destruct (indent_head d v H) as (c & t & -> & Hc).
  by exists c, (t +:+ a).
Qed.

Lemma first_not_bracket {T} s (A : string -> T) (B N : T) :
  (exists c t, s = String c t ∧ opens c) ->
  match s with
  | String c' rest' => if Ascii.eqb c' "]"%char then A rest' else B
  | EmptyString => N
  end = B.
Proof.
  intros (c & t & -> & Hc). by destruct (opens_not_close c Hc) as [-> _].
Qed.

Lemma first_not_brace {T} s (A : string -> T) (B N : T) :
  (exists c t, s = String c t ∧ opens c) ->
  match s with
  | String c' rest' => if Ascii.eqb c' "}"%char then A rest' else B
  | EmptyString => N
  end = B.
Proof.
  intros (c & t & -> & Hc). by destruct (opens_not_close c Hc) as [_ ->].
Qed.

(** Parsing the text of a value gives the value back, with its strings
    made valid; likewise for the items of an array and the members of an
    object. *)
Lemma parse_indent fuel :
  (forall v depth d pre rest,
      textual v = true -> need v <= fuel -> depthOK depth (nest v) ->
      json.skipSpace pre = EmptyString ->
      json.parseValue fuel depth (pre +:+ json.indent d v +:+ rest) =
      Some (sanitizeValue v, rest)) ∧
  (forall first others depth d close rest,
      forallb textual (first :: others) = true ->
      needItems (first :: others) <= fuel ->
      depthOK depth (nestItems (first :: others)) ->
      json.skipSpace close = EmptyString ->
      json.parseItems fuel depth
        (json.newline d +:+ json.indent d first +:+ itemsText d others +:+
         close +:+ "]" +:+ rest) =
      Some (sanitizeValue <$> first :: others, rest)) ∧
  (forall key first others depth d close rest,
      forallb (fun kv => textual (snd kv)) ((key, first) :: others) = true ->
      needMembers ((key, first) :: others) <= fuel ->
      depthOK depth (nestMembers ((key, first) :: others)) ->
      json.skipSpace close = EmptyString ->
      json.parseMembers fuel depth
        (json.newline d +:+ json.quote key +:+ ": " +:+ json.indent d first +:+
         membersText d others +:+ close +:+ "}" +:+ rest) =
      Some (sanitizeMember <$> (key, first) :: others, rest)).
Proof.
  induction fuel as [|f (IHv & IHi & IHm)].
  { split; [|split].
    - intros v ? ? ? ? _ H. pose proof (need_pos v). lia.
    - intros ? ? ? ? ? ? _ H. simpl in H. lia.
    - intros ? ? ? ? ? ? ? _ H. simpl in H. lia. }
  split; [|split].
  - (* a value *)
    intros v depth d pre rest Hplain Hneed Hdepth Hpre.
    pose proof (skipSpace_indent pre d v rest Hpre Hplain) as Hskip.
    destruct v as [|b|lit|s|[|x l]|[|[k x] l]]; try discriminate Hplain.
    + by apply parseValue_null.
    + rewrite (parseValue_string _ _ _
                 (json.encodeRunes (String.length s) s +:+ String json.dquote rest)).
      2:{ rewrite Hskip. apply quote_append. }
      by rewrite unquote_quote.
    + change (json.indent d (json.Array []) +:+ rest)
        with (String "["%char (String "]"%char rest)) in Hskip.
      rewrite (parseValue_array _ _ _ _ 0 Hskip Hdepth). reflexivity.
    + rewrite (parseValue_array _ _ _
                 (json.newline (S d) +:+ json.indent (S d) x +:+
                  itemsText (S d) l +:+ json.newline d +:+ "]" +:+ rest)
                 (nestItems (x :: l))); [| |exact Hdepth].
      2:{ rewrite Hskip, indent_Array. by rewrite !append_assoc. }
      change (textual (json.Array (x :: l))) with (forallb textual (x :: l)) in Hplain.
      assert (Hx : textual x = true)
        by (simpl in Hplain; by apply andb_true_iff in Hplain as [? _]).
      rewrite (skipSpace_indent (json.newline (S d)) (S d) x _
                 (skipSpace_newline _) Hx).
      rewrite first_not_bracket by (by apply indent_append_head).
      rewrite IHi; [reflexivity | exact Hplain | | |apply skipSpace_newline].
      * change (need (json.Array (x :: l))) with (S (needItems (x :: l))) in Hneed.
        lia.
      * by apply depthOK_inside.
    + change (json.indent d (json.Object []) +:+ rest)
        with (String "{"%char (String "}"%char rest)) in Hskip.
      rewrite (parseValue_object _ _ _ _ 0 Hskip Hdepth). reflexivity.
    + rewrite (parseValue_object _ _ _
                 (json.newline (S d) +:+ json.quote k +:+ ": " +:+
                  json.indent (S d) x +:+ membersText (S d) l +:+
                  json.newline d +:+ "}" +:+ rest)
                 (nestMembers ((k, x) :: l))); [| |exact Hdepth].
      2:{ rewrite Hskip, indent_Object. by rewrite !append_assoc. }
      rewrite (skipSpace_append (json.newline (S d))) by apply skipSpace_newline.
      rewrite quote_append.
      change (json.skipSpace (String json.dquote ?a)) with (String json.dquote a).
      change (Ascii.eqb json.dquote "}"%char) with false. cbv iota.
      rewrite <- quote_append.
      rewrite IHm; [reflexivity | exact Hplain | | |apply skipSpace_newline].
      * change (need (json.Object ((k, x) :: l)))
          with (S (needMembers ((k, x) :: l))) in Hneed.
        lia.
      * by apply depthOK_inside.
  - (* the items of an array *)
    intros first others depth d close rest Hplain Hneed Hdepth Hclose.
    rewrite parseItems_S.
    assert (Hfirst : textual first = true)
      by (simpl in Hplain; by apply andb_true_iff in Hplain as [? _]).
    assert (Hothers : forallb textual others = true)
      by (simpl in Hplain; by apply andb_true_iff in Hplain as [_ ?]).
    change (needItems (first :: others))
      with (S (Nat.max (need first) (needItems others))) in Hneed.
    change (nestItems (first :: others))
      with (Nat.max (nest first) (nestItems others)) in Hdepth.
    rewrite IHv; [|exact Hfirst|lia|
                  |apply skipSpace_newline].
    2:{ eapply depthOK_le; [|exact Hdepth]. lia. }
    destruct others as [|x l].
    + change (itemsText d [] +:+ ?a) with a.
      rewrite skipSpace_append by exact Hclose. reflexivity.
    + change (itemsText d (x :: l))
        with ("," +:+ json.newline d +:+ json.indent d x +:+ itemsText d l).
      rewrite !append_assoc.
      change ("," +:+ ?a) with (String ","%char a).
      change (json.skipSpace (String ","%char ?a)) with (String ","%char a).
      cbv iota. change (Ascii.eqb "," ",") with true. cbv iota.
      rewrite IHi; [reflexivity | exact Hothers | lia | | exact Hclose].
      eapply depthOK_le; [|exact Hdepth]. lia.
  - (* the members of an object *)
    intros key first others depth d close rest Hplain Hneed Hdepth Hclose.
    assert (Hfirst : textual first = true)
      by (simpl in Hplain; by apply andb_true_iff in Hplain as [? _]).
    assert (Hothers : forallb (fun kv => textual (snd kv)) others = true)
      by (simpl in Hplain; by apply andb_true_iff in Hplain as [_ ?]).
    change (needMembers ((key, first) :: others))
      with (S (Nat.max (need first) (needMembers others))) in Hneed.
    change (nestMembers ((key, first) :: others))
      with (Nat.max (nest first) (nestMembers others)) in Hdepth.
    rewrite (parseMembers_S f depth _
               (json.encodeRunes (String.length key) key +:+
                String json.dquote
                  (": " +:+ json.indent d first +:+ membersText d others +:+
                   close +:+ "}" +:+ rest))).
    2:{ rewrite skipSpace_append by apply skipSpace_newline.
        rewrite quote_append. reflexivity. }
    rewrite unquote_quote.
    change (": " +:+ ?a) with (String ":"%char (" " +:+ a)).
    change (json.skipSpace (String ":"%char ?a)) with (String ":"%char a).
    cbv iota. change (Ascii.eqb ":" ":") with true. cbv iota.
    rewrite (IHv first depth d " "); [|exact Hfirst|lia| |reflexivity].
    2:{ eapply depthOK_le; [|exact Hdepth]. lia. }
    destruct others as [|[k x] l].
    + change (membersText d [] +:+ ?a) with a.
      rewrite skipSpace_append by exact Hclose. reflexivity.
    + change (membersText d ((k, x) :: l))
        with ("," +:+ json.newline d +:+ json.quote k +:+ ": " +:+
              json.indent d x +:+ membersText d l).
      rewrite !append_assoc.
      change ("," +:+ ?a) with (String ","%char a).
      change (json.skipSpace (String ","%char ?a)) with (String ","%char a).
      cbv iota. change (Ascii.eqb "," ",") with true. cbv iota.
      rewrite IHm; [reflexivity | exact Hothers | lia | | exact Hclose].
      eapply depthOK_le; [|exact Hdepth]. lia.
Qed.

Lemma length_newline d : 1 <= String.length (json.newline d).
Proof. unfold json.newline. rewrite length_append. simpl. lia. Qed.

Lemma length_quote s : 2 <= String.length (json.quote s).
Proof. unfold json.quote. simpl. rewrite length_append. simpl. lia. Qed.

(** The fuel a value needs is at most the length of its text. *)
Lemma need_le_length n :
  forall v d, need v <= n -> textual v = true ->
              need v <= String.length (json.indent d v).
Proof.
  induction n as [|n IH]; intros v d Hn Hplain.
  { pose proof (need_pos v). lia. }
  destruct v as [|b|lit|s|[|x l]|[|[k x] l]]; try discriminate Hplain.
  - simpl. lia.
  - change (json.indent d (json.Str s)) with (json.quote s).
    pose proof (length_quote s). simpl. lia.
  - simpl. lia.
  - rewrite indent_Array.
    change (need (json.Array (x :: l))) with (S (needItems (x :: l))) in *.
    change (textual (json.Array (x :: l))) with (forallb textual (x :: l)) in Hplain.
    assert (Hitems : forall l', needItems l' <= n -> forallb textual l' = true ->
              needItems l' <= String.length (itemsText (S d) l')).
    { induction l' as [|y l' IHl]; intros Hl Hp; [simpl; lia|].
      change (needItems (y :: l')) with (S (Nat.max (need y) (needItems l'))) in *.
      simpl in Hp. apply andb_true_iff in Hp as [Hy Hp].
      change (itemsText (S d) (y :: l'))
        with ("," +:+ json.newline (S d) +:+ json.indent (S d) y +:+
              itemsText (S d) l').
      rewrite !length_append. simpl String.length.
      pose proof (IH y (S d) ltac:(lia) Hy).
      pose proof (IHl ltac:(lia) Hp). lia. }
    change (needItems (x :: l)) with (S (Nat.max (need x) (needItems l))) in *.
    simpl in Hplain. apply andb_true_iff in Hplain as [Hx Hl].
    rewrite !length_append. simpl String.length.
    pose proof (IH x (S d) ltac:(lia) Hx).
    pose proof (Hitems l ltac:(lia) Hl).
    pose proof (length_newline (S d)). lia.
  - simpl. lia.
  - rewrite indent_Object.
    change (need (json.Object ((k, x) :: l)))
      with (S (needMembers ((k, x) :: l))) in *.
    change (textual (json.Object ((k, x) :: l)))
      with (forallb (fun kv => textual (snd kv)) ((k, x) :: l)) in Hplain.
    assert (Hmembers : forall l', needMembers l' <= n ->
              forallb (fun kv => textual (snd kv)) l' = true ->
              needMembers l' <= String.length (membersText (S d) l')).
    { induction l' as [|[k' y] l' IHl]; intros Hl Hp; [simpl; lia|].
      change (needMembers ((k', y) :: l'))
        with (S (Nat.max (need y) (needMembers l'))) in *.
      simpl in Hp. apply andb_true_iff in Hp as [Hy Hp].
      change (membersText (S d) ((k', y) :: l'))
        with ("," +:+ json.newline (S d) +:+ json.quote k' +:+ ": " +:+
              json.indent (S d) y +:+ membersText (S d) l').
      rewrite !length_append. simpl String.length.
      pose proof (IH y (S d) ltac:(lia) Hy).
      pose proof (IHl ltac:(lia) Hp). lia. }
    change (needMembers ((k, x) :: l))
      with (S (Nat.max (need x) (needMembers l))) in *.
    simpl in Hplain. apply andb_true_iff in Hplain as [Hx Hl].
    rewrite !length_append. simpl String.length.
    pose proof (IH x (S d) ltac:(lia) Hx).
    pose proof (Hmembers l ltac:(lia) Hl).
    pose proof (length_newline (S d)). lia.
Qed.

(** A document written by [json.indent] parses to the value written, with
    its strings made valid. *)
Lemma parse_indent_sanitized v :
  textual v = true -> depthOK 0 (nest v) ->
  json.parse (json.indent 0 v) = Some (sanitizeValue v).
Proof.
  intros Hplain Hdepth. unfold json.parse.
  destruct (parse_indent (S (String.length (json.indent 0 v)))) as [Hv _].
  specialize (Hv v 0%N 0 "" "" Hplain).
  change ("" +:+ json.indent 0 v +:+ "") with (json.indent 0 v +:+ "") in Hv.
  rewrite append_nil_r in Hv. rewrite Hv; [reflexivity| |exact Hdepth|reflexivity].
  pose proof (need_le_length (need v) v 0 ltac:(lia) Hplain). lia.
Qed.

(** A plain value is textual, and making its strings valid changes
    nothing. *)
Lemma plain_sanitizeValue n :
  forall v, need v <= n -> plain v = true ->
            textual v = true ∧ sanitizeValue v = v.
Proof.
  induction n as [|n IH]; intros v Hn Hplain.
  { pose proof (need_pos v). lia. }
  destruct v as [|b|lit|s|l|l]; try discriminate Hplain.
  - done.
  - simpl in *. by rewrite toValidUTF8_valid.
  - change (need (json.Array l)) with (S (needItems l)) in Hn.
    change (plain (json.Array l)) with (forallb plain l) in Hplain.
    assert (Hl : forallb textual l = true ∧ sanitizeValue <$> l = l).
    { induction l as [|x l IHl]; [done|].
      change (needItems (x :: l)) with (S (Nat.max (need x) (needItems l))) in Hn.
      simpl in Hplain. apply andb_true_iff in Hplain as [Hx Hl].
      destruct (IH x ltac:(lia) Hx) as [Htx Hsx].
      destruct (IHl ltac:(lia) Hl) as [Htl Hsl].
      rewrite fmap_cons, Hsx, Hsl. simpl. by rewrite Htx, Htl. }
    destruct Hl as [Ht Hs]. split; [exact Ht|].
    change (sanitizeValue (json.Array l)) with (json.Array (sanitizeValue <$> l)).
    by rewrite Hs.
  - change (need (json.Object l)) with (S (needMembers l)) in Hn.
    change (plain (json.Object l))
      with (forallb (fun kv => utf8.ValidString (fst kv) && plain (snd kv)) l)
      in Hplain.
    assert (Hl : forallb (fun kv => textual (snd kv)) l = true ∧
                 sanitizeMember <$> l = l).
    { induction l as [|[k x] l IHl]; [done|].
      change (needMembers ((k, x) :: l))
        with (S (Nat.max (need x) (needMembers l))) in Hn.
      simpl in Hplain. apply andb_true_iff in Hplain as [Hx Hl].
      apply andb_true_iff in Hx as [Hk Hx].
      destruct (IH x ltac:(lia) Hx) as [Htx Hsx].
      destruct (IHl ltac:(lia) Hl) as [Htl Hsl].
      rewrite fmap_cons, Hsl. unfold sanitizeMember at 1. simpl.
      by rewrite Htx, Htl, Hsx, toValidUTF8_valid. }
    destruct Hl as [Ht Hs]. split; [exact Ht|].
    change (sanitizeValue (json.Object l)) with (json.Object (sanitizeMember <$> l)).
    by rewrite Hs.
Qed.

(** A document written by [json.indent] parses to the value written. *)
Lemma parse_indent_document v :
  plain v = true -> depthOK 0 (nest v) ->
  json.parse (json.indent 0 v) = Some v.
Proof.
  intros Hplain Hdepth.
  destruct (plain_sanitizeValue (need v) v ltac:(lia) Hplain) as [Ht Hs].
  by rewrite parse_indent_sanitized, Hs.
Qed.

(** ** Encoding and decoding the types of jira_models.go *)

Lemma decodeItems_encoded {A} (zero : A) (dec : A -> json.Value -> result A)
    (enc : A -> json.Value) (l : list A) :
  (forall x, dec zero (enc x) = Ok x) ->
  json.decodeItems zero dec [] (enc <$> l) = Ok l.
Proof.
  intros Hdec. induction l as [|x l IH]; [reflexivity|].
  rewrite fmap_cons. cbn [json.decodeItems hd tl]. by rewrite Hdec, IH.
Qed.

Lemma decodeSlice_encoded {A} (zero : A) (dec : A -> json.Value -> result A)
    (enc : A -> json.Value) (s : slice A) :
  (forall x, dec zero (enc x) = Ok x) ->
  json.decodeSlice zero dec None (json.encodeSlice enc s) = Ok s.
Proof.
  intros Hdec. destruct s as [l|]; [|reflexivity].
  simpl. by rewrite decodeItems_encoded.
Qed.

#[local] Arguments json.decodeSlice : simpl never.
#[local] Arguments json.encodeSlice : simpl never.

Lemma decodeTransition_encoded t :
  json.decodeTransition json.zeroTransition (json.encodeTransition t) = Ok t.
Proof. destruct t. reflexivity. Qed.

Lemma decodeTask_encoded t :
  json.decodeTask json.zeroTask (json.encodeTask t) = Ok t.
Proof.
  destruct t as [key link status desc type project created updated assignee
                 reporter priority transitions].
  unfold json.decodeTask, json.decodeStruct, json.encodeTask.
  cbn [Key Link Status Description Type_ Project Created Updated Assignee
       Reporter Priority Transitions].
  pose proof (decodeSlice_encoded json.zeroTransition json.decodeTransition
                json.encodeTransition transitions decodeTransition_encoded)
    as Htr.
  destruct (String.eqb_spec link "") as [->|Hlink].
  - destruct assignee; simpl; unfold json.taskField; simpl;
      unfold json.with_result; rewrite Htr; reflexivity.
  - destruct assignee; simpl; unfold json.taskField; simpl;
      unfold json.with_result; rewrite Htr; reflexivity.
Qed.

Lemma decodeResponse_encoded r :
  json.decodeStruct json.responseField json.zeroResponse
    (json.encodeResponse r) = Ok r.
Proof.
  destruct r as [tasks]. simpl. unfold json.responseField. simpl.
  unfold json.with_result.
  rewrite (decodeSlice_encoded json.zeroTask json.decodeTask json.encodeTask
             tasks decodeTask_encoded).
  reflexivity.
Qed.

Lemma plain_encodeTransition t :
  validTransition t = true -> plain (json.encodeTransition t) = true.
Proof.
  destruct t as [a b c d e]. unfold validTransition. simpl.
  intros H. repeat (apply andb_true_iff in H as [H ?]).
  repeat (apply andb_true_iff; split); done.
Qed.

Lemma plain_encodeSlice {A} (enc : A -> json.Value) (valid : A -> bool)
    (s : slice A) :
  (forall x, valid x = true -> plain (enc x) = true) ->
  forallb valid (elems s) = true ->
  plain (json.encodeSlice enc s) = true.
Proof.
  intros Henc. destruct s as [l|]; [|reflexivity].
  simpl. induction l as [|x l IH]; [reflexivity|].
  simpl. intros H. apply andb_true_iff in H as [Hx Hl].
  apply andb_true_iff. split; [by apply Henc | by apply IH].
Qed.

Lemma plain_encodeTask t :
  validTask t = true -> plain (json.encodeTask t) = true.
Proof.
  destruct t as [key link status desc type project created updated assignee
                 reporter priority transitions].
  unfold validTask.
  cbn [Key Link Status Description Type_ Project Created Updated Assignee
       Reporter Priority Transitions].
  intros H. repeat (apply andb_true_iff in H as [H ?]).
  pose proof (plain_encodeSlice json.encodeTransition validTransition
                transitions plain_encodeTransition ltac:(assumption)) as Htr.
  unfold json.encodeTask.
  cbn [Key Link Status Description Type_ Project Created Updated Assignee
       Reporter Priority Transitions].
  destruct (String.eqb link ""); destruct assignee; simpl;
    rewrite Htr; repeat (apply andb_true_iff; split); done.
Qed.

Lemma plain_encodeResponse r :
  validResponse r = true -> plain (json.encodeResponse r) = true.
Proof.
  destruct r as [tasks]. unfold validResponse. simpl. intros H.
  rewrite (plain_encodeSlice json.encodeTask validTask tasks plain_encodeTask H).
  reflexivity.
Qed.

Lemma nest_encodeSlice {A} (enc : A -> json.Value) (s : slice A) n :
  (forall x, nest (enc x) <= n) -> nest (json.encodeSlice enc s) <= S n.
Proof.
  intros Henc. destruct s as [l|]; [|simpl; lia].
  change (nest (json.encodeSlice enc (Some l))) with (S (nestItems (enc <$> l))).
  apply le_n_S. induction l as [|x l IH]; [simpl; lia|].
  rewrite fmap_cons.
  change (nestItems (enc x :: (enc <$> l)))
    with (Nat.max (nest (enc x)) (nestItems (enc <$> l))).
  specialize (Henc x). lia.
Qed.

Lemma nest_encodeResponse r : nest (json.encodeResponse r) <= 5.
Proof.
  destruct r as [tasks].
  change (nest (json.encodeResponse {| Tasks := tasks |}))
    with (S (Nat.max (nest (json.encodeSlice json.encodeTask tasks)) 0)).
  assert (Htask : forall t, nest (json.encodeTask t) <= 3).
  { intros t.
    pose proof (nest_encodeSlice json.encodeTransition (Transitions t) 1
                  ltac:(intros x; simpl; lia)) as Htr.
    unfold json.encodeTask. destruct (String.eqb (Link t) "");
      destruct (Assignee t); simpl in *; lia. }
  pose proof (nest_encodeSlice json.encodeTask tasks 3 Htask). lia.
Qed.

(** C8 (as amended).  For every response whose strings are valid UTF-8,
    the document written by [json.MarshalIndent] is decoded by
    [json.Unmarshal] to the same response, field for field: nil and empty
    slices, and a nil assignee and an empty one, stay distinct. *)
Theorem Unmarshal_MarshalIndent (response : TransitionCheckResponse) :
  validResponse response = true ->
  json.Unmarshal (json.MarshalIndent response) = Ok response.
Proof.
  intros Hvalid. unfold json.Unmarshal, json.MarshalIndent.
  rewrite parse_indent_document.
  - apply decodeResponse_encoded.
  - by apply plain_encodeResponse.
  - pose proof (nest_encodeResponse response).
    unfold depthOK, json.maxNestingDepth. lia.
Qed.

Lemma Unmarshal_MarshalIndent_witness :
  validResponse sampleResponse = true ∧
  json.Unmarshal (json.MarshalIndent sampleResponse) = Ok sampleResponse.
Proof.
  split; [vm_compute; reflexivity|].
  apply (Unmarshal_MarshalIndent sampleResponse). vm_compute. reflexivity.
Defined.

(** C8 as stated fails for strings that are not UTF-8: the argument
    [EV-1] followed by the byte 255 passes the default pattern, becomes the
    key of an error task, is written with the byte replaced by the escape of
    U+FFFD, and is read back with three other bytes in its place. *)
Lemma round_trip_changes_invalid_utf8 :
  let jc := {| client := emptyTracker; baseURL := "" |} in
  let response :=
    (FetchJiraDetails (fun _ => "") jc [notUTF8] (initialWorld ∅)).1 in
  allArgsMatchPattern [notUTF8] (compiled defaultPattern) = true ∧
  (exists response',
     json.Unmarshal (json.MarshalIndent response) = Ok response' ∧
     (Key <$> elems (Tasks response)) = [notUTF8] ∧
     (Key <$> elems (Tasks response')) =
       ["EV-1" +:+ String (ascii_of_nat 239)
                     (String (ascii_of_nat 191)
                        (String (ascii_of_nat 189) EmptyString))]) ∧
  json.Unmarshal (json.MarshalIndent response) <> Ok response.
Proof.
  split; [vm_compute; reflexivity|]. split.
  - eexists. split; [vm_compute; reflexivity|]. split; reflexivity.
  - vm_compute. intros H. discriminate H.
Qed.

(** * Further properties of the code *)

(** ** Patterns and the texts they find *)

Ltac io_run :=
  cbn [bind Println Print Eprint ret stdout stderr files fst snd length Nat.eqb].

Lemma bind_run {A B} (m : IO A) (k : A -> IO B) w :
  bind m k w = k (m w).1 (m w).2.
Proof. unfold bind. by destruct (m w). Qed.

Section Matches.

Lemma search_at r s n rest :
  syntax.search r s = Some (n, rest) ->
  exists m, drop_bytes n s = m +:+ rest ∧ syntax.matches r m ∧
            s = take_bytes n s +:+ m +:+ rest.
Proof.
  revert n rest. induction s as [|c s IH]; intros n rest; simpl;
    unfold syntax.match_here.
  - destruct (syntax.backtrack r "" Some) as [y|] eqn:E; [|discriminate].
    intros [= <- <-]. apply backtrack_sound in E as (m & rest' & Hs & Hm & [= ->]).
    exists m. by rewrite <- Hs.
  - destruct (syntax.backtrack r (String c s) Some) as [y|] eqn:E.
    + intros [= <- <-].
      apply backtrack_sound in E as (m & rest' & Hs & Hm & [= ->]).
      exists m. simpl. by rewrite <- Hs.
    + destruct (syntax.search r s) as [[n' rest']|] eqn:Es; [|discriminate].
      intros [= <- <-]. destruct (IH _ _ eq_refl) as (m & Hd & Hm & Hs).
      exists m. simpl. repeat split; [done..|].
      change (String c (take_bytes n' s) +:+ m +:+ rest')
        with (String c (take_bytes n' s +:+ m +:+ rest')).
      by rewrite <- Hs.
Qed.

Lemma take_bytes_append m rest :
  take_bytes (String.length (m +:+ rest) - String.length rest) (m +:+ rest) = m.
Proof.
  rewrite length_append.
  replace (String.length m + String.length rest - String.length rest)
    with (String.length m) by lia.
  induction m as [|c m IH]; simpl.
  - by destruct rest.
  - change (String c m +:+ rest) with (String c (m +:+ rest)). simpl.
    by rewrite IH.
Qed.

Lemma drop_bytes_suffix n s : exists pre, s = pre +:+ drop_bytes n s.
Proof.
  exists (take_bytes n s). by rewrite take_drop_bytes.
Qed.

(** Every text [FindAllString] returns is a match of the pattern, found in
    the input. *)
Lemma allMatches_sound r fuel :
  forall s adjacent x, x ∈ syntax.allMatches fuel r s adjacent ->
    syntax.matches r x ∧ exists pre post, s = pre +:+ x +:+ post.
Proof.
  induction fuel as [|fuel IH]; intros s adjacent x; simpl; [by intros ?%elem_of_nil|].
  destruct (syntax.search r s) as [[start rest]|] eqn:E; [|by intros ?%elem_of_nil].
  apply search_at in E as (m & Hd & Hm & Hs).
  rewrite Hd, take_bytes_append.
  assert (Hfound : syntax.matches r m ∧ exists pre post, s = pre +:+ m +:+ post).
  { split; [done|]. by exists (take_bytes start s), rest. }
  destruct ((start =? 0) && String.eqb m "") eqn:Hempty.
  - assert (Hout : x ∈ (if adjacent then [] else [m]) ->
                   syntax.matches r x ∧ exists pre post, s = pre +:+ x +:+ post).
    { destruct adjacent; [by intros ?%elem_of_nil|].
      by intros ->%list_elem_of_singleton. }
    destruct s as [|c s']; [exact Hout|].
    rewrite elem_of_app. intros [Hx|Hx]; [by apply Hout|].
    apply IH in Hx as [Hmx (pre & post & Hpp)]. split; [done|].
    destruct (drop_bytes_suffix (utf8.RuneWidth (String c s')) (String c s'))
      as [pre0 Hpre0].
    exists (pre0 +:+ pre), post. rewrite Hpre0 at 1. rewrite Hpp.
    by rewrite !append_assoc.
  - rewrite elem_of_cons. intros [->|Hx]; [done|].
    apply IH in Hx as [Hmx (pre & post & Hpp)]. split; [done|].
    exists (take_bytes start s +:+ m +:+ pre), post.
    rewrite Hs at 1. rewrite Hpp. by rewrite !append_assoc.
Qed.

Lemma FindAllString_sound r s x :
  x ∈ syntax.FindAllString r s ->
  syntax.matches r x ∧ exists pre post, s = pre +:+ x +:+ post.
Proof. apply allMatches_sound. Qed.

Lemma matches_MatchString r m :
  syntax.matches r m -> syntax.MatchString r m = true.
Proof.
  intros Hm. apply MatchString_substring. exists "", m, "".
  by rewrite append_nil_r.
Qed.

End Matches.

(** X1.  For a pattern built from character classes, concatenation,
    alternation and repetition, every identifier [extractUniqueJIRAIDs]
    returns passes the test of direct-identifier mode for the same pattern:
    what extraction prints can be given back as arguments. *)
Theorem extracted_identifiers_pass_direct_mode_test
    (ord : RangeOrder) (commitMessages currentJiraID : string)
    (pattern : syntax.Regexp) :
  allArgsMatchPattern
    (extractUniqueJIRAIDs ord commitMessages currentJiraID (compiled pattern))
    (compiled pattern) = true.
Proof.
  apply allArgsMatchPattern_Forall, Forall_forall. intros x Hx.
  apply elem_of_extractUniqueJIRAIDs in Hx as [_ Hx].
  unfold seenIDs in Hx. apply elem_of_app in Hx as [Hx|Hx].
  - destruct (negb _ && MatchString (compiled pattern) currentJiraID) eqn:E;
      [|by apply elem_of_nil in Hx].
    apply list_elem_of_singleton in Hx as ->.
    by apply andb_true_iff in E as [_ E].
  - apply list_elem_of_join in Hx as (l & Hx & Hl).
    apply list_elem_of_fmap in Hl as (line & -> & _).
    apply FindAllString_sound in Hx as [Hm _]. simpl.
    by apply matches_MatchString.
Qed.

(** ** Commit hashes *)

Section Hex.

Lemma in_class_hex c : syntax.in_class c hexClass = isHexByte c.
Proof. by destruct c as [[] [] [] [] [] [] [] []]. Qed.

Lemma matches_star_inv r s :
  syntax.matches (syntax.Star r) s ->
  s = "" ∨ exists s1 s2, s = s1 +:+ s2 ∧ syntax.matches r s1 ∧
                         syntax.matches (syntax.Star r) s2.
Proof.
  inversion 1; subst; [by left|]. right. by eexists _, _.
Qed.

Lemma matches_class_inv ranges s :
  syntax.matches (syntax.CharClass ranges) s ->
  exists c, s = String c "" ∧ syntax.in_class c ranges = true.
Proof. inversion 1; subst. by eexists. Qed.

Lemma matches_concat_inv r1 r2 s :
  syntax.matches (syntax.Concat r1 r2) s ->
  exists s1 s2, s = s1 +:+ s2 ∧ syntax.matches r1 s1 ∧ syntax.matches r2 s2.
Proof. inversion 1; subst. by eexists _, _. Qed.

Lemma allHex_star s :
  allHex s = true ↔ syntax.matches (syntax.Star (syntax.CharClass hexClass)) s.
Proof.
  split.
  - induction s as [|c s IH]; simpl; [constructor|].
    intros [Hc Hs]%andb_true_iff.
    apply (syntax.matches_star_app _ (String c "") s); [|by apply IH].
    constructor. by rewrite in_class_hex.
  - remember (syntax.Star (syntax.CharClass hexClass)) as r eqn:Er.
    induction 1 as [| | | | | |r0 s1 s2 H1 _ H2 IH2]; try discriminate; [done|].
    injection Er as ->.
    apply matches_class_inv in H1 as (c & -> & Hc). simpl.
    rewrite in_class_hex in Hc. rewrite Hc. by apply IH2.
Qed.

End Hex.

(** X2.  [validateCommitHash] accepts exactly the texts that are, as a
    whole, a match of [[a-fA-F0-9]+]: one or more hexadecimal digits and
    nothing else. *)
Theorem validateCommitHash_accepts_hexadecimal (hash : string) :
  validateCommitHash hash = None ↔ syntax.matches hexPattern hash.
Proof.
  unfold validateCommitHash, validHex, hexPattern, syntax.Plus. split.
  - destruct hash as [|c s]; [done|]. simpl.
    destruct (isHexByte c) eqn:Hc; [|done]. simpl.
    destruct (allHex s) eqn:Hs; [|done]. intros _.
    apply (syntax.matches_concat _ _ (String c "") s).
    + constructor. by rewrite in_class_hex.
    + by apply allHex_star.
  - intros (s1 & s2 & -> & H1 & H2)%matches_concat_inv.
    apply matches_class_inv in H1 as (c & -> & Hc).
    rewrite in_class_hex in Hc. apply allHex_star in H2.
    change (String c "" +:+ s2) with (String c s2).
    simpl. by rewrite Hc, H2.
Qed.

Lemma allHex_append a b : allHex (a +:+ b) = allHex a && allHex b.
Proof.
  induction a as [|c a IH]; [done|].
  change (String c a +:+ b) with (String c (a +:+ b)). simpl.
  by rewrite IH, andb_assoc.
Qed.

Lemma defaultPattern_has_dash m :
  syntax.matches defaultPattern m -> exists a b, m = a +:+ "-" +:+ b.
Proof.
  unfold defaultPattern.
  intros (s1 & s2 & -> & _ & H2)%matches_concat_inv.
  apply matches_concat_inv in H2 as (d & s3 & -> & Hd & _).
  apply matches_class_inv in Hd as (c & -> & Hc).
  assert (c = "-"%char) as ->.
  { revert Hc. by destruct c as [[] [] [] [] [] [] [] []]. }
  by exists s1, s3.
Qed.

Lemma hex_is_not_default_match hash :
  validateCommitHash hash = None ->
  syntax.MatchString defaultPattern hash = false.
Proof.
  intros Hhex. apply not_true_iff_false.
  intros (pre & m & post & -> & Hm)%MatchString_substring.
  apply defaultPattern_has_dash in Hm as (a & b & ->).
  unfold validateCommitHash, validHex in Hhex.
  destruct (String.eqb _ ""); [done|]. simpl in Hhex.
  destruct (allHex _) eqn:E; [|done].
  rewrite !allHex_append, !andb_true_iff in E.
  by destruct E as [_ [[_ [? _]] _]].
Qed.

(** X3.  Under the default pattern a well-formed commit hash never passes
    the test of direct-identifier mode, whatever arguments follow it: a
    commit is not taken for a list of identifiers. *)
Theorem commit_hash_never_taken_for_identifier
    (sys : System) (flags : FlagConfig) (config : AppConfig)
    (hash : string) (rest : list string) :
  validateCommitHash hash = None ->
  regexp_Compile sys (JIRAIDRegex config) = Ok (compiled defaultPattern) ->
  isDirectMode sys flags (hash :: rest) config = false.
Proof.
  intros Hhex Hcompile. unfold isDirectMode. rewrite Hcompile. simpl.
  rewrite hex_is_not_default_match by done. simpl.
  by rewrite andb_false_r.
Qed.

Lemma commit_hash_never_taken_for_identifier_witness :
  isDirectMode (sampleSystem (execCommand sampleGit)) noFlags ["abc123"; "EV-1"]
    sampleConfig = false.
Proof.
  apply commit_hash_never_taken_for_identifier; reflexivity.
Defined.

(** ** The repository service *)

Lemma SplitLines_Join s : strings.Join (strings.SplitLines s) nl = s.
Proof.
  induction s as [|c s IH]; [done|]. simpl strings.SplitLines.
  destruct (Ascii.eqb_spec c "010") as [->|Hc].
  - destruct (strings.SplitLines s) as [|h t] eqn:E.
    + by destruct s as [|c' s']; [|simpl in E; destruct (Ascii.eqb c' "010"), (strings.SplitLines s')].
    + change (strings.Join ("" :: h :: t) nl)
        with ("" +:+ nl +:+ strings.Join (h :: t) nl).
      by rewrite IH.
  - destruct (strings.SplitLines s) as [|h t] eqn:E.
    + by destruct s as [|c' s']; [|simpl in E; destruct (Ascii.eqb c' "010"), (strings.SplitLines s')].
    + destruct t as [|h' t]; simpl in *; by rewrite <- IH.
Qed.

Lemma Join_substring l sep line :
  line ∈ l -> exists pre post, strings.Join l sep = pre +:+ line +:+ post.
Proof.
  induction l as [|x l IH]; [by intros ?%elem_of_nil|].
  intros [->|Hin]%elem_of_cons.
  - destruct l as [|y l].
    + exists "", "". simpl. by rewrite append_nil_r.
    + by exists "", (sep +:+ strings.Join (y :: l) sep).
  - destruct (IH Hin) as (pre & post & Heq).
    destruct l as [|y l]; [by apply elem_of_nil in Hin|].
    exists (x +:+ sep +:+ pre), post.
    change (strings.Join (x :: y :: l) sep)
      with (x +:+ sep +:+ strings.Join (y :: l) sep).
    by rewrite Heq, !append_assoc.
Qed.

Lemma SplitLines_substring s line :
  line ∈ strings.SplitLines s -> exists pre post, s = pre +:+ line +:+ post.
Proof.
  intros Hin. destruct (Join_substring _ nl _ Hin) as (pre & post & Heq).
  rewrite SplitLines_Join in Heq. by exists pre, post.
Qed.

(** X4.  When the default pattern compiles to [[A-Z]+-[0-9]+], the
    identifier [GetBranchInfo] returns is either empty or a match of that
    pattern that occurs in the output of the log command. *)
Theorem GetBranchInfo_seed_is_a_default_identifier
    (regexp_Compile : string -> result Regexp) (g : GitService)
    (branchName commitHash jiraID : string) :
  regexp_Compile DefaultJIRAIDRegex = Ok (compiled defaultPattern) ->
  GetBranchInfo regexp_Compile g = Ok (branchName, commitHash, jiraID) ->
  jiraID = "" ∨
  (syntax.matches defaultPattern jiraID ∧
   exists commitOutput pre post,
     execCommand g ["log"; "-1"; "--format=%H%n%s"] = Ok commitOutput ∧
     commitOutput = pre +:+ jiraID +:+ post).
Proof.
  intros Hcompile. unfold GetBranchInfo, extractFirstJIRAID.
  destruct (execCommand g ["branch"; "--show-current"]); [|done].
  destruct (execCommand g ["log"; "-1"; "--format=%H%n%s"]) as [out|]; [|done].
  destruct (strings.SplitLines out) as [|hash [|subject lines]] eqn:Hlines;
    [done..|].
  rewrite Hcompile. cbn [FindAllString compiled].
  destruct (syntax.FindAllString defaultPattern subject) as [|m ms] eqn:Hfind.
  { intros [= _ _ <-]. by left. }
  intros [= _ _ <-]. right.
  destruct (FindAllString_sound defaultPattern subject m) as [Hm (p1 & p2 & Hs)].
  { rewrite Hfind. by left. }
  split; [done|].
  destruct (SplitLines_substring out subject) as (q1 & q2 & Hout).
  { rewrite Hlines. right. by left. }
  exists out, (q1 +:+ p1), (p2 +:+ q2). split; [done|].
  by rewrite Hout, Hs, !append_assoc.
Qed.

Lemma GetBranchInfo_seed_is_a_default_identifier_witness :
  "EV-9" = "" ∨
  (syntax.matches defaultPattern "EV-9" ∧
   exists commitOutput pre post,
     execCommand sampleGit ["log"; "-1"; "--format=%H%n%s"] = Ok commitOutput ∧
     commitOutput = pre +:+ "EV-9" +:+ post).
Proof.
  apply (GetBranchInfo_seed_is_a_default_identifier sampleCompile sampleGit
           "main" "f00d" "EV-9"); reflexivity.
Defined.

Lemma byteAt_append_l s t i :
  i < String.length s -> byteAt (s +:+ t) i = byteAt s i.
Proof.
  revert i. induction s as [|c s IH]; intros i Hi; simpl in Hi; [lia|].
  change (String c s +:+ t) with (String c (s +:+ t)).
  destruct i as [|i]; [done|]. unfold byteAt in *. simpl.
  apply IH. lia.
Qed.

Lemma byteAt_append_r s t i :
  byteAt (s +:+ t) (String.length s + i) = byteAt t i.
Proof.
  induction s as [|c s IH]; [done|].
  change (String c s +:+ t) with (String c (s +:+ t)).
  unfold byteAt in *. simpl. apply IH.
Qed.

Lemma take_bytes_exact s t : take_bytes (String.length s) (s +:+ t) = s.
Proof.
  induction s as [|c s IH]; [by destruct t|].
  change (String c s +:+ t) with (String c (s +:+ t)). simpl. by rewrite IH.
Qed.

Lemma blank_byteAt t i :
  blank t = true -> i < String.length t ->
  (128 <=? N_of_ascii (byteAt t i))%N = false ∧ asciiSpace (byteAt t i) = true.
Proof.
  revert i. induction t as [|c t IH]; intros i Ht Hi; simpl in Hi; [lia|].
  simpl in Ht. apply andb_true_iff in Ht as [Hc Ht].
  destruct i as [|i].
  - unfold byteAt. simpl. split; [|done].
    revert Hc. by destruct c as [[] [] [] [] [] [] [] []].
  - unfold byteAt in *. simpl. apply IH; [done | lia].
Qed.

Lemma isHexByte_not_space c :
  isHexByte c = true ->
  (128 <=? N_of_ascii c)%N = false ∧ asciiSpace c = false ∧
  Ascii.eqb c "010" = false.
Proof. by destruct c as [[] [] [] [] [] [] [] []]. Qed.

Lemma allHex_byteAt s i :
  allHex s = true -> i < String.length s -> isHexByte (byteAt s i) = true.
Proof.
  revert i. induction s as [|c s IH]; intros i Hs Hi; simpl in Hi; [lia|].
  simpl in Hs. apply andb_true_iff in Hs as [Hc Hs].
  destruct i as [|i]; [done|]. unfold byteAt in *. simpl. apply IH; [done|lia].
Qed.

Lemma trimSpaceRight_blank s t k :
  blank t = true -> k <= String.length t ->
  trimSpaceRight (s +:+ t) (String.length s + k) =
  trimSpaceRight (s +:+ t) (String.length s).
Proof.
  intros Ht. induction k as [|k IH]; intros Hk.
  - by rewrite Nat.add_0_r.
  - rewrite Nat.add_succ_r. simpl. rewrite byteAt_append_r.
    destruct (blank_byteAt t k Ht ltac:(lia)) as [-> ->].
    apply IH. lia.
Qed.

Lemma trimSpaceRight_hex u t :
  allHex u = true -> u <> "" -> blank t = true ->
  trimSpaceRight (u +:+ t) (String.length (u +:+ t)) = u.
Proof.
  intros Hu Hne Ht. rewrite length_append, trimSpaceRight_blank by done.
  destruct (String.length u) as [|n] eqn:Hn; [by destruct u|].
  cbn [trimSpaceRight]. rewrite byteAt_append_l by lia.
  assert (Hlast : isHexByte (byteAt u n) = true)
    by (apply allHex_byteAt; [done | lia]).
  destruct (isHexByte_not_space _ Hlast) as (-> & -> & _).
  rewrite <- Hn. apply take_bytes_exact.
Qed.

Lemma TrimSpace_hex s t :
  validateCommitHash s = None -> blank t = true -> TrimSpace (s +:+ t) = s.
Proof.
  unfold validateCommitHash, validHex. intros Hs Ht.
  destruct s as [|c s]; [done|]. simpl in Hs.
  destruct (isHexByte c) eqn:Hc; [|done].
  destruct (allHex s) eqn:Hall; [|done].
  change (String c s +:+ t) with (String c (s +:+ t)). cbn [TrimSpace].
  destruct (isHexByte_not_space c Hc) as (-> & -> & _).
  change (String c (s +:+ t)) with (String c s +:+ t).
  apply trimSpaceRight_hex; [|done..]. simpl. by rewrite Hc, Hall.
Qed.

Lemma blank_append a b : blank (a +:+ b) = blank a && blank b.
Proof.
  induction a as [|c a IH]; [done|].
  change (String c a +:+ b) with (String c (a +:+ b)). simpl.
  by rewrite IH, andb_assoc.
Qed.

Lemma SplitLines_hex s :
  allHex s = true -> strings.SplitLines s = [s].
Proof.
  induction s as [|c s IH]; [done|]. simpl.
  intros [Hc Hs]%andb_true_iff.
  destruct (isHexByte_not_space c Hc) as (_ & _ & ->).
  by rewrite IH.
Qed.

(** X5.  The output of the git binary is trimmed before it is split into
    lines, so when the latest commit has an empty subject, or one of white
    space only, the log output is left with the hash alone and
    [GetBranchInfo] fails with [unexpected output format]. *)
Theorem blank_subject_is_unexpected_output
    (regexp_Compile : string -> result Regexp)
    (exec_Output : list string -> result string)
    (branchName commitHash subject : string) :
  exec_Output ["branch"; "--show-current"] = Ok branchName ->
  exec_Output ["log"; "-1"; "--format=%H%n%s"] =
    Ok (commitHash +:+ nl +:+ subject +:+ nl) ->
  validateCommitHash commitHash = None ->
  blank subject = true ->
  GetBranchInfo regexp_Compile (NewGitService (runGitCommand exec_Output)) =
    Err (GitError "log -1" (errorString "unexpected output format")).
Proof.
  intros Hbranch Hlog Hhash Hsubject.
  unfold GetBranchInfo, NewGitService, runGitCommand. cbn [execCommand].
  rewrite Hbranch, Hlog.
  rewrite TrimSpace_hex; [|done|].
  2:{ by rewrite !blank_append, Hsubject. }
  rewrite SplitLines_hex; [done|].
  unfold validateCommitHash, validHex in Hhash.
  destruct (String.eqb commitHash ""); [done|]. simpl in Hhash.
  by destruct (allHex commitHash).
Qed.

Lemma blank_subject_is_unexpected_output_witness :
  GetBranchInfo sampleCompile (NewGitService (runGitCommand blankSubjectRepository)) =
    Err (GitError "log -1" (errorString "unexpected output format")).
Proof.
  apply (blank_subject_is_unexpected_output sampleCompile blankSubjectRepository
           ("main" +:+ nl) "f00d" ""); reflexivity.
Defined.

(** X6.  [ExtractJiraIDs] writes nothing to standard output and to files;
    it writes to standard error exactly when it succeeds with an empty
    result, and then the one warning that names the commit or the range. *)
Theorem ExtractJiraIDs_warns_exactly_when_empty
    (regexp_Compile : string -> result Regexp) (ord : RangeOrder)
    (g : GitService) (startCommit jiraIDRegex currentJiraID : string)
    (singleCommit : bool) (w : World) :
  let (outcome, w') :=
    ExtractJiraIDs regexp_Compile ord g startCommit jiraIDRegex currentJiraID
      singleCommit w in
  stdout w' = stdout w ∧ files w' = files w ∧
  stderr w' = stderr w +:+
    match outcome with
    | Ok [] => emptyWarning startCommit singleCommit
    | _ => ""
    end.
Proof.
  destruct w as [out err fs]. unfold ExtractJiraIDs.
  destruct (ValidateCommit g startCommit).
  { io_run. by rewrite append_nil_r. }
  destruct (if singleCommit then _ else _).
  2:{ io_run. by rewrite append_nil_r. }
  destruct (regexp_Compile jiraIDRegex) as [regex|].
  2:{ io_run. by rewrite append_nil_r. }
  destruct (extractUniqueJIRAIDs ord a _ regex) as [|x l];
    cbn [length Nat.eqb].
  - unfold emptyWarning. destruct singleCommit; io_run; done.
  - io_run. by rewrite append_nil_r.
Qed.


(** ** The tracker client, continued *)

Lemma extractTransitions_fold jc issue :
  extractTransitions jc issue =
    match statusChanges issue with
    | [] => None
    | l => Some l
    end.
Proof.
  unfold extractTransitions, statusChanges.
  destruct (jira.IssueChangelog issue) as [changelog|]; [|done].
  set (step := fun (transitions : slice Transition) history => foldl _ transitions (jira.Items history)).
  assert (Hitems : forall history items (acc : slice Transition),
    foldl (fun transitions item =>
             if String.eqb (jira.Field item) "status" then
               append transitions
                 {| FromStatus := jira.FromString item;
                    ToStatus := jira.ToString item;
                    Author := jira.DisplayName (jira.HistoryAuthor history);
                    AuthorEmail := jira.EmailAddress (jira.HistoryAuthor history);
                    TransitionTime := jira.HistoryCreated history |}
             else transitions) acc items =
    match statusChange history <$> filter (fun item => jira.Field item = "status") items with
    | [] => acc
    | l => Some (elems acc ++ l)
    end).
  { intros history items. induction items as [|item items IH]; intros acc; simpl.
    - done.
    - rewrite IH. rewrite filter_cons.
      destruct (String.eqb_spec (jira.Field item) "status") as [E|E].
      + rewrite decide_True by done. rewrite fmap_cons.
        unfold append at 1. simpl.
        destruct (statusChange history <$> filter _ items) as [|x l]; simpl.
        * done.
        * by rewrite <- app_assoc.
      + rewrite decide_False by done. done. }
  assert (Hall : forall histories (acc : slice Transition),
    foldl step acc histories =
    match (history ← histories;
           statusChange history <$>
             filter (fun item => jira.Field item = "status") (jira.Items history)) with
    | [] => acc
    | l => Some (elems acc ++ l)
    end).
  { induction histories as [|history histories IH]; intros acc; simpl.
    - done.
    - rewrite IH.
      assert (Hstep := Hitems history (jira.Items history) acc).
      fold (step acc history) in Hstep. rewrite Hstep. clear Hstep.
      change (mbind ?f histories) with (list_bind _ _ f histories).
      destruct (statusChange history <$> filter _ (jira.Items history)) as [|x l];
        simpl; [done|].
      destruct (list_bind _ _ _ histories) as [|y l']; simpl;
        [by rewrite app_nil_r|].
      by rewrite <- app_assoc. }
  destruct (jira.Histories changelog) as [|h hs] eqn:Eh; [done|].
  fold step. rewrite Hall. simpl elems.
  by destruct (mbind _ (h :: hs)).
Qed.

(** X7.  [extractTransitions] returns the status changes of the issue in
    changelog order, one per changelog item whose field is ["status"]; the
    slice is nil exactly when there is none, also when the changelog has
    histories. *)
Theorem extractTransitions_status_changes jc issue :
  elems (extractTransitions jc issue) = statusChanges issue ∧
  (extractTransitions jc issue = None ↔ statusChanges issue = []).
Proof.
  rewrite extractTransitions_fold.
  destruct (statusChanges issue); simpl; split; try done.
Qed.

Section ClientOutput.

Variable Sprint : jira.any -> string.

Lemma fetchSingleJiraDetail_world jc jiraID w :
  (fetchSingleJiraDetail Sprint jc jiraID w).2 =
  {| stdout := stdout w;
     stderr := stderr w +:+ fetchDiagnostic jc jiraID;
     files := files w |}.
Proof.
  unfold fetchSingleJiraDetail, fetchDiagnostic.
  destruct w as [out err fs].
  destruct (jira.IssueGet (client jc) jiraID) as [[issue|] [e|]]; simpl;
    rewrite ?append_nil_r; try reflexivity.
  destruct (jira.Fields issue); simpl; by rewrite ?append_nil_r.
Qed.

Lemma fetchLoop_world jc jiraIDs tasks w :
  (fetchLoop Sprint jc jiraIDs tasks w).2 =
  {| stdout := stdout w;
     stderr := stderr w +:+ writeAll (fetchDiagnostic jc <$> jiraIDs);
     files := files w |}.
Proof.
  revert tasks w. induction jiraIDs as [|jiraID rest IH]; intros tasks w.
  - simpl. rewrite append_nil_r. by destruct w.
  - simpl. unfold bind.
    rewrite (surjective_pairing (fetchSingleJiraDetail Sprint jc jiraID w)).
    rewrite IH, fetchSingleJiraDetail_world. simpl.
    by rewrite append_assoc.
Qed.

(** X8.  [FetchJiraDetails] writes nothing to standard output and to
    files; to standard error it writes one line per identifier for which
    the tracker returned an error, in the order of the identifiers. *)
Theorem FetchJiraDetails_writes_only_diagnostics jc jiraIDs w :
  (FetchJiraDetails Sprint jc jiraIDs w).2 =
  {| stdout := stdout w;
     stderr := stderr w +:+ writeAll (fetchDiagnostic jc <$> jiraIDs);
     files := files w |}.
Proof.
  unfold FetchJiraDetails, bind.
  rewrite (surjective_pairing (fetchLoop Sprint jc jiraIDs [] w)).
  simpl. apply fetchLoop_world.
Qed.

Lemma FetchJiraDetails_value jc jiraIDs w w0 :
  (FetchJiraDetails Sprint jc jiraIDs w).1 =
  {| Tasks := Some ((fun jiraID => (fetchSingleJiraDetail Sprint jc jiraID w0).1)
                      <$> jiraIDs) |}.
Proof.
  unfold FetchJiraDetails, bind.
  rewrite (surjective_pairing (fetchLoop Sprint jc jiraIDs [] w)).
  simpl. rewrite fetchLoop_tasks. simpl. do 2 f_equal.
  apply list_fmap_ext. intros _ x _. apply fetchSingleJiraDetail_value.
Qed.

Lemma files_FetchJiraDetails jc jiraIDs w :
  files (FetchJiraDetails Sprint jc jiraIDs w).2 = files w.
Proof.
  unfold FetchJiraDetails, bind.
  rewrite (surjective_pairing (fetchLoop Sprint jc jiraIDs [] w)).
  simpl. by rewrite fetchLoop_world.
Qed.

Lemma extractText_paragraph (texts : list string) :
  extractTextFromADFNode (paragraphNode (textNode <$> texts)) = writeAll texts.
Proof.
  unfold paragraphNode. simpl.
  induction texts as [|text texts IH]; [done|].
  rewrite fmap_cons. simpl in *. by rewrite IH.
Qed.

Lemma foldl_append_texts (nodes : list jira.any) (acc : string) :
  foldl (fun acc item => acc +:+ extractTextFromADFNode item) acc nodes =
  acc +:+ writeAll (extractTextFromADFNode <$> nodes).
Proof.
  revert acc. induction nodes as [|node nodes IH]; intros acc; simpl.
  - by rewrite append_nil_r.
  - by rewrite IH, append_assoc.
Qed.

(** X9.  For a document made of paragraphs of text nodes,
    [getDescription] returns the texts joined in document order, with
    nothing between them; when that is empty it returns the generic
    rendering of the document. *)
Theorem getDescription_concatenates_the_text_nodes
    (paragraphs : list (list string)) :
  let text := writeAll (writeAll <$> paragraphs) in
  getDescription Sprint
    (documentNode ((fun texts => paragraphNode (textNode <$> texts))
                     <$> paragraphs)) =
  if String.eqb text ""
  then Sprint (documentNode ((fun texts => paragraphNode (textNode <$> texts))
                               <$> paragraphs))
  else text.
Proof.
  cbv zeta. unfold getDescription, documentNode. simpl mapIndex. cbv iota.
  rewrite foldl_append_texts.
  change ("" +:+ ?x) with x.
  rewrite <- list_fmap_compose.
  rewrite (list_fmap_ext _ writeAll paragraphs)
    by (intros; apply extractText_paragraph).
  destruct (writeAll (writeAll <$> paragraphs)) as [|c s]; reflexivity.
Qed.

End ClientOutput.

(** X10.  With a client built by [NewJiraClient], a fetched issue gets the
    link [JIRA_URL/browse/KEY] and the key the tracker returned; a failed
    fetch gets the requested identifier as its key and no link. *)
Theorem fetched_tasks_link_to_the_tracker
    (sys : System) (jc : JiraClient) (jiraID : string) (w : World) :
  NewJiraClient sys = Ok jc ->
  let task := (fetchSingleJiraDetail (Sprint sys) jc jiraID w).1 in
  match jira.IssueGet (client jc) jiraID with
  | (Some issue, None) =>
      match jira.Fields issue with
      | Some _ =>
          Key task = jira.IssueKey issue ∧
          Link task = Getenv sys "JIRA_URL" +:+ "/browse/" +:+ jira.IssueKey issue
      | None => Key task = jiraID ∧ Link task = ""
      end
  | _ => Key task = jiraID ∧ Link task = ""
  end.
Proof.
  unfold NewJiraClient.
  destruct (String.eqb (Getenv sys "JIRA_API_TOKEN") ""); [done|].
  destruct (String.eqb (Getenv sys "JIRA_URL") "") eqn:Hurl; [done|].
  destruct (String.eqb (Getenv sys "JIRA_USERNAME") ""); [done|].
  destruct (jira_NewClient sys _ _ _) as [c|]; [|done].
  intros [= <-]. cbv zeta. unfold fetchSingleJiraDetail.
  set (jc := {| client := c; baseURL := Getenv sys "JIRA_URL" |}).
  destruct (jira.IssueGet (client jc) jiraID) as [[issue|] [e|]];
    rewrite ?createErrorResult_value; try done.
  destruct (jira.Fields issue) as [fields|];
    rewrite ?createErrorResult_value; [|done].
  simpl. by rewrite Hurl.
Qed.

Lemma fetched_tasks_link_to_the_tracker_witness :
  let jc := {| client := sampleTracker;
               baseURL := "https://example.atlassian.net" |} in
  let task := (fetchSingleJiraDetail (Sprint trackerSystem) jc "EV-1"
                 (initialWorld ∅)).1 in
  Key task = "EV-1" ∧
  Link task = "https://example.atlassian.net" +:+ "/browse/" +:+ "EV-1".
Proof.
  apply (fetched_tasks_link_to_the_tracker trackerSystem
           {| client := sampleTracker;
              baseURL := "https://example.atlassian.net" |}
           "EV-1" (initialWorld ∅)).
  reflexivity.
Defined.

(** ** Configuration *)

(** X11.  [getOrDefault] returns the first of its arguments that is not
    empty; it returns the empty text only when all of them are empty. *)
Theorem getOrDefault_first_non_empty (values : list string) :
  (getOrDefault values = "" ∧ Forall (fun v => v = "") values) ∨
  (getOrDefault values <> "" ∧
   exists before after,
     values = before ++ getOrDefault values :: after ∧
     Forall (fun v => v = "") before).
Proof.
  induction values as [|v rest IH]; simpl.
  - left. by split.
  - destruct (String.eqb_spec v "") as [->|Hne]; simpl.
    + destruct IH as [[-> Hall]|[Hne (before & after & Heq & Hall)]].
      * left. split; [done|]. by constructor.
      * right. split; [done|]. exists ("" :: before), after.
        split; [by rewrite Heq at 1 | by constructor].
    + right. split; [done|]. by exists [], rest.
Qed.

Lemma LoadConfig_fields sys flags args config :
  LoadConfig sys flags args = Ok config ->
  JIRAIDRegex config =
    getOrDefault [FlagJIRAIDRegex flags; Getenv sys "JIRA_ID_REGEX";
                  DefaultJIRAIDRegex] ∧
  OutputFile config =
    getOrDefault [FlagOutputFile flags; Getenv sys "OUTPUT_FILE";
                  DefaultOutputFile] ∧
  ExtractOnly config = FlagExtractOnly flags ∧
  ExtractFromGit config = FlagExtractFromGit flags ∧
  SingleCommit config = negb (CommitRange flags).
Proof.
  unfold LoadConfig. cbn [ExtractOnly ExtractFromGit].
  destruct (negb _ && negb _ && negb _).
  - destruct (validateJIRAConfig _); [done|]. by intros [= <-].
  - by intros [= <-].
Qed.

Lemma LoadConfig_without_tracker sys flags args :
  FlagExtractOnly flags || FlagExtractFromGit flags || GenerateMarkdown flags = true ->
  exists config, LoadConfig sys flags args = Ok config.
Proof.
  intros H. unfold LoadConfig. cbn [ExtractOnly ExtractFromGit].
  destruct (FlagExtractOnly flags), (FlagExtractFromGit flags),
    (GenerateMarkdown flags); try done; by eexists.
Qed.

Lemma LoadConfig_missing sys flags args field :
  FlagExtractOnly flags = false ->
  FlagExtractFromGit flags = false ->
  GenerateMarkdown flags = false ->
  missingCredential sys = Some field ->
  LoadConfig sys flags args =
    Err (ValidationError field "" (errorString "environment variable is required")).
Proof.
  intros Honly Hlegacy Hmd. unfold LoadConfig, missingCredential, validateJIRAConfig.
  cbn [ExtractOnly ExtractFromGit JIRAToken JIRAURL JIRAUsername].
  rewrite Honly, Hlegacy, Hmd. simpl.
  destruct (String.eqb (Getenv sys "JIRA_API_TOKEN") ""); [by intros [= <-]|].
  destruct (String.eqb (Getenv sys "JIRA_URL") ""); [by intros [= <-]|].
  destruct (String.eqb (Getenv sys "JIRA_USERNAME") ""); [by intros [= <-]|].
  done.
Qed.

(** X12.  [LoadConfig] succeeds exactly when the run does not fetch from
    the tracker (extract-only, legacy extraction or markdown generation) or
    all three credentials are set in the environment. *)
Theorem LoadConfig_needs_credentials_only_to_fetch
    (sys : System) (flags : FlagConfig) (args : list string) :
  (exists config, LoadConfig sys flags args = Ok config) ↔
  FlagExtractOnly flags = true ∨ FlagExtractFromGit flags = true ∨
  GenerateMarkdown flags = true ∨
  (Getenv sys "JIRA_API_TOKEN" <> "" ∧ Getenv sys "JIRA_URL" <> "" ∧
   Getenv sys "JIRA_USERNAME" <> "").
Proof.
  unfold LoadConfig, validateJIRAConfig.
  cbn [ExtractOnly ExtractFromGit JIRAToken JIRAURL JIRAUsername].
  destruct (FlagExtractOnly flags), (FlagExtractFromGit flags),
    (GenerateMarkdown flags); simpl;
    try (split; [intros _; auto | intros _; by eexists]).
  destruct (String.eqb_spec (Getenv sys "JIRA_API_TOKEN") "") as [->|Htoken].
  { split; [by intros [? ?] | intros [?|[?|[?|[? _]]]]; done]. }
  destruct (String.eqb_spec (Getenv sys "JIRA_URL") "") as [->|Hurl].
  { split; [by intros [? ?] | intros [?|[?|[?|[_ [? _]]]]]; done]. }
  destruct (String.eqb_spec (Getenv sys "JIRA_USERNAME") "") as [->|Huser].
  { split; [by intros [? ?] | intros [?|[?|[?|[_ [_ ?]]]]]; done]. }
  split; [intros _; by repeat right | intros _; by eexists].
Qed.

(** X13.  Once [LoadConfig] has succeeded for a run that fetches from the
    tracker, [NewJiraClient] cannot fail on a missing credential: it builds
    the client from the three values of the configuration and fails only
    if the tracker library does. *)
Theorem NewJiraClient_after_LoadConfig
    (sys : System) (flags : FlagConfig) (args : list string)
    (config : AppConfig) :
  FlagExtractOnly flags = false ->
  FlagExtractFromGit flags = false ->
  GenerateMarkdown flags = false ->
  LoadConfig sys flags args = Ok config ->
  NewJiraClient sys =
    match jira_NewClient sys (JIRAURL config) (JIRAUsername config)
            (JIRAToken config) with
    | Ok c => Ok {| client := c; baseURL := JIRAURL config |}
    | Err e => Err (errorString ("failed to create JIRA client: " +:+ Error e))
    end.
Proof.
  intros Honly Hlegacy Hmd. unfold LoadConfig, validateJIRAConfig, NewJiraClient.
  cbn [ExtractOnly ExtractFromGit JIRAToken JIRAURL JIRAUsername].
  rewrite Honly, Hlegacy, Hmd. simpl.
  destruct (String.eqb (Getenv sys "JIRA_API_TOKEN") ""); [done|].
  destruct (String.eqb (Getenv sys "JIRA_URL") ""); [done|].
  destruct (String.eqb (Getenv sys "JIRA_USERNAME") ""); [done|].
  intros [= <-]. simpl.
  by destruct (jira_NewClient sys _ _ _).
Qed.

Lemma NewJiraClient_after_LoadConfig_witness :
  NewJiraClient trackerSystem =
    Ok {| client := sampleTracker; baseURL := "https://example.atlassian.net" |}.
Proof.
  apply (NewJiraClient_after_LoadConfig trackerSystem noFlags ["EV-1"]
           sampleConfig); reflexivity.
Defined.

(** ** What a run writes *)

Create HintDb keeps.

Section Frame.

Context {paths : list string}.

Lemma keeps_ret {A} (a : A) : keeps paths (ret a).
Proof. by intros w p _. Qed.

Lemma keeps_bind {A B} (m : IO A) (k : A -> IO B) :
  keeps paths m -> (forall a, keeps paths (k a)) -> keeps paths (bind m k).
Proof.
  intros Hm Hk w p Hp. unfold bind.
  specialize (Hm w p Hp). destruct (m w) as [a w1]. simpl in Hm.
  by rewrite Hk.
Qed.

Lemma keeps_Print text : keeps paths (Print text).
Proof. by intros w p _. Qed.

Lemma keeps_Eprint text : keeps paths (Eprint text).
Proof. by intros w p _. Qed.

Lemma keeps_Println text : keeps paths (Println text).
Proof. by intros w p _. Qed.

Lemma keeps_DisplayUsage : keeps paths DisplayUsage.
Proof.
  unfold DisplayUsage. induction usageLines as [|line rest IH]; simpl.
  - apply keeps_ret.
  - apply keeps_bind; [apply keeps_Println | by intros _].
Qed.

Lemma keeps_createErrorResult jc jiraID err :
  keeps paths (createErrorResult jc jiraID err).
Proof.
  unfold createErrorResult. apply keeps_bind; [|intros; apply keeps_ret].
  destruct err; [|apply keeps_ret].
  apply keeps_bind; [apply keeps_Eprint | intros; apply keeps_ret].
Qed.

Lemma keeps_FetchJiraDetails Sprint jc jiraIDs :
  keeps paths (FetchJiraDetails Sprint jc jiraIDs).
Proof.
  unfold FetchJiraDetails. apply keeps_bind; [|intros; apply keeps_ret].
  generalize (@nil JiraTransitionResult).
  induction jiraIDs as [|jiraID rest IH]; intros tasks; simpl.
  - apply keeps_ret.
  - apply keeps_bind; [|intros; apply IH].
    unfold fetchSingleJiraDetail.
    destruct (jira.IssueGet (client jc) jiraID) as [[issue|] [e|]];
      try apply keeps_createErrorResult.
    destruct (jira.Fields issue);
      [apply keeps_ret | apply keeps_createErrorResult].
Qed.

Lemma keeps_ExtractJiraIDs compile ord g startCommit jiraIDRegex seed single :
  keeps paths (ExtractJiraIDs compile ord g startCommit jiraIDRegex seed single).
Proof.
  unfold ExtractJiraIDs.
  destruct (ValidateCommit g startCommit); [apply keeps_ret|].
  destruct (if single then _ else _); [|apply keeps_ret].
  destruct (compile jiraIDRegex); [|apply keeps_ret].
  apply keeps_bind; [|intros; apply keeps_ret].
  destruct (_ =? 0); [|apply keeps_ret].
  destruct single; apply keeps_Eprint.
Qed.

End Frame.

#[local] Hint Resolve keeps_ret keeps_Print keeps_Eprint keeps_Println
  keeps_DisplayUsage keeps_FetchJiraDetails keeps_ExtractJiraIDs : keeps.

Ltac keeps_step :=
  match goal with
  | |- keeps _ (bind _ _) => apply keeps_bind; [|intros ?]
  | |- keeps _ (match ?x with _ => _ end) => destruct x eqn:?
  | |- keeps _ (if ?x then _ else _) => destruct x eqn:?
  | |- keeps _ _ => solve [auto with keeps]
  end.

Section FrameModes.

Variable sys : System.

Lemma keeps_WriteFile paths name data :
  name ∈ paths -> keeps paths (WriteFile sys name data).
Proof.
  intros Hin w p Hp. unfold WriteFile.
  assert (Hne : name <> p) by (by intros ->).
  destruct (os_WriteFile sys name); [destruct (os_WriteFile_partial sys name)|];
    simpl; by rewrite ?lookup_insert_ne.
Qed.

Lemma keeps_writeToFile paths filename data :
  filename ∈ paths -> keeps paths (writeToFile sys filename data).
Proof.
  intros Hin. unfold writeToFile.
  destruct (if negb _ then _ else _); [apply keeps_ret|].
  by apply keeps_WriteFile.
Qed.

Lemma keeps_saveJiraResults paths response config :
  OutputFile config ∈ paths -> keeps paths (saveJiraResults sys response config).
Proof.
  intros Hin. unfold saveJiraResults.
  apply keeps_bind; [by apply keeps_writeToFile|].
  intros [e|]; repeat keeps_step.
Qed.

Lemma keeps_GenerateMarkdownFromJSON paths inputFile outputFile :
  outputFile ∈ paths ->
  keeps paths (GenerateMarkdownFromJSON sys inputFile outputFile).
Proof.
  intros Hin. unfold GenerateMarkdownFromJSON.
  apply keeps_bind.
  { intros w p _. unfold ReadFile. by destruct (files w !! inputFile). }
  intros [data|e]; [|apply keeps_ret].
  destruct (json.Unmarshal data); [|apply keeps_ret].
  apply keeps_bind; [by apply keeps_WriteFile|].
  intros [e|]; repeat keeps_step.
Qed.

Lemma keeps_runExtractOnlyMode paths config :
  keeps paths (runExtractOnlyMode sys config).
Proof. unfold runExtractOnlyMode. repeat keeps_step. Qed.

Lemma keeps_runLegacyExtractFromGit paths args :
  keeps paths (runLegacyExtractFromGit sys args).
Proof. unfold runLegacyExtractFromGit. repeat keeps_step. Qed.

Lemma keeps_processDirectJiraIDs paths config :
  OutputFile config ∈ paths -> keeps paths (processDirectJiraIDs sys config).
Proof.
  intros Hin. unfold processDirectJiraIDs.
  repeat keeps_step. by apply keeps_saveJiraResults.
Qed.

Lemma keeps_runFullMode paths config :
  OutputFile config ∈ paths -> keeps paths (runFullMode sys config).
Proof.
  intros Hin. unfold runFullMode.
  repeat first [keeps_step | by apply keeps_saveJiraResults].
Qed.

Lemma keeps_runMarkdownMode paths flags :
  getOrDefault [MarkdownOutput flags; "transformed_jira_data.md"] ∈ paths ->
  keeps paths (runMarkdownMode sys flags).
Proof.
  intros Hin. unfold runMarkdownMode.
  repeat first [keeps_step | by apply keeps_GenerateMarkdownFromJSON].
Qed.

End FrameModes.

(** X14.  Whatever the flags, the arguments and the environment, [main]
    changes no file other than the one output file of its mode: the JSON
    file when it fetches, the markdown file in markdown mode, none with the
    help, extract-only and legacy flags. *)
Theorem main_writes_only_its_output_file
    (sys : System) (flags : FlagConfig) (args : list string) (w : World)
    (path : string) :
  path ∉ outputPaths sys flags ->
  files (main sys flags args w).2 !! path = files w !! path.
Proof.
  revert w path. change (keeps (outputPaths sys flags) (main sys flags args)).
  unfold main, outputPaths.
  destruct (Help flags || HelpLong flags); [repeat keeps_step|].
  destruct (LoadConfig sys flags args) as [config|e] eqn:Hconfig;
    [|repeat keeps_step].
  apply LoadConfig_fields in Hconfig as (_ & Hout & Honly & _ & _).
  apply keeps_bind; [|intros; repeat keeps_step].
  unfold determineExecutionMode.
  destruct (GenerateMarkdown flags).
  { apply keeps_runMarkdownMode. set_solver. }
  destruct (FlagExtractFromGit flags); simpl.
  { apply keeps_runLegacyExtractFromGit. }
  destruct args as [|arg0 rest]; [apply keeps_ret|].
  unfold isDirectMode.
  destruct (FlagExtractOnly flags) eqn:Hflag; simpl.
  - destruct (CheckRepository _ ); [apply keeps_ret|].
    rewrite Honly. apply keeps_runExtractOnlyMode.
  - destruct (match regexp_Compile sys (JIRAIDRegex config) with
              | Ok regex => _ | Err _ => _ end).
    + apply keeps_processDirectJiraIDs. simpl. set_solver.
    + destruct (CheckRepository _ ); [apply keeps_ret|].
      rewrite Honly. apply keeps_runFullMode. simpl. set_solver.
Qed.

Lemma main_writes_only_its_output_file_witness :
  files (main trackerSystem noFlags ["EV-1"]
           (initialWorld {["notes.txt" := "kept"]})).2 !! "notes.txt" =
  files (initialWorld {["notes.txt" := "kept"]}) !! "notes.txt".
Proof.
  apply (main_writes_only_its_output_file trackerSystem noFlags ["EV-1"]
           (initialWorld {["notes.txt" := "kept"]}) "notes.txt").
  apply not_elem_of_cons. split; [discriminate | apply not_elem_of_nil].
Defined.

(** ** Exit status and diagnostics *)

Lemma DisplayUsage_world w :
  DisplayUsage w =
    (tt, {| stdout := stdout w +:+ usageText; stderr := stderr w;
            files := files w |}).
Proof.
  unfold DisplayUsage, usageText. revert w.
  induction usageLines as [|line rest IH]; intros w; simpl.
  - unfold ret. rewrite append_nil_r. by destruct w.
  - unfold bind, Println, Print. simpl. rewrite IH. simpl.
    by rewrite !append_assoc.
Qed.

(** X15.  With [-h] or [--help], [main] prints the usage text and exits
    with status 0, whatever the other flags, the arguments and the
    environment are; it reads no configuration and writes nothing else. *)
Theorem help_flag_only_prints_usage
    (sys : System) (flags : FlagConfig) (args : list string) (w : World) :
  Help flags || HelpLong flags = true ->
  main sys flags args w =
    (0, {| stdout := stdout w +:+ usageText; stderr := stderr w;
           files := files w |}).
Proof.
  intros Hhelp. unfold main. rewrite Hhelp. unfold bind.
  by rewrite DisplayUsage_world.
Qed.

Lemma help_flag_only_prints_usage_witness :
  main (sampleSystem noRepository)
       {| FlagJIRAIDRegex := "("; FlagOutputFile := ""; FlagExtractOnly := false;
          FlagExtractFromGit := true; CommitRange := false; Help := false;
          HelpLong := true; GenerateMarkdown := true; MarkdownOutput := "" |}
       [] (initialWorld ∅) =
    (0, {| stdout := usageText; stderr := ""; files := ∅ |}).
Proof.
  apply (help_flag_only_prints_usage (sampleSystem noRepository) _ []
           (initialWorld ∅)).
  reflexivity.
Defined.

(** X16.  When a run would fetch from the tracker and a credential is
    missing from the environment, [main] stops before looking at its
    arguments or at the repository: it names the first missing credential
    on standard error, prints the usage text and exits with status 1. *)
Theorem missing_credential_stops_before_any_work
    (sys : System) (flags : FlagConfig) (args : list string) (w : World)
    (field : string) :
  Help flags || HelpLong flags = false ->
  FlagExtractOnly flags = false ->
  FlagExtractFromGit flags = false ->
  GenerateMarkdown flags = false ->
  missingCredential sys = Some field ->
  main sys flags args w =
    (1, {| stdout := stdout w +:+ usageText;
           stderr := stderr w +:+
             ("Error loading configuration: " +:+
              Error (ValidationError field ""
                       (errorString "environment variable is required"))
              +:+ nl);
           files := files w |}).
Proof.
  intros Hhelp Honly Hlegacy Hmd Hmissing. unfold main. rewrite Hhelp.
  rewrite (LoadConfig_missing sys flags args field) by done.
  unfold bind, Eprint. cbv beta iota. by rewrite DisplayUsage_world.
Qed.

Lemma missing_credential_stops_before_any_work_witness :
  main (noCredentials (execCommand sampleGit)) noFlags ["EV-1"] (initialWorld ∅) =
    (1, {| stdout := usageText;
           stderr := "Error loading configuration: validation failed for "
                     +:+ "JIRA_URL" +:+ "='': environment variable is required"
                     +:+ nl;
           files := ∅ |}).
Proof.
  apply (missing_credential_stops_before_any_work
           (noCredentials (execCommand sampleGit)) noFlags ["EV-1"]
           (initialWorld ∅) "JIRA_URL"); reflexivity.
Defined.

(** X17.  Without the markdown and legacy flags and without arguments,
    [main] reports [missing required arguments] on standard error and exits
    with status 1. *)
Theorem missing_arguments_exit_1
    (sys : System) (flags : FlagConfig) (config : AppConfig) (w : World) :
  Help flags || HelpLong flags = false ->
  GenerateMarkdown flags = false ->
  FlagExtractFromGit flags = false ->
  LoadConfig sys flags [] = Ok config ->
  main sys flags [] w =
    (1, {| stdout := stdout w;
           stderr := stderr w +:+ ("Error: missing required arguments" +:+ nl);
           files := files w |}).
Proof.
  intros Hhelp Hmd Hlegacy Hconfig. unfold main. rewrite Hhelp, Hconfig.
  unfold bind, determineExecutionMode. rewrite Hmd, Hlegacy. reflexivity.
Qed.

Lemma missing_arguments_exit_1_witness :
  main (sampleSystem noRepository) noFlags [] (initialWorld ∅) =
    (1, {| stdout := "";
           stderr := "Error: missing required arguments" +:+ nl;
           files := ∅ |}).
Proof.
  apply (missing_arguments_exit_1 (sampleSystem noRepository) noFlags
           sampleConfig (initialWorld ∅)); reflexivity.
Defined.

(** X18.  In the repository modes, when the branch information was read
    and [rev-parse --verify HEAD] fails, the run ends as a soft failure:
    the diagnostic goes to standard error, no file is written and the exit
    status is 0. *)
Theorem unverifiable_HEAD_is_a_soft_failure
    (sys : System) (flags : FlagConfig) (arg0 : string) (rest : list string)
    (config : AppConfig) (w : World) (info : string * string * string) :
  Help flags || HelpLong flags = false ->
  GenerateMarkdown flags = false ->
  FlagExtractFromGit flags = false ->
  LoadConfig sys flags (arg0 :: rest) = Ok config ->
  isDirectMode sys flags (arg0 :: rest) config = false ->
  CheckRepository (git sys) = None ->
  GetBranchInfo (regexp_Compile sys) (git sys) = Ok info ->
  (exists e, defaultGitCommand sys ["rev-parse"; "--verify"; "HEAD"] = Err e) ->
  let (status, w') := main sys flags (arg0 :: rest) w in
  status = 0 ∧
  stderr w' = stderr w +:+
    ("❌ " +:+
     Error (GitError "rev-parse --verify HEAD"
              (errorString "repository may be empty or corrupted")) +:+ nl) ∧
  files w' = files w.
Proof.
  intros Hhelp Hmd Hlegacy Hconfig Hdirect Hrepo Hinfo [e He].
  destruct w as [out err fs].
  unfold main. rewrite Hhelp, Hconfig.
  unfold bind at 1. unfold determineExecutionMode.
  rewrite Hmd, Hlegacy, Hdirect, Hrepo.
  destruct info as [[branchName commitHash] currentJiraID].
  assert (Hhead : ValidateHEAD (git sys) =
            Some (GitError "rev-parse --verify HEAD"
                    (errorString "repository may be empty or corrupted"))).
  { unfold ValidateHEAD, git, NewGitService. simpl. by rewrite He. }
  destruct (ExtractOnly (withStartCommit config arg0)).
  - unfold runExtractOnlyMode. simpl GetBranchInfo.
    change (git sys) with (NewGitService (defaultGitCommand sys)) in *.
    rewrite Hinfo, Hhead.
    destruct (SingleCommit (withStartCommit config arg0)).
    all: cbn [bind Println Print Eprint ret stdout stderr files].
    all: repeat split.
  - unfold runFullMode.
    change (git sys) with (NewGitService (defaultGitCommand sys)) in *.
    rewrite Hinfo, Hhead.
    destruct (SingleCommit (withStartCommit config arg0)).
    all: cbn [bind Println Print Eprint ret stdout stderr files].
    all: repeat split.
Qed.

Lemma unverifiable_HEAD_is_a_soft_failure_witness :
  let (status, w') :=
    main (sampleSystem unverifiableHEAD) noFlags ["abc123"] (initialWorld ∅) in
  status = 0 ∧
  stderr w' = "" +:+
    ("❌ " +:+
     Error (GitError "rev-parse --verify HEAD"
              (errorString "repository may be empty or corrupted")) +:+ nl) ∧
  files w' = ∅.
Proof.
  apply (unverifiable_HEAD_is_a_soft_failure (sampleSystem unverifiableHEAD)
           noFlags "abc123" [] sampleConfig (initialWorld ∅)
           ("main", "f00d", "EV-9")).
  - reflexivity.
  - reflexivity.
  - reflexivity.
  - reflexivity.
  - vm_compute; reflexivity.
  - reflexivity.
  - vm_compute; reflexivity.
  - eexists. reflexivity.
Defined.

(** X19.  In legacy mode a start commit that does not validate is a soft
    failure as well: the diagnostic goes to standard error, nothing is
    extracted or written, and the exit status is 0. *)
Theorem legacy_mode_invalid_commit_is_a_soft_failure
    (sys : System) (flags : FlagConfig) (startCommit regex : string)
    (rest : list string) (w : World) (info : string * string * string)
    (e : error) :
  Help flags || HelpLong flags = false ->
  GenerateMarkdown flags = false ->
  FlagExtractFromGit flags = true ->
  GetBranchInfo (regexp_Compile sys) (git sys) = Ok info ->
  ValidateHEAD (git sys) = None ->
  ValidateCommit (git sys) startCommit = Some e ->
  let (status, w') := main sys flags (startCommit :: regex :: rest) w in
  status = 0 ∧
  stderr w' = stderr w +:+ ("❌ " +:+ Error e +:+ nl) ∧
  files w' = files w.
Proof.
  intros Hhelp Hmd Hlegacy Hinfo Hhead Hcommit.
  destruct w as [out err fs].
  destruct (LoadConfig_without_tracker sys flags (startCommit :: regex :: rest))
    as [config Hconfig].
  { by rewrite Hlegacy, orb_true_r. }
  unfold main. rewrite Hhelp, Hconfig.
  unfold bind at 1. unfold determineExecutionMode. rewrite Hmd, Hlegacy.
  unfold runLegacyExtractFromGit.
  change (git sys) with (NewGitService (defaultGitCommand sys)) in *.
  rewrite Hinfo. destruct info as [[branchName commitHash] currentJiraID].
  rewrite Hhead, Hcommit. io_run. by repeat split.
Qed.

Lemma legacy_mode_invalid_commit_is_a_soft_failure_witness :
  let (status, w') :=
    main (sampleSystem (execCommand sampleGit)) legacyFlags
         ["not-a-hash"; "[A-Z]+-[0-9]+"] (initialWorld ∅) in
  status = 0 ∧
  stderr w' = "" +:+
    ("❌ " +:+
     Error (ValidationError "commit" "not-a-hash" (errorString "invalid format"))
     +:+ nl) ∧
  files w' = files (initialWorld ∅).
Proof.
  apply (legacy_mode_invalid_commit_is_a_soft_failure
           (sampleSystem (execCommand sampleGit)) legacyFlags
           "not-a-hash" "[A-Z]+-[0-9]+" [] (initialWorld ∅)
           ("main", "f00d", "EV-9")); reflexivity.
Defined.

(** X20.  Outside legacy mode the same start commit is fatal: the error of
    the validation comes back from [ExtractJiraIDs], [main] reports it on
    standard error with the prefix of the mode, writes no file and exits
    with status 1. *)
Theorem invalid_commit_is_fatal_outside_legacy_mode
    (sys : System) (flags : FlagConfig) (arg0 : string) (rest : list string)
    (config : AppConfig) (w : World) (info : string * string * string)
    (e : error) :
  Help flags || HelpLong flags = false ->
  GenerateMarkdown flags = false ->
  FlagExtractFromGit flags = false ->
  LoadConfig sys flags (arg0 :: rest) = Ok config ->
  isDirectMode sys flags (arg0 :: rest) config = false ->
  CheckRepository (git sys) = None ->
  GetBranchInfo (regexp_Compile sys) (git sys) = Ok info ->
  ValidateHEAD (git sys) = None ->
  ValidateCommit (git sys) arg0 = Some e ->
  let (status, w') := main sys flags (arg0 :: rest) w in
  status = 1 ∧
  stderr w' = stderr w +:+
    ("Error: " +:+
     Error (errorString
              ((if FlagExtractOnly flags then "failed to extract JIRA IDs: "
                else "error extracting JIRA IDs: ") +:+ Error e)) +:+ nl) ∧
  files w' = files w.
Proof.
  intros Hhelp Hmd Hlegacy Hconfig Hdirect Hrepo Hinfo Hhead Hcommit.
  destruct w as [out err fs].
  unfold main. rewrite Hhelp, Hconfig.
  unfold bind at 1. unfold determineExecutionMode.
  rewrite Hmd, Hlegacy, Hdirect, Hrepo.
  apply LoadConfig_fields in Hconfig as (_ & _ & Honly & _ & _).
  destruct info as [[branchName commitHash] currentJiraID].
  change (ExtractOnly (withStartCommit config arg0)) with (ExtractOnly config).
  rewrite Honly.
  destruct (FlagExtractOnly flags).
  - unfold runExtractOnlyMode, ExtractJiraIDs.
    change (git sys) with (NewGitService (defaultGitCommand sys)) in *.
    rewrite Hinfo, Hhead.
    change (StartCommit (withStartCommit config arg0)) with arg0.
    rewrite Hcommit.
    destruct (SingleCommit (withStartCommit config arg0)).
    all: io_run.
    all: by repeat split.
  - unfold runFullMode, ExtractJiraIDs.
    change (git sys) with (NewGitService (defaultGitCommand sys)) in *.
    rewrite Hinfo, Hhead.
    change (StartCommit (withStartCommit config arg0)) with arg0.
    rewrite Hcommit.
    destruct (SingleCommit (withStartCommit config arg0)).
    all: io_run.
    all: by repeat split.
Qed.

Lemma invalid_commit_is_fatal_outside_legacy_mode_witness :
  let (status, w') :=
    main (sampleSystem (execCommand sampleGit)) extractOnlyFlags ["HEAD"]
         (initialWorld ∅) in
  status = 1 ∧
  stderr w' = "" +:+
    ("Error: " +:+
     Error (errorString
              ("failed to extract JIRA IDs: " +:+
               Error (ValidationError "commit" "HEAD"
                        (errorString "invalid format")))) +:+ nl) ∧
  files w' = ∅.
Proof.
  apply (invalid_commit_is_fatal_outside_legacy_mode
           (sampleSystem (execCommand sampleGit)) extractOnlyFlags "HEAD" []
           extractOnlyConfig (initialWorld ∅) ("main", "f00d", "EV-9")
           (ValidationError "commit" "HEAD" (errorString "invalid format"))).
  - reflexivity.
  - reflexivity.
  - reflexivity.
  - reflexivity.
  - reflexivity.
  - reflexivity.
  - vm_compute; reflexivity.
  - reflexivity.
  - reflexivity.
Defined.

(** ** The runs that fetch *)

Lemma ExtractJiraIDs_frame compile ord g startCommit pattern seed single w :
  stdout (ExtractJiraIDs compile ord g startCommit pattern seed single w).2 = stdout w ∧
  files (ExtractJiraIDs compile ord g startCommit pattern seed single w).2 = files w.
Proof.
  unfold ExtractJiraIDs.
  destruct (ValidateCommit g startCommit); [done|].
  destruct (if single then _ else _); [|done].
  destruct (compile pattern); [|done].
  unfold bind. destruct (_ =? 0); [|done]. by destruct single.
Qed.

Lemma ExtractJiraIDs_value compile ord g startCommit pattern seed single w w0 :
  (ExtractJiraIDs compile ord g startCommit pattern seed single w).1 =
  (ExtractJiraIDs compile ord g startCommit pattern seed single w0).1.
Proof.
  unfold ExtractJiraIDs.
  destruct (ValidateCommit g startCommit); [done|].
  destruct (if single then _ else _); [|done].
  destruct (compile pattern); [|done].
  unfold bind. destruct (_ =? 0); [|done]. by destruct single.
Qed.

Lemma files_ExtractJiraIDs compile ord g startCommit pattern seed single w :
  files (ExtractJiraIDs compile ord g startCommit pattern seed single w).2 = files w.
Proof.
  unfold ExtractJiraIDs.
  destruct (ValidateCommit g startCommit); [done|].
  destruct (if single then _ else _); [|done].
  destruct (compile pattern); [|done].
  unfold bind. destruct (_ =? 0); [|done]. by destruct single.
Qed.

(** X21.  In direct-identifier mode, with a client and a writable output
    file, [main] exits with status 0 and the one file it writes is the
    JSON form of a response with one task per argument, in the order of
    the arguments, each the outcome of fetching that argument. *)
Theorem direct_mode_saves_one_task_per_argument
    (sys : System) (flags : FlagConfig) (args : list string)
    (config : AppConfig) (jc : JiraClient) (w : World) :
  Help flags || HelpLong flags = false ->
  GenerateMarkdown flags = false ->
  FlagExtractFromGit flags = false ->
  LoadConfig sys flags args = Ok config ->
  isDirectMode sys flags args config = true ->
  NewJiraClient sys = Ok jc ->
  writable sys (OutputFile config) ->
  let (status, w') := main sys flags args w in
  status = 0 ∧
  files w' =
    <[OutputFile config :=
        json.MarshalIndent
          {| Tasks := Some ((fun jiraID =>
                               (fetchSingleJiraDetail (Sprint sys) jc jiraID w).1)
                              <$> args) |}]> (files w).
Proof.
  intros Hhelp Hmd Hlegacy Hconfig Hdirect Hclient [Hdir Hwrite].
  unfold main. rewrite Hhelp, Hconfig.
  unfold bind at 1. unfold determineExecutionMode. rewrite Hmd, Hlegacy.
  destruct args as [|arg0 rest].
  { unfold isDirectMode in Hdirect. simpl in Hdirect.
    by rewrite andb_false_r in Hdirect. }
  rewrite Hdirect. unfold processDirectJiraIDs. rewrite Hclient.
  change (JIRAIDs (withJIRAIDs config (arg0 :: rest))) with (arg0 :: rest).
  set (ids := arg0 :: rest).
  unfold bind at 1. unfold Print at 1. cbv beta iota.
  unfold bind at 1.
  match goal with
  | |- context [FetchJiraDetails ?S ?j ?l ?w0] =>
      pose proof (FetchJiraDetails_value S j l w0 w) as Hvalue;
      pose proof (files_FetchJiraDetails S j l w0) as Hfiles;
      destruct (FetchJiraDetails S j l w0) as [response [out1 err1 fs1]]
  end.
  simpl in Hvalue, Hfiles. subst response fs1.
  unfold saveJiraResults, writeToFile, WriteFile.
  change (OutputFile (withJIRAIDs config ids)) with (OutputFile config).
  rewrite Hdir, Hwrite. io_run. by split.
Qed.

Lemma direct_mode_saves_one_task_per_argument_witness :
  let (status, w') :=
    main trackerSystem noFlags ["EV-1"; "EV-2"] (initialWorld ∅) in
  status = 0 ∧
  files w' =
    <[OutputFile sampleConfig :=
        json.MarshalIndent
          {| Tasks := Some ((fun jiraID =>
                               (fetchSingleJiraDetail (Sprint trackerSystem)
                                  {| client := sampleTracker;
                                     baseURL := "https://example.atlassian.net" |}
                                  jiraID (initialWorld ∅)).1)
                              <$> ["EV-1"; "EV-2"]) |}]>
      (files (initialWorld ∅)).
Proof.
  apply (direct_mode_saves_one_task_per_argument trackerSystem noFlags
           ["EV-1"; "EV-2"] sampleConfig
           {| client := sampleTracker;
              baseURL := "https://example.atlassian.net" |}
           (initialWorld ∅)).
  - reflexivity.
  - reflexivity.
  - reflexivity.
  - reflexivity.
  - vm_compute; reflexivity.
  - reflexivity.
  - split; reflexivity.
Defined.

(** X22.  In full mode, once the repository checks pass and extraction
    succeeds: when no identifier was found, [main] exits with status 0 and
    writes no file, whether or not a client could be built.  Otherwise it
    exits with status 0 exactly when the client is built and the output
    file is written, and then that file is the JSON form of a response
    with one task per extracted identifier, in the order of extraction.
    When the client cannot be built or the directory of the output file
    cannot be created, it exits with status 1 and changes no file; when
    the write fails it exits with status 1 and the files are as they were,
    or the output file is left with a leading part of the JSON form. *)
Theorem full_mode_saves_one_task_per_extracted_identifier
    (sys : System) (flags : FlagConfig) (arg0 : string) (rest : list string)
    (config : AppConfig) (info : string * string * string)
    (jiraIDs : list string) (w : World) :
  Help flags || HelpLong flags = false ->
  GenerateMarkdown flags = false ->
  FlagExtractFromGit flags = false ->
  FlagExtractOnly flags = false ->
  LoadConfig sys flags (arg0 :: rest) = Ok config ->
  isDirectMode sys flags (arg0 :: rest) config = false ->
  CheckRepository (git sys) = None ->
  GetBranchInfo (regexp_Compile sys) (git sys) = Ok info ->
  ValidateHEAD (git sys) = None ->
  (ExtractJiraIDs (regexp_Compile sys) (rangeOrder sys) (git sys) arg0
     (JIRAIDRegex config) info.2 (negb (CommitRange flags)) w).1 = Ok jiraIDs ->
  let (status, w') := main sys flags (arg0 :: rest) w in
  match jiraIDs with
  | [] => status = 0 ∧ files w' = files w
  | _ =>
      match NewJiraClient sys with
      | Err _ => status = 1 ∧ files w' = files w
      | Ok jc =>
          let data :=
            json.MarshalIndent
              {| Tasks := Some ((fun jiraID =>
                                   (fetchSingleJiraDetail (Sprint sys) jc jiraID w).1)
                                  <$> jiraIDs) |} in
          match directoryError sys (OutputFile config),
                os_WriteFile sys (OutputFile config) with
          | None, None =>
              status = 0 ∧ files w' = <[OutputFile config := data]> (files w)
          | None, Some _ =>
              status = 1 ∧
              (files w' = files w ∨
               exists n, files w' =
                           <[OutputFile config := take_bytes n data]> (files w))
          | Some _, _ => status = 1 ∧ files w' = files w
          end
      end
  end.
Proof.
  intros Hhelp Hmd Hlegacy Honly Hconfig Hdirect Hrepo Hinfo Hhead Hids.
  destruct w as [out err fs].
  unfold main. rewrite Hhelp, Hconfig.
  unfold bind at 1. unfold determineExecutionMode.
  rewrite Hmd, Hlegacy, Hdirect, Hrepo.
  apply LoadConfig_fields in Hconfig as (_ & _ & Hextract & _ & Hsingle).
  change (ExtractOnly (withStartCommit config arg0)) with (ExtractOnly config).
  rewrite Hextract, Honly.
  destruct info as [[branchName commitHash] currentJiraID].
  unfold runFullMode.
  change (git sys) with (NewGitService (defaultGitCommand sys)) in *.
  rewrite Hinfo, Hhead.
  change (StartCommit (withStartCommit config arg0)) with arg0.
  change (SingleCommit (withStartCommit config arg0)) with (SingleCommit config).
  change (JIRAIDRegex (withStartCommit config arg0)) with (JIRAIDRegex config).
  change (OutputFile (withStartCommit config arg0)) with (OutputFile config).
  rewrite Hsingle. simpl snd in Hids.
  destruct (negb (CommitRange flags)).
  all: io_run.
  all: rewrite (bind_run (ExtractJiraIDs _ _ _ _ _ _ _)).
  all: match goal with
       | |- context [ExtractJiraIDs ?c ?o ?g ?s ?p ?d ?b ?w0] =>
           pose proof (ExtractJiraIDs_value c o g s p d b w0
                         {| stdout := out; stderr := err; files := fs |}) as Hv;
           pose proof (files_ExtractJiraIDs c o g s p d b w0) as Hf;
           destruct (ExtractJiraIDs c o g s p d b w0) as [r w1]
       end.
  all: simpl in Hv, Hf; rewrite Hids in Hv; subst r.
  all: destruct w1 as [out1 err1 fs1]; simpl in Hf; subst fs1.
  all: destruct jiraIDs as [|id ids]; io_run; [done|].
  all: destruct (NewJiraClient sys) as [jc|failure]; io_run; [|done].
  all: change (JIRAIDs (withJIRAIDs _ ?l)) with l.
  all: io_run.
  all: rewrite (bind_run (FetchJiraDetails _ _ _)).
  all: match goal with
       | |- context [FetchJiraDetails ?S ?j ?l ?w0] =>
           pose proof (FetchJiraDetails_value S j l w0
                         {| stdout := out; stderr := err; files := fs |}) as Hv;
           pose proof (files_FetchJiraDetails S j l w0) as Hf;
           destruct (FetchJiraDetails S j l w0) as [response w2]
       end.
  all: simpl in Hv, Hf; subst response.
  all: destruct w2 as [out2 err2 fs2]; simpl in Hf; subst fs2.
  all: unfold saveJiraResults, writeToFile, WriteFile, directoryError.
  all: change (OutputFile (withJIRAIDs _ _)) with (OutputFile config).
  all: cbv zeta.
  all: destruct (if negb _ then _ else _); io_run; [done|].
  all: destruct (os_WriteFile sys (OutputFile config)); io_run; [|done].
  all: destruct (os_WriteFile_partial sys (OutputFile config)) as [n|]; io_run.
  all: split; [done|]; first [by left | right; by exists n].
Qed.

Lemma full_mode_saves_one_task_per_extracted_identifier_witness :
  let (status, w') :=
    main trackerSystem noFlags ["abc123"] (initialWorld ∅) in
  match ["EV-1"] with
  | [] => status = 0 ∧ files w' = files (initialWorld ∅)
  | _ =>
      match NewJiraClient trackerSystem with
      | Err _ => status = 1 ∧ files w' = files (initialWorld ∅)
      | Ok jc =>
          let data :=
            json.MarshalIndent
              {| Tasks := Some ((fun jiraID =>
                                   (fetchSingleJiraDetail (Sprint trackerSystem)
                                      jc jiraID (initialWorld ∅)).1)
                                  <$> ["EV-1"]) |} in
          match directoryError trackerSystem (OutputFile sampleConfig),
                os_WriteFile trackerSystem (OutputFile sampleConfig) with
          | None, None =>
              status = 0 ∧
              files w' = <[OutputFile sampleConfig := data]>
                           (files (initialWorld ∅))
          | None, Some _ =>
              status = 1 ∧
              (files w' = files (initialWorld ∅) ∨
               exists n, files w' =
                           <[OutputFile sampleConfig := take_bytes n data]>
                             (files (initialWorld ∅)))
          | Some _, _ => status = 1 ∧ files w' = files (initialWorld ∅)
          end
      end
  end.
Proof.
  apply (full_mode_saves_one_task_per_extracted_identifier trackerSystem
           noFlags "abc123" [] sampleConfig ("main", "f00d", "EV-9") ["EV-1"]
           (initialWorld ∅)).
  - reflexivity.
  - reflexivity.
  - reflexivity.
  - reflexivity.
  - reflexivity.
  - vm_compute; reflexivity.
  - reflexivity.
  - vm_compute; reflexivity.
  - reflexivity.
  - vm_compute; reflexivity.
Defined.

(** ** The runs that do not fetch *)

Lemma GenerateMarkdownFromJSON_run sys inputFile outputFile w :
  GenerateMarkdownFromJSON sys inputFile outputFile w =
  match files w !! inputFile with
  | Some data =>
      match json.Unmarshal data with
      | Ok response =>
          let report :=
            generateMarkdown (time_Now sys) (rangeOrder sys) response in
          match os_WriteFile sys outputFile with
          | Some e =>
              (Some (errorString ("error writing markdown file: " +:+ Error e)),
               match os_WriteFile_partial sys outputFile with
               | None => w
               | Some n =>
                   {| stdout := stdout w; stderr := stderr w;
                      files := <[outputFile := take_bytes n report]> (files w) |}
               end)
          | None =>
              (None,
               {| stdout := stdout w +:+
                    ("Markdown file generated: " +:+ outputFile +:+ nl);
                  stderr := stderr w;
                  files := <[outputFile := report]> (files w) |})
          end
      | Err e => (Some (errorString ("error parsing JSON: " +:+ Error e)), w)
      end
  | None =>
      (Some (errorString
               ("error reading JSON file: " +:+
                Error (errorString ("open " +:+ inputFile +:+
                                    ": no such file or directory")))), w)
  end.
Proof.
  destruct w as [out err fs]. unfold GenerateMarkdownFromJSON, ReadFile.
  unfold bind at 1. cbn [files].
  destruct (fs !! inputFile) as [data|]; [|done].
  destruct (json.Unmarshal data) as [response|]; [|done].
  unfold bind at 1, WriteFile. cbv zeta.
  destruct (os_WriteFile sys outputFile); [|done].
  by destruct (os_WriteFile_partial sys outputFile).
Qed.

(** X23.  With the markdown flag, [main] needs no credential, no
    repository and no argument.  It exits with status 0 exactly when the
    input file is there, decodes to a response and the report is written,
    and then the report of that response is the one file it writes.  When
    the input file is missing or does not decode it exits with status 1
    and changes no file; when the write of the report fails it exits with
    status 1 and the files are as they were, or the report file is left
    with a leading part of the report. *)
Theorem markdown_mode_outcome
    (sys : System) (flags : FlagConfig) (args : list string) (w : World) :
  Help flags || HelpLong flags = false ->
  GenerateMarkdown flags = true ->
  let inputFile := getOrDefault [FlagOutputFile flags; Getenv sys "OUTPUT_FILE";
                                 DefaultOutputFile] in
  let outputFile := getOrDefault [MarkdownOutput flags;
                                  "transformed_jira_data.md"] in
  let (status, w') := main sys flags args w in
  match files w !! inputFile with
  | Some data =>
      match json.Unmarshal data with
      | Ok response =>
          let report :=
            generateMarkdown (time_Now sys) (rangeOrder sys) response in
          match os_WriteFile sys outputFile with
          | None =>
              status = 0 ∧ files w' = <[outputFile := report]> (files w)
          | Some _ =>
              status = 1 ∧
              (files w' = files w ∨
               exists n, files w' =
                           <[outputFile := take_bytes n report]> (files w))
          end
      | Err _ => status = 1 ∧ files w' = files w
      end
  | None => status = 1 ∧ files w' = files w
  end.
Proof.
  intros Hhelp Hmd. cbv zeta. destruct w as [out err fs].
  destruct (LoadConfig_without_tracker sys flags args) as [config Hconfig].
  { by rewrite Hmd, orb_true_r. }
  unfold main. rewrite Hhelp, Hconfig.
  unfold bind at 1. unfold determineExecutionMode. rewrite Hmd.
  unfold runMarkdownMode. io_run.
  rewrite (bind_run (GenerateMarkdownFromJSON _ _ _)).
  rewrite GenerateMarkdownFromJSON_run. cbn [files]. cbv zeta.
  destruct (fs !! _) as [data|]; [|by io_run].
  destruct (json.Unmarshal data) as [response|]; [|by io_run].
  destruct (os_WriteFile sys _); [|by io_run].
  destruct (os_WriteFile_partial sys _) as [n|]; io_run.
  - split; [done|]. right. by exists n.
  - split; [done|]. by left.
Qed.

Lemma markdown_mode_outcome_witness :
  let sys := noCredentials noRepository in
  let w := initialWorld {[DefaultOutputFile := json.MarshalIndent twoStatuses]} in
  let inputFile := getOrDefault [FlagOutputFile markdownFlags;
                                 Getenv sys "OUTPUT_FILE"; DefaultOutputFile] in
  let outputFile := getOrDefault [MarkdownOutput markdownFlags;
                                  "transformed_jira_data.md"] in
  let (status, w') := main sys markdownFlags [] w in
  match files w !! inputFile with
  | Some data =>
      match json.Unmarshal data with
      | Ok response =>
          let report :=
            generateMarkdown (time_Now sys) (rangeOrder sys) response in
          match os_WriteFile sys outputFile with
          | None =>
              status = 0 ∧ files w' = <[outputFile := report]> (files w)
          | Some _ =>
              status = 1 ∧
              (files w' = files w ∨
               exists n, files w' =
                           <[outputFile := take_bytes n report]> (files w))
          end
      | Err _ => status = 1 ∧ files w' = files w
      end
  | None => status = 1 ∧ files w' = files w
  end.
Proof.
  apply (markdown_mode_outcome (noCredentials noRepository) markdownFlags []
           (initialWorld {[DefaultOutputFile := json.MarshalIndent twoStatuses]}));
    reflexivity.
Defined.

(** X24.  In extract-only mode, once the repository checks pass and
    extraction succeeds, [main] exits with status 0, writes no file, and
    prints the banner of the mode followed by one line: the identifiers
    joined by commas, or [No JIRA IDs found]. *)
Theorem extract_only_mode_prints_the_identifiers
    (sys : System) (flags : FlagConfig) (arg0 : string) (rest : list string)
    (config : AppConfig) (branchName commitHash currentJiraID : string)
    (jiraIDs : list string) (w : World) :
  Help flags || HelpLong flags = false ->
  GenerateMarkdown flags = false ->
  FlagExtractFromGit flags = false ->
  FlagExtractOnly flags = true ->
  LoadConfig sys flags (arg0 :: rest) = Ok config ->
  CheckRepository (git sys) = None ->
  GetBranchInfo (regexp_Compile sys) (git sys) =
    Ok (branchName, commitHash, currentJiraID) ->
  ValidateHEAD (git sys) = None ->
  (ExtractJiraIDs (regexp_Compile sys) (rangeOrder sys) (git sys) arg0
     (JIRAIDRegex config) currentJiraID (negb (CommitRange flags)) w).1
    = Ok jiraIDs ->
  let (status, w') := main sys flags (arg0 :: rest) w in
  status = 0 ∧
  files w' = files w ∧
  stdout w' =
    stdout w +:+
    extractOnlyBanner arg0 (JIRAIDRegex config) branchName commitHash
      (negb (CommitRange flags)) +:+
    match jiraIDs with
    | [] => "No JIRA IDs found"
    | _ => strings.Join jiraIDs ","
    end +:+ nl.
Proof.
  intros Hhelp Hmd Hlegacy Honly Hconfig Hrepo Hinfo Hhead Hids.
  destruct w as [out err fs].
  unfold main. rewrite Hhelp, Hconfig.
  unfold bind at 1. unfold determineExecutionMode.
  rewrite Hmd, Hlegacy. unfold isDirectMode. rewrite Honly. cbn [negb andb].
  rewrite Hrepo.
  apply LoadConfig_fields in Hconfig as (_ & _ & Hextract & _ & Hsingle).
  change (ExtractOnly (withStartCommit config arg0)) with (ExtractOnly config).
  rewrite Hextract, Honly.
  unfold runExtractOnlyMode.
  change (git sys) with (NewGitService (defaultGitCommand sys)) in *.
  rewrite Hinfo, Hhead.
  change (StartCommit (withStartCommit config arg0)) with arg0.
  change (SingleCommit (withStartCommit config arg0)) with (SingleCommit config).
  change (JIRAIDRegex (withStartCommit config arg0)) with (JIRAIDRegex config).
  rewrite Hsingle. unfold extractOnlyBanner.
  destruct (negb (CommitRange flags)).
  all: io_run.
  all: rewrite (bind_run (ExtractJiraIDs _ _ _ _ _ _ _)).
  all: match goal with
       | |- context [ExtractJiraIDs ?c ?o ?g ?s ?p ?d ?b ?w0] =>
           pose proof (ExtractJiraIDs_value c o g s p d b w0
                         {| stdout := out; stderr := err; files := fs |}) as Hv;
           pose proof (ExtractJiraIDs_frame c o g s p d b w0) as [Hout Hf];
           destruct (ExtractJiraIDs c o g s p d b w0) as [r w1]
       end.
  all: simpl in Hv, Hf, Hout; rewrite Hids in Hv; subst r.
  all: destruct w1 as [out1 err1 fs1]; simpl in Hf, Hout; subst fs1 out1.
  all: destruct jiraIDs as [|id ids]; io_run.
  all: repeat split; by rewrite !append_assoc.
Qed.

Lemma extract_only_mode_prints_the_identifiers_witness :
  let (status, w') :=
    main (sampleSystem (execCommand sampleGit)) extractOnlyFlags ["abc123"]
      (initialWorld ∅) in
  status = 0 ∧
  files w' = files (initialWorld ∅) ∧
  stdout w' =
    stdout (initialWorld ∅) +:+
    extractOnlyBanner "abc123" (JIRAIDRegex extractOnlyConfig) "main" "f00d"
      (negb (CommitRange extractOnlyFlags)) +:+
    match ["EV-1"] with
    | [] => "No JIRA IDs found"
    | _ => strings.Join ["EV-1"] ","
    end +:+ nl.
Proof.
  apply (extract_only_mode_prints_the_identifiers
           (sampleSystem (execCommand sampleGit)) extractOnlyFlags "abc123" []
           extractOnlyConfig "main" "f00d" "EV-9" ["EV-1"] (initialWorld ∅)).
  - reflexivity.
  - reflexivity.
  - reflexivity.
  - reflexivity.
  - reflexivity.
  - reflexivity.
  - vm_compute; reflexivity.
  - reflexivity.
  - vm_compute; reflexivity.
Defined.

(** ** The report and the files *)

Lemma sum_countStep (m : gmap string nat) task :
  sum_list ((map_to_list (countStep m task)).*2) = S (sum_list ((map_to_list m).*2)).
Proof.
  unfold countStep. destruct (m !! Status task) as [n|] eqn:E; simpl.
  - rewrite <- (insert_delete_eq m).
    rewrite map_to_list_insert by apply lookup_delete_eq.
    rewrite <- (map_to_list_delete m (Status task) n E).
    simpl. lia.
  - by rewrite map_to_list_insert.
Qed.

Lemma sum_countLoop tasks (m : gmap string nat) :
  sum_list ((map_to_list (foldl countStep m tasks)).*2) =
  sum_list ((map_to_list m).*2) + length tasks.
Proof.
  revert m. induction tasks as [|task tasks IH]; intros m; simpl; [lia|].
  rewrite IH, sum_countStep. lia.
Qed.

Lemma countStatuses_positive tasks status n :
  countStatuses tasks !! status = Some n -> 0 < n.
Proof.
  change (countStatuses tasks) with (foldl countStep ∅ tasks).
  rewrite countLoop_lookup, lookup_empty.
  destruct (tasksWithStatus status tasks); [done|].
  intros [= <-]. simpl. lia.
Qed.

(** X25.  The report [generateMarkdown] writes is the header, the line
    [Total tasks:], the summary and the details, and then the rows of the
    status table in the order the map is iterated in.  The number in the
    [Total tasks:] line is the sum of the counts printed in these rows,
    and no row is printed with the count 0. *)
Theorem status_counts_add_up
    (now : time.Time) (ord : RangeOrder) (response : TransitionCheckResponse) :
  let rows := range ord (countStatuses (elems (Tasks response))) in
  (exists rest,
     generateMarkdown now ord response =
       reportHeader now +:+
       ("Total tasks: " +:+ time.itoa (sum_list rows.*2) +:+ nl +:+ rest) +:+
       writeAll (distributionRow <$> rows)) ∧
  Forall (fun row => 0 < row.2) rows.
Proof.
  cbv zeta. split.
  - assert (Hsum : sum_list (range ord (countStatuses (elems (Tasks response)))).*2
                   = len (Tasks response)).
    { rewrite (range_perm ord).
      change (countStatuses (elems (Tasks response)))
        with (foldl countStep ∅ (elems (Tasks response))).
      rewrite sum_countLoop. by rewrite map_to_list_empty. }
    rewrite Hsum. unfold generateMarkdown, reportHeader, reportBody.
    match goal with
    | |- context ["Total tasks: " +:+ _ +:+ nl +:+ ?rest] => exists rest
    end.
    by rewrite !append_assoc.
  - apply Forall_forall. intros [status n] Hin. simpl.
    rewrite (range_perm ord) in Hin. apply elem_of_map_to_list in Hin.
    by apply countStatuses_positive in Hin.
Qed.

Lemma Parse_timestamp s : isTimestamp s = true -> time.Parse s = None.
Proof.
  intros Hs.
  destruct s as [|y0 [|y1 [|y2 [|y3 [|a [|m0 [|m1 [|b [|d0 [|d1 [|c s]]]]]]]]]]];
    try discriminate Hs.
  destruct s as [|h0 [|h1 [|e [|i0 [|i1 [|f [|s0 [|s1 [|]]]]]]]]];
    try discriminate Hs.
  unfold isTimestamp in Hs. apply andb_true_iff in Hs as [_ Hsep].
  apply String.eqb_eq in Hsep. injection Hsep as -> -> -> -> ->.
  unfold time.Parse.
  cbv beta iota zeta delta [mbind option_bind].
  destruct (time.getLongYear _) as [[y v1]|] eqn:Ey; [|done].
  apply getLongYear_inv in Ey as (? & ? & ? & ? & [= <- <- <- <- <-] & _).
  cbv beta iota zeta. simpl time.skip. cbv beta iota zeta.
  destruct (time.getnum _ true) as [[mo v3]|] eqn:Emo; [|done].
  apply getnum_fixed_inv in Emo as (? & ? & [= <- <- <-] & _).
  cbv beta iota zeta.
  destruct ((mo =? 0) || (12 <? mo)); [done|].
  simpl time.skip. cbv beta iota zeta.
  destruct (time.getnum _ true) as [[d v5]|] eqn:Ed; [|done].
  apply getnum_fixed_inv in Ed as (? & ? & [= <- <- <-] & _).
  reflexivity.
Qed.

Lemma isTimestamp_nonempty s : isTimestamp s = true -> s <> "".
Proof. by intros H ->. Qed.

(** X26.  [formatDate] never returns the empty text, and formatting its
    own output changes nothing: [N/A], a text it could not parse and a
    time stamp it has printed all come back as they are. *)
Theorem formatDate_idempotent (dateStr : string) :
  formatDate (formatDate dateStr) = formatDate dateStr ∧
  formatDate dateStr <> "".
Proof.
  unfold formatDate at 2 3 4.
  destruct (String.eqb_spec dateStr "") as [->|Hne]; [done|].
  destruct (time.Parse dateStr) as [t|] eqn:Hparse.
  - destruct (Parse_wallClockText _ _ Hparse) as [_ Hts].
    pose proof (isTimestamp_nonempty _ Hts) as Hne'.
    split; [|done]. unfold formatDate.
    rewrite (Parse_timestamp _ Hts).
    by apply String.eqb_neq in Hne' as ->.
  - split; [|done]. unfold formatDate. rewrite Hparse.
    by apply String.eqb_neq in Hne as ->.
Qed.

(** X27.  [saveJiraResults] either writes the JSON form of the response
    to the output file and reports it on standard output, or returns an
    error that starts with [error writing to file] and prints nothing.
    After a failure the files are as they were, or the output file alone
    has changed and holds a leading part of the JSON form: [os.WriteFile]
    truncates the file before it writes. *)
Theorem failed_save_touches_only_the_output_file
    (sys : System) (response : TransitionCheckResponse) (config : AppConfig)
    (w : World) :
  let (failure, w') := saveJiraResults sys response config w in
  match failure with
  | None =>
      w' = {| stdout := stdout w +:+
                ("JIRA data saved to: " +:+ OutputFile config +:+ nl);
              stderr := stderr w;
              files := <[OutputFile config := json.MarshalIndent response]>
                         (files w) |}
  | Some e =>
      (exists cause, e = errorString ("error writing to file: " +:+ Error cause)) ∧
      stdout w' = stdout w ∧ stderr w' = stderr w ∧
      (files w' = files w ∨
       exists n, files w' =
                   <[OutputFile config :=
                       take_bytes n (json.MarshalIndent response)]> (files w))
  end.
Proof.
  destruct w as [out err fs]. unfold saveJiraResults, writeToFile, WriteFile.
  destruct (if negb _ then _ else _) as [e|].
  { io_run. split; [by eexists|]. repeat split; [..|by left]; done. }
  destruct (os_WriteFile sys (OutputFile config)) as [e|]; [|reflexivity].
  destruct (os_WriteFile_partial sys (OutputFile config)) as [n|]; io_run.
  - split; [by eexists|]. repeat split; [..|right; by exists n]; done.
  - split; [by eexists|]. repeat split; [..|by left]; done.
Qed.

(** X28.  [GenerateMarkdownFromJSON] either has read the input file,
    decoded it to a response, written the report of that response to the
    output file and said so on standard output, or it returns an error and
    prints nothing.  After a failure the files are as they were, or the
    input was read and decoded and the output file alone has changed and
    holds a leading part of the report. *)
Theorem failed_report_touches_only_the_output_file
    (sys : System) (inputFile outputFile : string) (w : World) :
  let (failure, w') := GenerateMarkdownFromJSON sys inputFile outputFile w in
  match failure with
  | None =>
      exists data response,
        files w !! inputFile = Some data ∧
        json.Unmarshal data = Ok response ∧
        w' = {| stdout := stdout w +:+
                  ("Markdown file generated: " +:+ outputFile +:+ nl);
                stderr := stderr w;
                files := <[outputFile :=
                             generateMarkdown (time_Now sys) (rangeOrder sys)
                               response]> (files w) |}
  | Some _ =>
      stdout w' = stdout w ∧ stderr w' = stderr w ∧
      (files w' = files w ∨
       exists data response n,
         files w !! inputFile = Some data ∧
         json.Unmarshal data = Ok response ∧
         files w' =
           <[outputFile :=
               take_bytes n (generateMarkdown (time_Now sys) (rangeOrder sys)
                               response)]> (files w))
  end.
Proof.
  destruct w as [out err fs]. unfold GenerateMarkdownFromJSON, ReadFile.
  unfold bind at 1. cbn [files].
  destruct (fs !! inputFile) as [data|] eqn:Hread;
    [|simpl; repeat split; [..|by left]; done].
  destruct (json.Unmarshal data) as [response|] eqn:Hparse;
    [|simpl; repeat split; [..|by left]; done].
  unfold bind at 1, WriteFile.
  destruct (os_WriteFile sys outputFile).
  - destruct (os_WriteFile_partial sys outputFile) as [n|]; io_run.
    + repeat split; [..|right; by exists data, response, n]; done.
    + repeat split; [..|by left]; done.
  - io_run. by exists data, response.
Qed.

(** ** The JSON form of any response *)

#[local] Arguments toValidUTF8 : simpl never.

Lemma sanitize_encodeSlice {A} (enc : A -> json.Value) (san : A -> A)
    (s : slice A) :
  (forall x, sanitizeValue (enc x) = enc (san x)) ->
  sanitizeValue (json.encodeSlice enc s) = json.encodeSlice enc (mapSlice san s).
Proof.
  intros Henc. destruct s as [l|]; [|reflexivity].
  unfold json.encodeSlice, mapSlice.
  change (sanitizeValue (json.Array (enc <$> l)))
    with (json.Array (sanitizeValue <$> (enc <$> l))).
  f_equal. rewrite <- !list_fmap_compose.
  apply list_fmap_ext. intros _ x _. apply Henc.
Qed.

Lemma sanitize_encodeTransition t :
  sanitizeValue (json.encodeTransition t) =
  json.encodeTransition (sanitizeTransition t).
Proof. reflexivity. Qed.

Lemma sanitize_encodeTask t :
  sanitizeValue (json.encodeTask t) = json.encodeTask (sanitizeTask t).
Proof.
  destruct t as [key link status desc type project created updated assignee
                 reporter priority transitions].
  unfold json.encodeTask, sanitizeTask.
  cbn [Key Link Status Description Type_ Project Created Updated Assignee
       Reporter Priority Transitions].
  rewrite toValidUTF8_empty.
  pose proof (sanitize_encodeSlice json.encodeTransition sanitizeTransition
                transitions sanitize_encodeTransition) as Htr.
  destruct (String.eqb link ""); destruct assignee; simpl;
    rewrite Htr; reflexivity.
Qed.

Lemma sanitize_encodeResponse r :
  sanitizeValue (json.encodeResponse r) = json.encodeResponse (sanitizeResponse r).
Proof.
  destruct r as [tasks]. unfold json.encodeResponse, sanitizeResponse.
  cbn [Tasks]. simpl.
  by rewrite (sanitize_encodeSlice json.encodeTask sanitizeTask tasks
                sanitize_encodeTask).
Qed.

Lemma textual_encodeSlice {A} (enc : A -> json.Value) (s : slice A) :
  (forall x, textual (enc x) = true) -> textual (json.encodeSlice enc s) = true.
Proof.
  intros Henc. destruct s as [l|]; [|reflexivity].
  unfold json.encodeSlice.
  change (textual (json.Array (enc <$> l))) with (forallb textual (enc <$> l)).
  induction l as [|x l IH]; [reflexivity|].
  rewrite fmap_cons. cbn [forallb]. by rewrite Henc, IH.
Qed.

Lemma textual_encodeTask t : textual (json.encodeTask t) = true.
Proof.
  unfold json.encodeTask.
  pose proof (textual_encodeSlice json.encodeTransition (Transitions t)
                ltac:(done)) as Htr.
  destruct (String.eqb (Link t) ""); destruct (Assignee t); simpl;
    by rewrite Htr.
Qed.

Lemma textual_encodeResponse r : textual (json.encodeResponse r) = true.
Proof.
  unfold json.encodeResponse. simpl.
  by rewrite (textual_encodeSlice json.encodeTask (Tasks r) textual_encodeTask).
Qed.

Lemma Unmarshal_MarshalIndent_sanitized response :
  json.Unmarshal (json.MarshalIndent response) = Ok (sanitizeResponse response).
Proof.
  unfold json.Unmarshal, json.MarshalIndent.
  rewrite parse_indent_sanitized.
  - rewrite sanitize_encodeResponse. apply decodeResponse_encoded.
  - apply textual_encodeResponse.
  - pose proof (nest_encodeResponse response).
    unfold depthOK, json.maxNestingDepth. lia.
Qed.

(** X29.  Whatever bytes its strings hold, the JSON form of a response is
    decoded without error, to the response with every byte that is not
    well-formed UTF-8 replaced by U+FFFD; nil and empty slices and a nil
    and an empty assignee stay distinct. *)
Theorem Unmarshal_MarshalIndent_replaces_invalid_bytes
    (response : TransitionCheckResponse) :
  json.Unmarshal (json.MarshalIndent response) = Ok (sanitizeResponse response).
Proof. apply Unmarshal_MarshalIndent_sanitized. Qed.

(** X30.  Once [saveJiraResults] has written a response,
    [GenerateMarkdownFromJSON] on that file writes the report of the
    response as it is read back, and nothing else changes but the two
    lines on standard output. *)
Theorem saved_response_is_rendered
    (sys : System) (response : TransitionCheckResponse) (config : AppConfig)
    (outputFile : string) (w : World) :
  writable sys (OutputFile config) ->
  os_WriteFile sys outputFile = None ->
  GenerateMarkdownFromJSON sys (OutputFile config) outputFile
    (saveJiraResults sys response config w).2 =
  (None,
   {| stdout := (stdout w +:+
                 ("JIRA data saved to: " +:+ OutputFile config +:+ nl)) +:+
                ("Markdown file generated: " +:+ outputFile +:+ nl);
      stderr := stderr w;
      files := <[outputFile :=
                   generateMarkdown (time_Now sys) (rangeOrder sys)
                     (sanitizeResponse response)]>
                 (<[OutputFile config := json.MarshalIndent response]>
                    (files w)) |}).
Proof.
  intros [Hdir Hwrite] Hout. destruct w as [out err fs].
  unfold saveJiraResults, writeToFile, WriteFile. rewrite Hdir, Hwrite. io_run.
  unfold GenerateMarkdownFromJSON, ReadFile. unfold bind at 1. cbn [files].
  rewrite lookup_insert_eq, Unmarshal_MarshalIndent_sanitized.
  unfold bind at 1, WriteFile. rewrite Hout. reflexivity.
Qed.

Lemma saved_response_is_rendered_witness :
  GenerateMarkdownFromJSON trackerSystem (OutputFile sampleConfig) "report.md"
    (saveJiraResults trackerSystem sampleResponse sampleConfig
       (initialWorld ∅)).2 =
  (None,
   {| stdout := ("" +:+
                 ("JIRA data saved to: " +:+ OutputFile sampleConfig +:+ nl)) +:+
                ("Markdown file generated: " +:+ "report.md" +:+ nl);
      stderr := "";
      files := <["report.md" :=
                   generateMarkdown (time_Now trackerSystem)
                     (rangeOrder trackerSystem)
                     (sanitizeResponse sampleResponse)]>
                 (<[OutputFile sampleConfig := json.MarshalIndent sampleResponse]>
                    ∅) |}).
Proof.
  apply (saved_response_is_rendered trackerSystem sampleResponse sampleConfig
           "report.md" (initialWorld ∅)).
  - split; reflexivity.
  - reflexivity.
Defined.
